(** * GitLab audit log exporter: a shallow embedding of [gitlab_audit_export.py]

    The Python functions of the exporter are rendered as Rocq functions over
    explicit models of the values they handle:
    - JSON documents returned by the GitLab API and the Python values stored in
      event dictionaries are terms of [json] ([JNull] is Python's [None];
      numbers are integers);
    - Python [str] is [string], read as the UTF-8 bytes of the text;
    - a dictionary is an association list in insertion order;
    - code that may raise returns a [result], and the [try]/[except] blocks of
      the source are matches on it;
    - the HTTP session is a script of replies consumed in order, and the
      remaining library and process boundaries (dateutil, [datetime],
      [subprocess], [quote_plus]) are fields of an environment record. *)

From Stdlib Require Import ZArith List String Ascii Bool Lia DecimalString Sorted.
From Stdlib Require OrdersEx RelationClasses.
Import ListNotations.

Set Warnings "-register-all".

Local Open Scope string_scope.
Local Open Scope Z_scope.

(** ** Exceptions and results *)

(** The exceptions an [except Exception] clause catches. *)
Inductive exn : Type :=
| TypeError
| AttributeError
| KeyError
| ValueError
| OverflowError
| RuntimeError (status : Z) (text : string)
| OtherError (name : string).

Inductive result (A : Type) : Type :=
| Ok (a : A)
| Raise (e : exn).

Arguments Ok {A} a.
Arguments Raise {A} e.

Definition bind {A B : Type} (c : result A) (k : A -> result B) : result B :=
  match c with
  | Ok a => k a
  | Raise e => Raise e
  end.

Notation "x <- c ;; k" := (bind c (fun x => k))
  (at level 61, c at next level, right associativity).

(** ** JSON documents and Python values *)

(** A parsed document; the members of an object have distinct keys. *)
Inductive json : Type :=
| JNull
| JBool (b : bool)
| JNum (n : Z)
| JStr (s : string)
| JArr (items : list json)
| JObj (members : list (string * json)).

Definition pydict : Type := list (string * json).

(** Python truth value testing. *)
Definition truthy (v : json) : bool :=
  match v with
  | JNull => false
  | JBool b => b
  | JNum n => negb (n =? 0)
  | JStr s => negb (s =? "")%string
  | JArr items => match items with [] => false | _ => true end
  | JObj members => match members with [] => false | _ => true end
  end.

(** [a or b] *)
Definition py_or (a b : json) : json := if truthy a then a else b.

Fixpoint dict_lookup (d : pydict) (k : string) : option json :=
  match d with
  | [] => None
  | (k', v) :: d' => if (k' =? k)%string then Some v else dict_lookup d' k
  end.

(** [d[k] = v] on a dictionary: an existing key keeps its position. *)
Fixpoint dict_set (d : pydict) (k : string) (v : json) : pydict :=
  match d with
  | [] => [(k, v)]
  | (k', v') :: d' =>
      if (k' =? k)%string then (k', v) :: d' else (k', v') :: dict_set d' k v
  end.

(** [d.setdefault(k, v)] *)
Definition dict_setdefault (d : pydict) (k : string) (v : json) : pydict :=
  match dict_lookup d k with
  | Some _ => d
  | None => (d ++ [(k, v)])%list
  end.

Definition dict_keys (d : pydict) : list string := map fst d.

(** [d.get(k, default)] on a dictionary. *)
Definition dict_get (d : pydict) (k : string) (default : json) : json :=
  match dict_lookup d k with
  | Some v => v
  | None => default
  end.

(** [v.get(k, default)] on an arbitrary value: only dictionaries have [get]. *)
Definition py_get (v : json) (k : string) (default : json) : result json :=
  match v with
  | JObj d => Ok (dict_get d k default)
  | _ => Raise AttributeError
  end.

(** [v[k]] with a string key. *)
Definition py_getitem (v : json) (k : string) : result json :=
  match v with
  | JObj d => match dict_lookup d k with
              | Some x => Ok x
              | None => Raise KeyError
              end
  | _ => Raise TypeError
  end.

Definition chars_of (s : string) : list json :=
  map (fun c => JStr (String c "")) (list_ascii_of_string s).

(** Iteration ([for x in v], [list.extend(v)]): a dictionary yields its keys,
    a string its characters (one per byte, which is exact for ASCII text). *)
Definition py_iter (v : json) : result (list json) :=
  match v with
  | JArr items => Ok items
  | JObj d => Ok (map JStr (dict_keys d))
  | JStr s => Ok (chars_of s)
  | _ => Raise TypeError
  end.

(** ** Strings *)

Definition LF : ascii := "010"%char.
Definition CR : ascii := "013"%char.
Definition PIPE : ascii := "|"%char.
Definition SPACE : ascii := " "%char.
Definition SLASH : ascii := "/"%char.
Definition DASH : ascii := "-"%char.

(** [s.replace(a, b)] for one-character [a] and [b]. *)
Fixpoint str_replace (a b : ascii) (s : string) : string :=
  match s with
  | EmptyString => EmptyString
  | String c s' => String (if Ascii.eqb c a then b else c) (str_replace a b s')
  end.

(** The method call [v.replace(a, b)]: only strings have it. *)
Definition py_replace (a b : ascii) (v : json) : result json :=
  match v with
  | JStr s => Ok (JStr (str_replace a b s))
  | _ => Raise AttributeError
  end.

(** Cut [s] at the first occurrence of [sep]. *)
Fixpoint str_partition (sep : ascii) (s : string) : option (string * string) :=
  match s with
  | EmptyString => None
  | String c s' =>
      if Ascii.eqb c sep then Some (EmptyString, s')
      else match str_partition sep s' with
           | Some (pre, post) => Some (String c pre, post)
           | None => None
           end
  end.

(** [s.split(sep, maxsplit)] for a one-character separator. *)
Fixpoint str_split (sep : ascii) (maxsplit : nat) (s : string) : list string :=
  match maxsplit with
  | O => [s]
  | S n =>
      match str_partition sep s with
      | Some (pre, post) => pre :: str_split sep n post
      | None => [s]
      end
  end.

(** [s.rstrip(c)] *)
Fixpoint str_rstrip (c : ascii) (s : string) : string :=
  match s with
  | EmptyString => EmptyString
  | String a s' =>
      match str_rstrip c s' with
      | EmptyString => if Ascii.eqb a c then EmptyString else String a EmptyString
      | t => String a t
      end
  end.

(** One-byte line boundaries of [str.splitlines]: LF, VT, FF, CR, FS, GS, RS. *)
Definition is_line_break (c : ascii) : bool :=
  let n := nat_of_ascii c in
  ((10 <=? n) && (n <=? 13) || (28 <=? n) && (n <=? 30))%nat.

(** [s.splitlines()] on UTF-8 text.  [cur] is the line being read.  Besides
    the one-byte boundaries, CR LF counts once and U+0085, U+2028 and U+2029
    are recognised by their encodings C2 85, E2 80 A8 and E2 80 A9. *)
Fixpoint splitlines_from (cur : string) (s : string) : list string :=
  match s with
  | EmptyString => if (cur =? "")%string then [] else [cur]
  | String c s1 =>
      if Ascii.eqb c CR then
        match s1 with
        | String c2 s2 =>
            if Ascii.eqb c2 LF then cur :: splitlines_from "" s2
            else cur :: splitlines_from "" s1
        | EmptyString => cur :: splitlines_from "" s1
        end
      else if is_line_break c then cur :: splitlines_from "" s1
      else
        match s1 with
        | String c2 s2 =>
            if (Ascii.eqb c "194" && Ascii.eqb c2 "133")%char
            then cur :: splitlines_from "" s2
            else
              match s2 with
              | String c3 s3 =>
                  if (Ascii.eqb c "226" && Ascii.eqb c2 "128"
                      && (Ascii.eqb c3 "168" || Ascii.eqb c3 "169"))%char
                  then cur :: splitlines_from "" s3
                  else splitlines_from (cur ++ String c "") s1
              | EmptyString => splitlines_from (cur ++ String c "") s1
              end
        | EmptyString => splitlines_from (cur ++ String c "") s1
        end
  end.

Definition splitlines (s : string) : list string := splitlines_from "" s.

(** [str(n)] for an integer. *)
Definition str_of_Z (n : Z) : string := NilZero.string_of_int (Z.to_int n).

(** ** Instants *)

(** A [datetime]: microseconds on the proleptic time line (UTC for an aware
    value, wall clock for a naive one) and whether it carries a time zone. *)
Record datetime : Type := mk_datetime { ticks : Z; aware : bool }.

(** Ordering of two [datetime]s: comparing a naive with an aware value raises
    [TypeError]. *)
Definition dt_lt (a b : datetime) : result bool :=
  if Bool.eqb (aware a) (aware b) then Ok (ticks a <? ticks b)
  else Raise TypeError.

(** [a < b] and [a > b] where [a] may be [None]: [None] is not orderable. *)
Definition py_lt (a : option datetime) (b : datetime) : result bool :=
  match a with
  | Some x => dt_lt x b
  | None => Raise TypeError
  end.

Definition py_gt (a : option datetime) (b : datetime) : result bool :=
  match a with
  | Some x => dt_lt b x
  | None => Raise TypeError
  end.

(** ** Environment

    What the script reaches outside its own code.  An [option] result is
    [None] when the library call raises. *)
Record Env : Type := mk_env {
  (** [Some parse] when [dateutil] could be imported; [parse dayfirst s] is
      [dtparser.parse(s, dayfirst=...)]. *)
  dtparser : option (bool -> string -> option datetime);
  (** [datetime.fromisoformat] *)
  fromisoformat : string -> option datetime;
  (** [datetime.isoformat] *)
  isoformat : datetime -> string;
  (** [datetime.now() - timedelta(days=d)] *)
  now_minus_days : Z -> result datetime;
  (** [subprocess.check_output(['git'] + args, cwd=repo_path, text=True)] *)
  check_output : string -> list string -> result string;
  (** [urllib.parse.quote_plus] *)
  quote_plus : string -> string;
  (** [str] of a list or a dictionary *)
  str_container : json -> string
}.

(** [str(v)], as the f-strings of the collector apply it. *)
Definition py_str (env : Env) (v : json) : string :=
  match v with
  | JNull => "None"
  | JBool true => "True"
  | JBool false => "False"
  | JNum n => str_of_Z n
  | JStr s => s
  | _ => str_container env v
  end.

(** ** Date normalization and filtering *)

Definition normalize_date (env : Env) (s : json) : json :=
  if negb (truthy s) then JStr ""
  else
    match dtparser env with
    | Some parse =>
        match s with
        | JStr text =>
            match parse false text with
            | Some dt => JStr (isoformat env dt)
            | None => s
            end
        | _ => s
        end
    | None => s
    end.

Definition parse_date_any (env : Env) (s : json) : result (option datetime) :=
  if negb (truthy s) then Ok None
  else
    s1 <- py_replace SLASH DASH s ;;
    match s1 with
    | JStr text =>
        match dtparser env with
        | Some parse => Ok (parse true text)
        | None => Ok (fromisoformat env text)
        end
    | _ => Raise AttributeError
    end.

Definition within_range (env : Env) (ts : json) (start end_ : option datetime)
  : result bool :=
  if negb (truthy ts) then
    Ok (match start, end_ with None, None => true | _, _ => false end)
  else
    match parse_date_any env ts with
    | Raise _ => Ok false
    | Ok dt =>
        below <- match start with
                 | Some s => py_lt dt s
                 | None => Ok false
                 end ;;
        if below then Ok false
        else
          above <- match end_ with
                   | Some e => py_gt dt e
                   | None => Ok false
                   end ;;
          if above then Ok false else Ok true
    end.

(** Reading of the filter window: [same_kind] says that a bound, when set, can
    be ordered with [t]; [not_before] and [not_after] are the two inclusive
    tests. *)
Definition same_kind (t : datetime) (bound : option datetime) : Prop :=
  match bound with
  | Some b => aware b = aware t
  | None => True
  end.

Definition not_before (t : datetime) (start : option datetime) : bool :=
  match start with
  | Some s => ticks s <=? ticks t
  | None => true
  end.

Definition not_after (t : datetime) (end_ : option datetime) : bool :=
  match end_ with
  | Some e => ticks t <=? ticks e
  | None => true
  end.

(** ** GitLab API client *)

Record response : Type := mk_response {
  status_code : Z;
  text : string;
  (** [r.json()] *)
  json_body : result json;
  (** [r.headers.get('X-Next-Page')] *)
  x_next_page : option string
}.

(** [r.ok]: the status is not a client or server error. *)
Definition ok (r : response) : bool :=
  negb ((400 <=? status_code r) && (status_code r <? 600)).

Record request : Type := mk_request {
  req_url : string;
  req_params : pydict;
  req_verify : bool
}.

(** The session as the collector sees it: the replies still to come, each a
    response or a transport exception, and the requests issued so far. *)
Record session : Type := mk_session {
  pending : list (result response);
  sent : list request
}.

Record GitLabClient : Type := mk_client {
  base_url : string;
  token : string;
  verify : bool
}.

Definition GitLabClient_init (url private_token : string) (verify_ssl : bool)
  : GitLabClient :=
  mk_client (str_rstrip SLASH url) private_token verify_ssl.

(** [r.headers.get('X-Next-Page') or ''] *)
Definition next_page_of (r : response) : string :=
  match x_next_page r with
  | Some p => p
  | None => ""
  end.

(** The [while True] loop of [_get].  Every turn takes one reply off the
    session; a session with no reply left fails the request.  The pause
    between two pages leaves no trace in the values. *)
Fixpoint get_pages (url : string) (vfy : bool) (params : pydict)
  (all_items : list json) (replies : list (result response))
  (log : list request) {struct replies} : result json * session :=
  let log' := (log ++ [mk_request url params vfy])%list in
  match replies with
  | [] => (Raise (OtherError "ConnectionError"), mk_session [] log')
  | Raise e :: rest => (Raise e, mk_session rest log')
  | Ok r :: rest =>
      if negb (ok r) then
        (Raise (RuntimeError (status_code r) (text r)), mk_session rest log')
      else
        match json_body r with
        | Raise e => (Raise e, mk_session rest log')
        | Ok (JObj d) => (Ok (JObj d), mk_session rest log')
        | Ok data =>
            match py_iter data with
            | Raise e => (Raise e, mk_session rest log')
            | Ok more =>
                let all_items' := (all_items ++ more)%list in
                let next_page := next_page_of r in
                if (next_page =? "")%string then
                  (Ok (JArr all_items'), mk_session rest log')
                else
                  get_pages url vfy (dict_set params "page" (JStr next_page))
                    all_items' rest log'
            end
        end
  end.

Definition _get (self : GitLabClient) (path : string) (params : pydict)
  (s : session) : result json * session :=
  let url := base_url self ++ path in
  let params := dict_setdefault params "per_page" (JNum 100) in
  get_pages url (verify self) params [] (pending s) (sent s).

Definition get_project_by_path (env : Env) (self : GitLabClient)
  (project_path : string) : session -> result json * session :=
  _get self ("/api/v4/projects/" ++ quote_plus env project_path) [].

Definition list_commits (env : Env) (self : GitLabClient) (proj : json)
  : session -> result json * session :=
  _get self ("/api/v4/projects/" ++ quote_plus env (py_str env proj)
             ++ "/repository/commits") [].

Definition list_branches (env : Env) (self : GitLabClient) (proj : json)
  : session -> result json * session :=
  _get self ("/api/v4/projects/" ++ quote_plus env (py_str env proj)
             ++ "/repository/branches") [].

Definition list_merge_requests (env : Env) (self : GitLabClient) (proj : json)
  : session -> result json * session :=
  _get self ("/api/v4/projects/" ++ quote_plus env (py_str env proj)
             ++ "/merge_requests") [("state", JStr "all")].

(** ** Local git helpers *)

Definition run_git (env : Env) (repo_path : string) (args : list string)
  : result string :=
  check_output env repo_path args.

Definition event (source action_type : string)
  (user_name user_email timestamp ref commit_sha message url : json) : pydict :=
  [ ("source", JStr source);
    ("action_type", JStr action_type);
    ("user_name", user_name);
    ("user_email", user_email);
    ("timestamp", timestamp);
    ("ref", ref);
    ("commit_sha", commit_sha);
    ("message", message);
    ("url", url) ].

Fixpoint filter_some {A B : Type} (f : A -> option B) (l : list A) : list B :=
  match l with
  | [] => []
  | x :: l' =>
      match f x with
      | Some y => y :: filter_some f l'
      | None => filter_some f l'
      end
  end.

(** One turn of the loop of [parse_git_log]: [None] is [continue]. *)
Definition git_log_row (line : string) : option pydict :=
  match str_split PIPE 4 line with
  | [sha; an; ae; ad; msg] =>
      Some (event "local_commit" "commit" (JStr an) (JStr ae) (JStr ad)
              (JStr "") (JStr sha) (JStr msg) (JStr ""))
  | _ => None
  end.

Definition parse_git_log (env : Env) (repo_path : string)
  : result (list pydict) :=
  out <- run_git env repo_path
           ["log"; "--all"; "--pretty=format:%H|%an|%ae|%ad|%s"; "--date=iso"] ;;
  Ok (filter_some git_log_row (splitlines out)).

(** One turn of the loop of [parse_reflog]. *)
Definition reflog_row (line : string) : pydict :=
  let parts := str_split SPACE 1 line in
  let sha := hd "" parts in
  let msg := match parts with _ :: m :: _ => m | _ => "" end in
  event "local_reflog" "reflog" (JStr "") (JStr "") (JStr "") (JStr "")
    (JStr sha) (JStr msg) (JStr "").

Definition parse_reflog (env : Env) (repo_path : string)
  : result (list pydict) :=
  out <- run_git env repo_path ["reflog"; "--date=iso"] ;;
  Ok (map reflog_row (splitlines out)).

(** ** Data collection *)

Record Args : Type := mk_args {
  gitlab_url : option string;
  private_token : option string;
  project : string;
  repo_path : string;
  months_back : option Z;
  date_range : option (string * string);
  insecure : bool
}.

(** The messages the collector prints, by the block that prints them. *)
Inductive diag : Type :=
| ResolveFailed (e : exn)
| CommitsFetchError (e : exn)
| BranchesFetchError (e : exn)
| MergeRequestsFetchError (e : exn)
| GitLogError (e : exn)
| ReflogError (e : exn).

(** A [for] loop whose body appends at most one row.  The rows live in one
    list that the loop extends in place, so a body that raises leaves the rows
    appended before it. *)
Fixpoint for_each {A : Type} (body : A -> result (option pydict))
  (items : list A) (rows : list pydict) : list pydict * option exn :=
  match items with
  | [] => (rows, None)
  | x :: items' =>
      match body x with
      | Raise e => (rows, Some e)
      | Ok None => for_each body items' rows
      | Ok (Some ev) => for_each body items' (rows ++ [ev])%list
      end
  end.

Definition commit_row (env : Env) (start_date end_date : option datetime)
  (c : json) : result (option pydict) :=
  created_at <- py_get c "created_at" JNull ;;
  raw <- (if truthy created_at then Ok created_at
          else py_get c "committed_date" JNull) ;;
  let ts := normalize_date env raw in
  keep <- within_range env ts start_date end_date ;;
  if negb keep then Ok None
  else
    author_name <- py_get c "author_name" JNull ;;
    author_email <- py_get c "author_email" JNull ;;
    id <- py_get c "id" JNull ;;
    message <- py_get c "message" (JStr "") ;;
    message <- py_replace LF SPACE message ;;
    web_url <- py_get c "web_url" (JStr "") ;;
    Ok (Some (event "gitlab_commit" "commit" author_name author_email ts
                (JStr "") id message web_url)).

Definition branch_row (env : Env) (start_date end_date : option datetime)
  (b : json) : result (option pydict) :=
  commit <- py_get b "commit" (JObj []) ;;
  committed_date <- py_get commit "committed_date" JNull ;;
  let ts := normalize_date env committed_date in
  keep <- within_range env ts start_date end_date ;;
  if negb keep then Ok None
  else
    name <- py_get b "name" JNull ;;
    id <- py_get commit "id" JNull ;;
    message <- py_get commit "message" (JStr "") ;;
    web_url <- py_get b "web_url" (JStr "") ;;
    Ok (Some (event "gitlab_branch" "branch" (JStr "") (JStr "") ts
                name id message web_url)).

Definition merge_request_row (env : Env)
  (start_date end_date : option datetime) (m : json)
  : result (option pydict) :=
  updated_at <- py_get m "updated_at" JNull ;;
  let ts := normalize_date env updated_at in
  keep <- within_range env ts start_date end_date ;;
  if negb keep then Ok None
  else
    state <- py_get m "state" JNull ;;
    author <- py_get m "author" JNull ;;
    name <- py_get (py_or author (JObj [])) "name" JNull ;;
    source_branch <- py_get m "source_branch" JNull ;;
    target_branch <- py_get m "target_branch" JNull ;;
    sha <- py_get m "sha" (JStr "") ;;
    title <- py_get m "title" (JStr "") ;;
    web_url <- py_get m "web_url" (JStr "") ;;
    Ok (Some (event "gitlab_merge_request"
                ("merge_request_" ++ py_str env state)
                name (JStr "") ts
                (JStr (py_str env source_branch ++ "->"
                       ++ py_str env target_branch))
                sha title web_url)).

Definition local_row (env : Env) (start_date end_date : option datetime)
  (entry : pydict) : result (option pydict) :=
  let ts := dict_get entry "timestamp" JNull in
  keep <- within_range env ts start_date end_date ;;
  if negb keep then Ok None else Ok (Some entry).

(** The state the sub-steps of the collector pass along. *)
Record run : Type := mk_run {
  rows : list pydict;
  net : session;
  printed : list diag
}.

Definition report (report_as : exn -> diag) (err : option exn) : list diag :=
  match err with
  | Some e => [report_as e]
  | None => []
  end.

(** One [try] block over a remote listing: fetch, then filter and map each
    item; any exception ends the block and is printed. *)
Definition remote_step (fetch : session -> result json * session)
  (body : json -> result (option pydict)) (report_as : exn -> diag)
  (st : run) : run :=
  let (listing, net') := fetch (net st) in
  match listing with
  | Raise e => mk_run (rows st) net' (printed st ++ [report_as e])%list
  | Ok items =>
      match py_iter items with
      | Raise e => mk_run (rows st) net' (printed st ++ [report_as e])%list
      | Ok items =>
          let (rows', err) := for_each body items (rows st) in
          mk_run rows' net' (printed st ++ report report_as err)%list
      end
  end.

(** One [try] block over a local parser. *)
Definition local_step (parse : result (list pydict))
  (body : pydict -> result (option pydict)) (report_as : exn -> diag)
  (st : run) : run :=
  match parse with
  | Raise e => mk_run (rows st) (net st) (printed st ++ [report_as e])%list
  | Ok entries =>
      let (rows', err) := for_each body entries (rows st) in
      mk_run rows' (net st) (printed st ++ report report_as err)%list
  end.

Definition is_set (s : option string) : bool :=
  match s with
  | Some x => negb (x =? "")%string
  | None => false
  end.

(** The filter window of step 1: the month count first, then the explicit
    range, which replaces both bounds. *)
Definition filter_window (env : Env) (args : Args)
  : result (option datetime * option datetime) :=
  start_date <- match months_back args with
                | Some n =>
                    if n =? 0 then Ok None
                    else d <- now_minus_days env (30 * n) ;; Ok (Some d)
                | None => Ok None
                end ;;
  match date_range args with
  | Some (from, to) =>
      s <- parse_date_any env (JStr from) ;;
      e <- parse_date_any env (JStr to) ;;
      Ok (s, e)
  | None => Ok (start_date, None)
  end.

(** Resolution of the project: the [id] of the project record, or the given
    value when anything fails. *)
Definition resolve_project (env : Env) (client : GitLabClient) (args : Args)
  (st : run) : json * run :=
  let (proj, net') := get_project_by_path env client (project args) (net st) in
  match proj_id <- proj ;; py_getitem proj_id "id" with
  | Ok proj_id => (proj_id, mk_run (rows st) net' (printed st))
  | Raise e =>
      (JStr (project args),
       mk_run (rows st) net' (printed st ++ [ResolveFailed e])%list)
  end.

Definition remote_enabled (args : Args) : bool :=
  is_set (gitlab_url args) && is_set (private_token args).

Definition client_of (args : Args) : GitLabClient :=
  GitLabClient_init (match gitlab_url args with Some u => u | None => "" end)
    (match private_token args with Some t => t | None => "" end)
    (negb (insecure args)).

Definition collect_remote (env : Env) (args : Args)
  (start_date end_date : option datetime) (st : run) : run :=
  if remote_enabled args then
    let client := client_of args in
    let (proj_id, st) := resolve_project env client args st in
    let st := remote_step (list_commits env client proj_id)
                (commit_row env start_date end_date) CommitsFetchError st in
    let st := remote_step (list_branches env client proj_id)
                (branch_row env start_date end_date) BranchesFetchError st in
    remote_step (list_merge_requests env client proj_id)
      (merge_request_row env start_date end_date) MergeRequestsFetchError st
  else st.

Definition local_enabled (args : Args) : bool :=
  negb (repo_path args =? "")%string.

Definition collect_local (env : Env) (args : Args)
  (start_date end_date : option datetime) (st : run) : run :=
  if local_enabled args then
    let st := local_step (parse_git_log env (repo_path args))
                (local_row env start_date end_date) GitLogError st in
    local_step (parse_reflog env (repo_path args))
      (local_row env start_date end_date) ReflogError st
  else st.

Definition collect_data (env : Env) (args : Args) (s : session)
  : result run :=
  window <- filter_window env args ;;
  let (start_date, end_date) := window in
  let st := mk_run [] s [] in
  let st := collect_remote env args start_date end_date st in
  Ok (collect_local env args start_date end_date st).

(** ** CSV writer *)

Definition COMMA : ascii := ","%char.
Definition QUOTE : ascii := "034"%char.
Definition CRLF : string := String CR (String LF "").

(** [sorted(set(...))]: insertion in code point order, equal keys merged. *)
Fixpoint insert_sorted (k : string) (l : list string) : list string :=
  match l with
  | [] => [k]
  | x :: l' =>
      match String.compare k x with
      | Lt => k :: l
      | Eq => l
      | Gt => x :: insert_sorted k l'
      end
  end.

Definition sorted_set (l : list string) : list string :=
  fold_right insert_sorted [] l.

(** The text the writer of the [csv] module puts for a value: nothing for
    [None], the string itself, [str] of anything else. *)
Definition csv_text (env : Env) (v : json) : string :=
  match v with
  | JNull => ""
  | _ => py_str env v
  end.

(** Excel dialect, minimal quoting: a field is quoted when it holds the
    delimiter, the quote character or a character of the line terminator. *)
Definition is_special (c : ascii) : bool :=
  Ascii.eqb c COMMA || Ascii.eqb c QUOTE || Ascii.eqb c CR || Ascii.eqb c LF.

Fixpoint needs_quotes (s : string) : bool :=
  match s with
  | EmptyString => false
  | String c s' => is_special c || needs_quotes s'
  end.

(** Quote characters are doubled. *)
Fixpoint escape (s : string) : string :=
  match s with
  | EmptyString => EmptyString
  | String c s' =>
      if Ascii.eqb c QUOTE then String QUOTE (String QUOTE (escape s'))
      else String c (escape s')
  end.

Definition csv_field (s : string) : string :=
  if needs_quotes s then String QUOTE (escape s ++ String QUOTE "") else s.

(** [writer.writerow]: a lone empty field is written quoted, so that the line
    is not blank. *)
Definition writerow (fields : list string) : string :=
  match fields with
  | [f] =>
      if (f =? "")%string then String QUOTE (String QUOTE CRLF)
      else csv_field f ++ CRLF
  | _ => String.concat "," (map csv_field fields) ++ CRLF
  end.

(** The column header of [write_csv]. *)
Definition fieldnames (rows : list pydict) : list string :=
  sorted_set (flat_map dict_keys rows).

(** The cells [DictWriter.writerow] writes for the dictionary
    [{k: r.get(k, '') for k in keys}]. *)
Definition row_cells (env : Env) (keys : list string) (r : pydict)
  : list string :=
  map (fun k => csv_text env (dict_get r k (JStr ""))) keys.

(** [write_csv]: the content of the file, or [None] when no file is
    written. *)
Definition write_csv (env : Env) (rows : list pydict) : option string :=
  match rows with
  | [] => None
  | _ =>
      let keys := fieldnames rows in
      Some (writerow keys
            ++ String.concat "" (map (fun r => writerow (row_cells env keys r))
                                   rows))
  end.

(** ** CSV reader

    The reader of the [csv] module for the same dialect, on a file opened
    with [newline=''], and [DictReader] over it.  The text is read character
    by character; the end of a line (after LF, or after a CR that no LF
    follows, or at the end of the text) is the [None] input of the
    automaton, and a record is complete when a line ends in [START_RECORD].
    The limit on the size of a field is not modelled. *)

Inductive rstate : Type :=
| START_RECORD
| START_FIELD
| IN_FIELD
| IN_QUOTED_FIELD
| QUOTE_IN_QUOTED_FIELD
| EAT_CRNL.

Record reader : Type := mk_reader {
  state : rstate;
  (** the field being read *)
  field : string;
  (** the fields of the record being read *)
  fields : list string;
  (** the records read *)
  records : list (list string);
  (** the last character was a CR, whose line is not ended yet *)
  after_cr : bool;
  (** the current line has characters *)
  in_line : bool
}.

Definition set_state (st : rstate) (rd : reader) : reader :=
  mk_reader st (field rd) (fields rd) (records rd) (after_cr rd) (in_line rd).

Definition add_char (c : ascii) (rd : reader) : reader :=
  mk_reader (state rd) (field rd ++ String c "") (fields rd) (records rd)
    (after_cr rd) (in_line rd).

Definition save_field (rd : reader) : reader :=
  mk_reader (state rd) "" (fields rd ++ [field rd])%list (records rd)
    (after_cr rd) (in_line rd).

Definition is_newline (c : ascii) : bool := Ascii.eqb c LF || Ascii.eqb c CR.

(** The state after a field ended at [c]. *)
Definition after_field (c : option ascii) : rstate :=
  match c with
  | None => START_RECORD
  | Some _ => EAT_CRNL
  end.

Definition at_line_end (c : option ascii) : bool :=
  match c with
  | None => true
  | Some a => is_newline a
  end.

Definition start_field (rd : reader) (c : option ascii) : reader :=
  if at_line_end c then set_state (after_field c) (save_field rd)
  else
    match c with
    | Some a =>
        if Ascii.eqb a QUOTE then set_state IN_QUOTED_FIELD rd
        else if Ascii.eqb a COMMA then save_field rd
        else set_state IN_FIELD (add_char a rd)
    | None => rd
    end.

(** One step of the automaton; [None] is the end of a line. *)
Definition process_char (rd : reader) (c : option ascii) : result reader :=
  match state rd with
  | START_RECORD =>
      match c with
      | None => Ok rd
      | Some a =>
          if is_newline a then Ok (set_state EAT_CRNL rd)
          else Ok (start_field (set_state START_FIELD rd) c)
      end
  | START_FIELD => Ok (start_field rd c)
  | IN_FIELD =>
      if at_line_end c then Ok (set_state (after_field c) (save_field rd))
      else
        match c with
        | Some a =>
            if Ascii.eqb a COMMA then Ok (set_state START_FIELD (save_field rd))
            else Ok (add_char a rd)
        | None => Ok rd
        end
  | IN_QUOTED_FIELD =>
      match c with
      | None => Ok rd
      | Some a =>
          if Ascii.eqb a QUOTE then Ok (set_state QUOTE_IN_QUOTED_FIELD rd)
          else Ok (add_char a rd)
      end
  | QUOTE_IN_QUOTED_FIELD =>
      if at_line_end c then Ok (set_state (after_field c) (save_field rd))
      else
        match c with
        | Some a =>
            if Ascii.eqb a QUOTE then
              Ok (set_state IN_QUOTED_FIELD (add_char a rd))
            else if Ascii.eqb a COMMA then
              Ok (set_state START_FIELD (save_field rd))
            else Ok (set_state IN_FIELD (add_char a rd))
        | None => Ok rd
        end
  | EAT_CRNL =>
      match c with
      | None => Ok (set_state START_RECORD rd)
      | Some a =>
          if is_newline a then Ok rd else Raise (OtherError "csv.Error")
      end
  end.

Definition set_line (cr inl : bool) (rd : reader) : reader :=
  mk_reader (state rd) (field rd) (fields rd) (records rd) cr inl.

(** The end of a line: a record is handed out when the automaton is back in
    [START_RECORD]. *)
Definition end_of_line (rd : reader) : result reader :=
  rd <- process_char rd None ;;
  match state rd with
  | START_RECORD =>
      Ok (mk_reader START_RECORD "" [] (records rd ++ [fields rd])%list
            false false)
  | _ => Ok (set_line false false rd)
  end.

(** One character of the file. *)
Definition feed (rd : reader) (c : ascii) : result reader :=
  rd <- (if after_cr rd && negb (Ascii.eqb c LF) then end_of_line rd
         else Ok rd) ;;
  rd <- process_char rd (Some c) ;;
  if Ascii.eqb c LF then end_of_line rd
  else Ok (set_line (Ascii.eqb c CR) true rd).

Fixpoint feed_string (rd : reader) (s : string) : result reader :=
  match s with
  | EmptyString => Ok rd
  | String c s' => rd <- feed rd c ;; feed_string rd s'
  end.

(** The end of the text: the last line ends, and a record left open inside a
    quoted field or with a field begun is handed out as it is. *)
Definition finish (rd : reader) : result (list (list string)) :=
  rd <- (if after_cr rd || in_line rd then end_of_line rd else Ok rd) ;;
  match state rd with
  | START_RECORD => Ok (records rd)
  | IN_QUOTED_FIELD => Ok (records rd ++ [fields rd ++ [field rd]])%list
  | _ =>
      if (field rd =? "")%string then Ok (records rd)
      else Ok (records rd ++ [fields rd ++ [field rd]])%list
  end.

Definition new_reader : reader := mk_reader START_RECORD "" [] [] false false.

(** [list(csv.reader(f))] *)
Definition csv_reader (content : string) : result (list (list string)) :=
  rd <- feed_string new_reader content ;;
  finish rd.

(** A row of [DictReader]: the dictionary over the field names, where a
    missing cell is [None], and the cells beyond the last field name, which
    [DictReader] stores under the key [None]. *)
Record read_row : Type := mk_read_row {
  by_name : pydict;
  overflow : list string
}.

(** [dict(zip(names, row))] *)
Definition dict_of_zip (names row : list string) : pydict :=
  fold_left (fun d p => dict_set d (fst p) (JStr (snd p))) (combine names row)
    [].

Definition dict_row (names row : list string) : read_row :=
  let d := dict_of_zip names row in
  if (List.length names <? List.length row)%nat then
    mk_read_row d (skipn (List.length names) row)
  else
    mk_read_row
      (fold_left (fun d k => dict_set d k JNull) (skipn (List.length row) names)
         d)
      [].

Definition is_blank (row : list string) : bool :=
  match row with
  | [] => true
  | _ => false
  end.

(** [list(csv.DictReader(f))]: the first record gives the field names, blank
    records are passed over. *)
Definition DictReader (content : string) : result (list read_row) :=
  recs <- csv_reader content ;;
  match recs with
  | [] => Ok []
  | names :: rest =>
      Ok (map (dict_row names) (filter (fun r => negb (is_blank r)) rest))
  end.

(** The reader at the start of a record, with the records [done] read. *)
Definition at_record_start (done : list (list string)) : reader :=
  mk_reader START_RECORD "" [] done false false.

(** The reader right after the text of a field [cur], the fields [fs] of the
    record and the records [done] being read before: inside an unquoted
    field, after the closing quote of a quoted one, or still at the start of a
    field whose text is empty. *)
Inductive field_read (cur : string) (fs : list string)
  (done : list (list string)) : reader -> Prop :=
| read_plain :
    field_read cur fs done (mk_reader IN_FIELD cur fs done false true)
| read_quoted :
    field_read cur fs done
      (mk_reader QUOTE_IN_QUOTED_FIELD cur fs done false true)
| read_empty (inl : bool) :
    cur = "" ->
    field_read cur fs done (mk_reader START_FIELD "" fs done false inl).

(** The text of the fields after the first one of a row. *)
Fixpoint tail_text (fs : list string) : string :=
  match fs with
  | [] => ""
  | f :: fs' => String COMMA (csv_field f) ++ tail_text fs'
  end.

(** ** Vocabulary of the statements *)

Fixpoint count_char (c : ascii) (s : string) : nat :=
  match s with
  | EmptyString => O
  | String a s' => (if Ascii.eqb a c then 1 else 0) + count_char c s'
  end.

(** A list-valued page that the server answers with success. *)
Definition list_page (r : response) : Prop :=
  ok r = true /\ exists items, json_body r = Ok (JArr items).

Definition page_items (r : response) : list json :=
  match json_body r with
  | Ok (JArr items) => items
  | _ => []
  end.

(** The requests that walk through [pages]: the first with the given
    parameters, each later one with [page] set to the cursor of the page
    before it. *)
Fixpoint page_requests (url : string) (vfy : bool) (params : pydict)
  (pages : list response) : list request :=
  match pages with
  | [] => []
  | r :: pages' =>
      mk_request url params vfy
      :: page_requests url vfy (dict_set params "page" (JStr (next_page_of r)))
           pages'
  end.

(** The rows a loop appends to an empty list before it ends or raises. *)
Definition appended {A : Type} (body : A -> result (option pydict))
  (items : list A) : list pydict :=
  fst (for_each body items []).

(** The rows a remote sub-step adds, by the outcome of its listing. *)
Definition remote_rows (listing : result json)
  (body : json -> result (option pydict)) : list pydict :=
  match items <- listing ;; py_iter items with
  | Ok items => appended body items
  | Raise _ => []
  end.

(** The rows a local sub-step adds, by the outcome of its parser. *)
Definition local_rows (parse : result (list pydict))
  (body : pydict -> result (option pydict)) : list pydict :=
  match parse with
  | Ok entries => appended body entries
  | Raise _ => []
  end.

(** The outcomes of the three listings of a run, each issued on the session
    that the call before it left behind. *)
Definition remote_listings (env : Env) (args : Args) (s : session)
  : result json * result json * result json :=
  let client := client_of args in
  let (proj_id, st) := resolve_project env client args (mk_run [] s []) in
  let commits := list_commits env client proj_id (net st) in
  let branches := list_branches env client proj_id (snd commits) in
  let merge_requests := list_merge_requests env client proj_id (snd branches) in
  (fst commits, fst branches, fst merge_requests).

Definition nine_fields : list string :=
  [ "source"; "action_type"; "user_name"; "user_email"; "timestamp"; "ref";
    "commit_sha"; "message"; "url" ].

(** [ev] is an event dictionary of source [src]. *)
Definition is_event (src : string) (ev : pydict) : Prop :=
  exists action un ue ts rf sha msg url,
    ev = event src action un ue ts rf sha msg url.

(** ** Sample environments

    Concrete environments for closed statements: the parsers are finite
    tables, the clock is fixed, and [git] answers with given texts. *)

Definition table_parse (table : list (string * datetime)) (s : string)
  : option datetime :=
  match find (fun p => (fst p =? s)%string) table with
  | Some p => Some (snd p)
  | None => None
  end.

Definition table_format (table : list (string * datetime)) (d : datetime)
  : string :=
  match find (fun p => (ticks (snd p) =? ticks d)
                       && Bool.eqb (aware (snd p)) (aware d)) table with
  | Some p => fst p
  | None => ""
  end.

(** Microseconds from 0001-01-01 to the end of year 9999. *)
Definition max_ticks : Z := 3652059 * 86400 * 1000000.

Definition sample_clock (now : Z) (days : Z) : result datetime :=
  if 999999999 <? Z.abs days then Raise OverflowError
  else
    let t := now - days * 86400 * 1000000 in
    if (0 <=? t) && (t <? max_ticks) then Ok (mk_datetime t false)
    else Raise OverflowError.

Definition sample_env (flexible : option (list (string * datetime)))
  (iso : list (string * datetime)) (git_log git_reflog : result string) : Env :=
  {| dtparser := option_map (fun t (_ : bool) s => table_parse t s) flexible;
     fromisoformat := table_parse iso;
     isoformat := table_format
                    (match flexible with Some t => t | None => iso end);
     now_minus_days := sample_clock 63896551200000000;
     check_output := fun _ args =>
                       match args with
                       | "log" :: _ => git_log
                       | _ => git_reflog
                       end;
     quote_plus := fun s => s;
     str_container := fun _ => "[...]" |}.

Definition no_git : result string := Raise (OtherError "CalledProcessError").

(** 2025-07-24 00:00 and 2025-10-02 00:00, naive. *)
Definition jul24 : datetime := mk_datetime 63888912000000000 false.
Definition oct02 : datetime := mk_datetime 63894960000000000 false.
(** 2025-09-01 08:30, naive, and 2025-09-01 08:30 +02:00, aware. *)
Definition sep01 : datetime := mk_datetime 63892312200000000 false.
Definition sep01_aware : datetime := mk_datetime 63892305000000000 true.

Definition sample_dates : list (string * datetime) :=
  [ ("2025-07-24", jul24);
    ("2025-10-02", oct02);
    ("2025-09-01 08:30:00", sep01);
    ("2025-09-01 08:30:00 +0200", sep01_aware) ].

(** [dateutil] installed; the parser is a table of the texts it reads and
    takes no account of the [dayfirst] preference. *)
Definition env_flexible : Env :=
  sample_env (Some sample_dates) [] no_git no_git.

(** [dateutil] missing. *)
Definition env_iso : Env :=
  sample_env None sample_dates no_git no_git.

(** [dateutil] installed and rejecting a text that [fromisoformat] accepts
    (an ISO week date, say). *)
Definition env_week : Env :=
  sample_env (Some sample_dates) [("2025-W36-1", sep01)] no_git no_git.

(** A client and two pages of commits. *)
Definition sample_client : GitLabClient :=
  GitLabClient_init "https://gitlab.example.com/" "glpat-0000" true.

Definition commit_a : json :=
  JObj [ ("id", JStr "a1b2c3"); ("author_name", JStr "Ann");
         ("author_email", JStr "ann@example.org");
         ("message", JStr "first"); ("web_url", JStr "https://x/a1b2c3") ].

Definition commit_b : json :=
  JObj [ ("id", JStr "d4e5f6"); ("author_name", JStr "Bob");
         ("author_email", JStr "bob@example.org");
         ("message", JStr "second") ].

Definition commit_c : json :=
  JObj [ ("id", JStr "0a0b0c"); ("message", JStr "third") ].

Definition page_one : response :=
  mk_response 200 "" (Ok (JArr [commit_a; commit_b])) (Some "2").

Definition page_two : response :=
  mk_response 200 "" (Ok (JArr [commit_c])) (Some "").

(** A commit whose message is JSON null, a branch, and a run over them: the
    project resolves to 7, the commits and the branches are listed, the
    merge-request listing meets a transport failure, and [git] fails. *)
Definition commit_null_message : json :=
  JObj [ ("id", JStr "777777"); ("message", JNull) ].

Definition branch_main : json :=
  JObj [ ("name", JStr "main");
         ("commit", JObj [ ("id", JStr "a1b2c3"); ("message", JStr "first") ]) ].

Definition sample_args : Args :=
  mk_args (Some "https://gitlab.example.com") (Some "glpat-0000")
    "group/project" "/srv/repo" None None false.

Definition sample_session : session :=
  mk_session
    [ Ok (mk_response 200 "" (Ok (JObj [("id", JNum 7)])) None);
      Ok (mk_response 200 "" (Ok (JArr [commit_a; commit_null_message; commit_b]))
            None);
      Ok (mk_response 200 "" (Ok (JArr [branch_main])) None);
      Raise (OtherError "ConnectionError") ]
    [].

(** A commit without author, and a merge request without branches, state or
    head commit. *)
Definition commit_no_author : json :=
  JObj [ ("id", JStr "c0ffee"); ("message", JStr "fix") ].

Definition merge_request_bare : json :=
  JObj [ ("title", JStr "Draft"); ("sha", JNull) ].

(** A local repository with one commit and one reflog line, read through a
    date range. *)
Definition env_repo : Env :=
  sample_env None sample_dates
    (Ok "c0ffee|Ann|ann@example.org|2025-09-01 08:30:00|a | b | c")
    (Ok "c0ffee HEAD@{2025-09-01 08:30:00 +0200}: commit: a | b | c").

Definition local_args : Args :=
  mk_args None None "group/project" "/srv/repo" None
    (Some ("2025/07/24", "2025/10/02")) false.

(** The same repository with [dateutil] installed and the commit date as
    [git log --date=iso] prints it. *)
Definition env_repo_iso_dates : Env :=
  sample_env (Some sample_dates) []
    (Ok "c0ffee|Ann|ann@example.org|2025-09-01 08:30:00 +0200|a | b | c")
    (Ok "c0ffee HEAD@{2025-09-01 08:30:00 +0200}: commit: a | b | c").

Definition dashed_range_args : Args :=
  mk_args None None "group/project" "/srv/repo" None
    (Some ("2025-07-24", "2025-10-02")) false.

(** A run in which the project is not resolved, one commit without author is
    listed, no branch, and one bare merge request. *)
Definition bare_session : session :=
  mk_session
    [ Ok (mk_response 404 "404 Project Not Found"
            (Ok (JObj [("message", JStr "404 Project Not Found")])) None);
      Ok (mk_response 200 "" (Ok (JArr [commit_no_author])) None);
      Ok (mk_response 200 "" (Ok (JArr [])) None);
      Ok (mk_response 200 "" (Ok (JArr [merge_request_bare])) None) ]
    [].

(** Two events with different keys and awkward values. *)
Definition csv_rows : list pydict :=
  [ [ ("source", JStr "local_commit"); ("message", JStr "a, b") ];
    [ ("url", JStr ""); ("message", JStr ("x" ++ String QUOTE "y" ++ CRLF ++ "z")) ] ].

(** ** Further vocabulary *)

Definition is_text (v : json) : bool :=
  match v with
  | JStr _ => true
  | _ => false
  end.

(** The arguments with the month count taken out. *)
Definition without_months (args : Args) : Args :=
  mk_args (gitlab_url args) (private_token args) (project args)
    (repo_path args) None (date_range args) (insecure args).

Definition is_local_source (ev : pydict) : Prop :=
  dict_lookup ev "source" = Some (JStr "local_commit")
  \/ dict_lookup ev "source" = Some (JStr "local_reflog").

(** A run over a local repository only, with a month count of zero. *)
Definition zero_months_args : Args :=
  mk_args None (Some "glpat-0000") "group/project" "/srv/repo" (Some 0) None
    false.

(** A month count together with a range that no parser accepts. *)
Definition bad_range_args : Args :=
  mk_args None None "group/project" "/srv/repo" (Some 3)
    (Some ("yesterday", "today")) false.

(** A month count beyond what [timedelta] accepts. *)
Definition huge_months_args : Args :=
  mk_args None None "group/project" "/srv/repo" (Some 40000000) None false.

(** The parameters of the request that follows [pages]. *)
Definition params_after (params : pydict) (pages : list response) : pydict :=
  fold_left (fun p r => dict_set p "page" (JStr (next_page_of r))) pages params.

(** [n] times the character [c]. *)
Fixpoint replicate (c : ascii) (n : nat) : string :=
  match n with
  | O => ""
  | S n' => String c (replicate c n')
  end.

Fixpoint ends_with (c : ascii) (s : string) : bool :=
  match s with
  | EmptyString => false
  | String a EmptyString => Ascii.eqb a c
  | String _ s' => ends_with c s'
  end.

(** What every request of one call of [_get] has in common. *)
Definition request_of (self : GitLabClient) (path : string) (params : pydict)
  (rq : request) : Prop :=
  req_url rq = base_url self ++ path
  /\ req_verify rq = verify self
  /\ dict_lookup (req_params rq) "per_page"
     = Some (dict_get params "per_page" (JNum 100))
  /\ forall k, k <> "page" -> k <> "per_page" ->
               dict_lookup (req_params rq) k = dict_lookup params k.

(** A page that the server refuses. *)
Definition page_forbidden : response :=
  mk_response 403 "403 Forbidden"
    (Ok (JObj [("message", JStr "403 Forbidden")])) None.

(** An ASCII character that is no line boundary of [splitlines], and a text
    made of such characters. *)
Definition plain_char (c : ascii) : bool :=
  (nat_of_ascii c <? 128)%nat && negb (is_line_break c).

Fixpoint plain_text (s : string) : bool :=
  match s with
  | EmptyString => true
  | String c s' => plain_char c && plain_text s'
  end.

(** A line as [git] prints it: not empty, plain. *)
Definition output_line (s : string) : Prop :=
  s <> "" /\ plain_text s = true.

(** The output of [git] for the given lines: LF between them, none at the
    end. *)
Definition output_of (lines : list string) : string :=
  String.concat (String LF "") lines.

(** [git] answering with the given texts for the log and for the reflog. *)
Definition env_git (log reflog : string) : Env :=
  sample_env None sample_dates (Ok log) (Ok reflog).

(** An address without token. *)
Definition no_token_args : Args :=
  mk_args (Some "https://gitlab.example.com") (Some "") "group/project"
    "/srv/repo" None None false.

(** The nine field names in code point order: the header of a CSV file made
    of events. *)
Definition sorted_fields : list string :=
  [ "action_type"; "commit_sha"; "message"; "ref"; "source"; "timestamp";
    "url"; "user_email"; "user_name" ].

(** The row [DictReader] gives for an event written under the columns
    [keys]. *)
Definition read_back (env : Env) (keys : list string) (r : pydict) : read_row :=
  mk_read_row
    (map (fun k => (k, JStr (csv_text env (dict_get r k (JStr ""))))) keys) [].

(** ** Interactive HTML writer *)

(** The text written before the header cells; its pieces are joined by the
    double quotes of the attribute values. *)
Definition html_head : string :=
  String.concat (String QUOTE "")
    [ "<!DOCTYPE html>
<html lang=";
      "en";
      ">
<head>
<meta charset=";
      "utf-8";
      ">
<title>GitLab Audit Export</title>
<style>
body{font-family:Arial,Helvetica,sans-serif;margin:20px;}
table{border-collapse:collapse;width:100%;}
th,td{border:1px solid #ddd;padding:6px;}
th{background:#f2f2f2;cursor:pointer;}
tr:nth-child(even){background:#fafafa;}
input{margin-bottom:10px;padding:6px;width:300px;}
</style>
</head><body>
<h2>GitLab Audit Export (Interactive)</h2>
<input type=";
      "text";
      " id=";
      "searchBox";
      " placeholder=";
      "Search...";
      ">
<table id=";
      "auditTable";
      ">
<thead><tr>" ].

(** The text written after the last row. *)
Definition html_tail : string :=
  "</tbody></table>
<script>
// Simple sort + search
const table=document.getElementById('auditTable');
const headers=table.querySelectorAll('th');
headers.forEach((th,idx)=>{
  th.addEventListener('click',()=>{
    const rows=[...table.tBodies[0].rows];
    const asc=th.asc=!th.asc;
    rows.sort((a,b)=>{
      const av=a.cells[idx].innerText.trim().toLowerCase();
      const bv=b.cells[idx].innerText.trim().toLowerCase();
      return av.localeCompare(bv)*(asc?1:-1);
    });
    rows.forEach(r=>table.tBodies[0].appendChild(r));
  });
});
document.getElementById('searchBox').addEventListener('input',function(){
  const q=this.value.toLowerCase();
  [...table.tBodies[0].rows].forEach(r=>{
    r.style.display=[...r.cells].some(c=>c.innerText.toLowerCase().includes(q))?'':'none';
  });
});
</script>
</body></html>".

Definition AMP : ascii := "&"%char.
Definition LANGLE : ascii := "<"%char.
Definition RANGLE : ascii := ">"%char.
Definition APOS : ascii := "'"%char.

(** [html.escape(s)] with [quote=True].  The library replaces the ampersands
    first and then the four other characters, which amounts to rewriting
    every character of [s] on its own. *)
Definition html_escape_char (c : ascii) : string :=
  if Ascii.eqb c AMP then "&amp;"
  else if Ascii.eqb c LANGLE then "&lt;"
  else if Ascii.eqb c RANGLE then "&gt;"
  else if Ascii.eqb c QUOTE then "&quot;"
  else if Ascii.eqb c APOS then "&#x27;"
  else String c "".

Fixpoint html_escape (s : string) : string :=
  match s with
  | EmptyString => EmptyString
  | String c s' => html_escape_char c ++ html_escape s'
  end.

(** [if k not in keys: keys.append(k)] *)
Definition add_key (keys : list string) (k : string) : list string :=
  if existsb (String.eqb k) keys then keys else (keys ++ [k])%list.

(** The columns of the page: the keys of the rows in the order in which they
    are first met. *)
Definition html_keys (rows : list pydict) : list string :=
  fold_left (fun keys r => fold_left add_key (dict_keys r) keys) rows [].

Definition html_header_cell (k : string) : string :=
  "<th>" ++ html_escape k ++ "</th>".

Definition html_cell (env : Env) (r : pydict) (k : string) : string :=
  "<td>" ++ html_escape (py_str env (dict_get r k (JStr ""))) ++ "</td>".

Definition html_row (env : Env) (keys : list string) (r : pydict) : string :=
  "<tr>" ++ String.concat "" (map (html_cell env r) keys) ++ "</tr>".

(** What the loops of the writer put between the two fixed texts. *)
Definition html_table (env : Env) (rows : list pydict) : string :=
  let keys := html_keys rows in
  String.concat "" (map html_header_cell keys)
  ++ "</tr></thead><tbody>"
  ++ String.concat "" (map (html_row env keys) rows).

(** [write_interactive_html]: the content of the file (on a system whose
    line separator is LF). *)
Definition write_interactive_html (env : Env) (rows : list pydict) : string :=
  html_head ++ html_table env rows ++ html_tail.

(** ** Main function *)

Inductive output_format : Type :=
| csv_output
| html_output.

(** [main] after [parse_args]: the run of the collector and the content of
    the file written, if any.  [fmt] is [args.output_format]; with no row the
    program prints a message and exits before any writer is called. *)
Definition main (env : Env) (args : Args) (fmt : output_format) (s : session)
  : result (run * option string) :=
  r <- collect_data env args s ;;
  match rows r with
  | [] => Ok (r, None)
  | _ =>
      match fmt with
      | csv_output => Ok (r, write_csv env (rows r))
      | html_output => Ok (r, Some (write_interactive_html env (rows r)))
      end
  end.

(** The number of items a loop goes through before its body raises. *)
Fixpoint stops_at {A : Type} (body : A -> result (option pydict))
  (items : list A) : nat :=
  match items with
  | [] => O
  | x :: items' =>
      match body x with
      | Raise _ => O
      | Ok _ => S (stops_at body items')
      end
  end.

(** The row of an item, if the body keeps it. *)
Definition kept {A : Type} (body : A -> result (option pydict)) (x : A)
  : option pydict :=
  match body x with
  | Ok (Some ev) => Some ev
  | _ => None
  end.

Definition is_object (v : json) : bool :=
  match v with
  | JObj _ => true
  | _ => false
  end.

(** A commit and a branch tip with a message of two lines. *)
Definition commit_two_lines : json :=
  JObj [ ("id", JStr "c0ffee");
         ("message", JStr ("subject" ++ String LF "body")) ].

Definition branch_two_lines : json :=
  JObj [ ("name", JStr "main"); ("commit", commit_two_lines) ].

(** The address of the project [proj] on the server of [args]. *)
Definition project_url (env : Env) (args : Args) (proj : string) : string :=
  base_url (client_of args) ++ "/api/v4/projects/" ++ quote_plus env proj.

Definition sent_to (url : string) (requests : list request) : Prop :=
  requests <> [] /\ Forall (fun rq => req_url rq = url) requests.

(** The output of [git] when every line ends with LF, as [git reflog]
    prints it. *)
Definition output_terminated (lines : list string) : string :=
  String.concat "" (map (fun l => l ++ String LF "") lines).


(** The lines of a commit log and of a reflog. *)
Definition log_lines : list string :=
  [ "c0ffee|Ann|ann@example.org|2025-09-01 08:30:00 +0200|second | more";
    "not a commit line";
    "decade|Bob|bob@example.org|2025-08-31 17:00:00 +0200|first" ].

Definition reflog_lines : list string :=
  [ "c0ffee HEAD@{2025-09-01 08:30:00 +0200}: commit: second";
    "decade HEAD@{2025-08-31 17:00:00 +0200}: commit (initial): first" ].

(** [dateutil] installed, with the [dayfirst] preference and the texts of
    [isoformat] as the library has them: 2025-09-01 08:30 +02:00 is read as
    1 September without the preference and as 9 January with it, and an
    instant is printed with a T and a colon in the offset. *)
Definition jan09_aware : datetime := mk_datetime 63872001000000000 true.

Definition printed_dates : list (string * datetime) :=
  [ ("2025-09-01T08:30:00+02:00", sep01_aware);
    ("2025-01-09T08:30:00+02:00", jan09_aware) ].

Definition month_first_dates : list (string * datetime) :=
  (printed_dates ++ [ ("2025-09-01 08:30:00 +0200", sep01_aware) ])%list.

Definition day_first_dates : list (string * datetime) :=
  [ ("2025-09-01 08:30:00 +0200", jan09_aware) ].

Definition env_dateutil : Env :=
  {| dtparser := Some (fun (dayfirst : bool) s =>
                         table_parse (if dayfirst then day_first_dates
                                      else month_first_dates) s);
     fromisoformat := table_parse printed_dates;
     isoformat := table_format printed_dates;
     now_minus_days := sample_clock 63896551200000000;
     check_output := fun _ _ => no_git;
     quote_plus := fun s => s;
     str_container := fun _ => "[...]" |}.

(** Inversion of a chain of binds that ends in [Ok]. *)
Ltac unbind H :=
  repeat match type of H with
    | bind ?c _ = _ =>
        let E := fresh "E" in
        destruct c eqn:E; simpl in H; [|discriminate H]
    | (if ?b then _ else _) = _ =>
        let E := fresh "E" in
        destruct b eqn:E; simpl in H; try discriminate H
    end.

(** * Properties *)

Example splitlines_ex :
  splitlines ("a" ++ String LF ("" ++ String CR (String LF ("b|c" ++ String LF ""))))
  = ["a"; ""; "b|c"].
Proof. reflexivity. Qed.

Example str_of_Z_ex : (str_of_Z 0, str_of_Z 42, str_of_Z (-7)) = ("0", "42", "-7").
Proof. reflexivity. Qed.

Example split_ex : str_split PIPE 4 "a|b|c|d|e|f" = ["a"; "b"; "c"; "d"; "e|f"].
Proof. reflexivity. Qed.

Example rstrip_ex : str_rstrip SLASH "http://x//" = "http://x".
Proof. reflexivity. Qed.

(** ** Date filter *)

Lemma truthy_JStr (s : string) : s <> "" -> truthy (JStr s) = true.
Proof.
  intros H. simpl. destruct (String.eqb_spec s ""); [contradiction | reflexivity].
Qed.

Lemma parse_date_any_JStr (env : Env) (s : string) :
  s <> "" ->
  parse_date_any env (JStr s)
  = Ok (match dtparser env with
        | Some parse => parse true (str_replace SLASH DASH s)
        | None => fromisoformat env (str_replace SLASH DASH s)
        end).
Proof.
  intros H. unfold parse_date_any. rewrite (truthy_JStr s H). simpl.
  destruct (dtparser env); reflexivity.
Qed.

(** On a text, [parse_date_any] never raises. *)
Lemma parse_date_any_total (env : Env) (s : string) :
  exists dt, parse_date_any env (JStr s) = Ok dt.
Proof.
  destruct (string_dec s "") as [-> | H].
  - exists None. reflexivity.
  - eexists. apply parse_date_any_JStr, H.
Qed.

(** An unparseable text under an active bound: the comparison with [None]
    raises, it is not turned into [False]. *)
Lemma within_range_unparsed_raises (env : Env) (s : string)
  (start end_ : option datetime) :
  s <> "" ->
  parse_date_any env (JStr s) = Ok None ->
  start <> None \/ end_ <> None ->
  within_range env (JStr s) start end_ = Raise TypeError.
Proof.
  intros Hs Hp Hb. unfold within_range.
  rewrite (truthy_JStr s Hs), Hp. simpl.
  destruct start as [a|]; [reflexivity|].
  destruct end_ as [b|]; [reflexivity|].
  destruct Hb as [Hb | Hb]; contradiction.
Qed.

(** A parsed instant that is comparable with the bounds that are set is kept
    exactly when it lies between them, both ends included. *)
Lemma within_range_comparable (env : Env) (s : string) (t : datetime)
  (start end_ : option datetime) :
  s <> "" ->
  parse_date_any env (JStr s) = Ok (Some t) ->
  same_kind t start -> same_kind t end_ ->
  within_range env (JStr s) start end_
  = Ok (not_before t start && not_after t end_).
Proof.
  intros Hs Hp Ha Hb. unfold within_range.
  rewrite (truthy_JStr s Hs), Hp.
  destruct start as [a|], end_ as [b|]; simpl in *; unfold dt_lt;
    rewrite ?Ha, ?Hb, ?Bool.eqb_reflx; simpl.
  - rewrite Z.leb_antisym. destruct (ticks t <? ticks a); simpl; [reflexivity|].
    rewrite Z.leb_antisym. destruct (ticks b <? ticks t); reflexivity.
  - rewrite Z.leb_antisym. destruct (ticks t <? ticks a); reflexivity.
  - rewrite Z.leb_antisym. destruct (ticks b <? ticks t); reflexivity.
  - reflexivity.
Qed.

(** C2 (code defect): a text that no parser accepts, filtered under a start
    bound, makes [within_range] raise [TypeError] where the claim promises
    [False]: [parse_date_any] answers [None] instead of raising, so the
    [except] clause of [within_range] is not reached and [None < start] is
    evaluated. *)
Theorem within_range_unparseable_raises :
  parse_date_any env_flexible (JStr "not a date") = Ok None
  /\ within_range env_flexible (JStr "not a date") (Some jul24) None
     = Raise TypeError
  /\ within_range env_iso (JStr "not a date") None (Some oct02)
     = Raise TypeError.
Proof. repeat split. Qed.

(** C3 (as stated, refuted): with the flexible parser installed and failing on
    a text that the ISO parser accepts, [parse_date_any] returns [None]; the
    ISO parser is not consulted. *)
Lemma parse_date_any_no_iso_fallback :
  (exists parse, dtparser env_week = Some parse
                 /\ parse true "2025-W36-1" = None)
  /\ fromisoformat env_week (str_replace SLASH DASH "2025-W36-1") = Some sep01
  /\ parse_date_any env_week (JStr "2025-W36-1") = Ok None.
Proof.
  split; [eexists; split; reflexivity | split; reflexivity].
Qed.

(** C3 (amended): on a non-empty text, after replacing [/] by [-], the result
    is the flexible parser's whenever that parser is installed, so null as
    soon as it fails; the ISO parser decides only when the flexible parser is
    not installed. *)
Theorem parse_date_any_sources (env : Env) (s : string) :
  s <> "" ->
  (forall parse, dtparser env = Some parse ->
     parse_date_any env (JStr s) = Ok (parse true (str_replace SLASH DASH s))
     /\ (parse true (str_replace SLASH DASH s) = None ->
         parse_date_any env (JStr s) = Ok None))
  /\ (dtparser env = None ->
      parse_date_any env (JStr s)
      = Ok (fromisoformat env (str_replace SLASH DASH s))).
Proof.
  intros Hs. rewrite (parse_date_any_JStr env s Hs). split.
  - intros parse ->. split; [reflexivity | intros ->; reflexivity].
  - intros ->. reflexivity.
Qed.

Lemma parse_date_any_sources_witness :
  "2025-W36-1" <> ""
  /\ fromisoformat env_week (str_replace SLASH DASH "2025-W36-1") = Some sep01
  /\ parse_date_any env_week (JStr "2025-W36-1") = Ok None.
Proof.
  assert (H : "2025-W36-1" <> "") by discriminate.
  split; [exact H|]. split; [reflexivity|].
  destruct (parse_date_any_sources env_week "2025-W36-1" H) as [H1 _].
  destruct (H1 _ eq_refl) as [_ H2].
  exact (H2 eq_refl).
Defined.

(** C4: with no bound set every timestamp is kept, empty and unparseable ones
    included; with a bound set the empty timestamp is dropped. *)
Theorem within_range_no_bounds_or_empty (env : Env) (s : string)
  (start end_ : option datetime) :
  within_range env (JStr s) None None = Ok true
  /\ (start <> None \/ end_ <> None ->
      within_range env (JStr "") start end_ = Ok false).
Proof.
  split.
  - unfold within_range.
    destruct (parse_date_any_total env s) as [dt ->].
    destruct (truthy (JStr s)); reflexivity.
  - intros H. unfold within_range. simpl.
    destruct start, end_; try reflexivity.
    destruct H as [H | H]; contradiction.
Qed.

Lemma within_range_no_bounds_or_empty_witness :
  (Some jul24 <> None \/ @None datetime <> None)
  /\ within_range env_iso (JStr "not a date") None None = Ok true
  /\ within_range env_iso (JStr "") (Some jul24) None = Ok false.
Proof.
  assert (H : Some jul24 <> None \/ @None datetime <> None)
    by (left; discriminate).
  split; [exact H|].
  destruct (within_range_no_bounds_or_empty env_iso "not a date"
              (Some jul24) None) as [H1 H2].
  split; [exact H1 | exact (H2 H)].
Defined.

(** C5 (code defect): the timestamp of a local commit, as [git log --date=iso]
    prints it, parses to an aware instant that lies between the two bounds;
    compared with the naive bounds that a date range such as
    [2025-07-24 2025-10-02] or a month count produces, [within_range] raises
    [TypeError] instead of answering [True], and the collector, which catches
    the exception, returns no local commit. *)
Theorem within_range_mixed_awareness_raises :
  parse_date_any env_flexible (JStr "2025-09-01 08:30:00 +0200")
  = Ok (Some sep01_aware)
  /\ parse_date_any env_flexible (JStr "2025-07-24") = Ok (Some jul24)
  /\ parse_date_any env_flexible (JStr "2025-10-02") = Ok (Some oct02)
  /\ not_before sep01_aware (Some jul24) && not_after sep01_aware (Some oct02)
     = true
  /\ within_range env_flexible (JStr "2025-09-01 08:30:00 +0200")
       (Some jul24) (Some oct02) = Raise TypeError
  /\ within_range env_flexible (JStr "2025-09-01 08:30:00 +0200")
       None (Some oct02) = Raise TypeError
  /\ exists r,
       collect_data env_repo_iso_dates dashed_range_args (mk_session [] [])
       = Ok r
       /\ rows r = []
       /\ printed r = [GitLogError TypeError].
Proof.
  repeat (split; [reflexivity|]).
  eexists. repeat split.
Qed.

(** The exception does not depend on what the parser reads: an instant is
    never ordered with a lower bound of the other kind. *)
Lemma within_range_aware_naive (env : Env) (ts : json) (dt start : datetime)
  (end_ : option datetime) :
  truthy ts = true ->
  parse_date_any env ts = Ok (Some dt) ->
  aware dt <> aware start ->
  within_range env ts (Some start) end_ = Raise TypeError.
Proof.
  intros Ht Hp Ha. unfold within_range. rewrite Ht, Hp. simpl.
  unfold dt_lt.
  destruct (Bool.eqb_spec (aware dt) (aware start));
    [contradiction | reflexivity].
Qed.

(** With the day-first reading of [dateutil] the same timestamp is 9 January
    2025, and the comparison with the naive bounds raises all the same. *)
Example within_range_day_first :
  parse_date_any env_dateutil (JStr "2025-09-01 08:30:00 +0200")
  = Ok (Some jan09_aware)
  /\ within_range env_dateutil (JStr "2025-09-01 08:30:00 +0200")
       (Some jul24) (Some oct02) = Raise TypeError.
Proof. split; reflexivity. Qed.

(** ** Local commit log *)

Lemma str_partition_some (sep : ascii) (s : string) :
  (0 < count_char sep s)%nat ->
  exists pre post,
    str_partition sep s = Some (pre, post)
    /\ s = pre ++ String sep post
    /\ count_char sep pre = O
    /\ count_char sep s = S (count_char sep post).
Proof.
  induction s as [|c s IH]; simpl; intros H; [lia|].
  destruct (Ascii.eqb_spec c sep) as [-> | Hc].
  - exists "", s. repeat split.
  - destruct (IH H) as (pre & post & -> & Hs & Hpre & Hn).
    exists (String c pre), post. simpl.
    destruct (Ascii.eqb_spec c sep); [contradiction|].
    repeat split; [now rewrite Hs | exact Hpre | exact Hn].
Qed.


Example git_log_row_ex :
  git_log_row "c0ffee|Ann|ann@example.org|2025-09-01 08:30:00|a | b | c"
  = Some (event "local_commit" "commit" (JStr "Ann") (JStr "ann@example.org")
            (JStr "2025-09-01 08:30:00") (JStr "") (JStr "c0ffee")
            (JStr "a | b | c") (JStr "")).
Proof. reflexivity. Qed.

Example git_log_row_short : git_log_row "c0ffee|Ann|ann@example.org" = None.
Proof. reflexivity. Qed.

(** ** Pagination *)

(** A page with a cursor makes the loop go round once more. *)
Lemma get_pages_next (url : string) (vfy : bool) (params : pydict)
  (all_items : list json) (r : response) (rest : list (result response))
  (log : list request) :
  list_page r -> next_page_of r <> "" ->
  get_pages url vfy params all_items (Ok r :: rest) log
  = get_pages url vfy (dict_set params "page" (JStr (next_page_of r)))
      (all_items ++ page_items r)%list rest
      (log ++ [mk_request url params vfy])%list.
Proof.
  intros [Hok [items Hbody]] Hnext. simpl.
  unfold page_items. rewrite Hok, Hbody. simpl.
  destruct (String.eqb_spec (next_page_of r) ""); [contradiction | reflexivity].
Qed.

(** A page without cursor ends the loop. *)
Lemma get_pages_last (url : string) (vfy : bool) (params : pydict)
  (all_items : list json) (r : response) (rest : list (result response))
  (log : list request) :
  list_page r -> next_page_of r = "" ->
  get_pages url vfy params all_items (Ok r :: rest) log
  = (Ok (JArr (all_items ++ page_items r)%list),
     mk_session rest (log ++ [mk_request url params vfy])%list).
Proof.
  intros [Hok [items Hbody]] Hnext. simpl.
  unfold page_items. rewrite Hok, Hbody, Hnext. reflexivity.
Qed.

Lemma get_pages_walk (url : string) (vfy : bool) (pages : list response) :
  forall (params : pydict) (all_items : list json) (last : response)
         (rest : list (result response)) (log : list request),
    Forall list_page (pages ++ [last])%list ->
    Forall (fun r => next_page_of r <> "") pages ->
    next_page_of last = "" ->
    get_pages url vfy params all_items
      (map Ok (pages ++ [last]) ++ rest)%list log
    = (Ok (JArr (all_items ++ flat_map page_items (pages ++ [last]))%list),
       mk_session rest
         (log ++ page_requests url vfy params (pages ++ [last]))%list).
Proof.
  induction pages as [|r pages IH]; intros params all_items last rest log
    Hpages Hnext Hlast.
  - inversion Hpages as [|? ? Hl _]; subst.
    change (map Ok ([] ++ [last]) ++ rest)%list with (Ok last :: rest).
    rewrite get_pages_last by assumption.
    simpl. rewrite app_nil_r. reflexivity.
  - inversion Hpages as [|? ? Hr Hpages']; subst.
    inversion Hnext as [|? ? Hn Hnext']; subst.
    change (map Ok ((r :: pages) ++ [last]) ++ rest)%list
      with (Ok r :: (map Ok (pages ++ [last]) ++ rest))%list.
    rewrite get_pages_next by assumption.
    rewrite IH by assumption.
    simpl. rewrite <- !app_assoc. reflexivity.
Qed.

Lemma page_requests_length (url : string) (vfy : bool)
  (pages : list response) :
  forall params, List.length (page_requests url vfy params pages) = List.length pages.
Proof.
  induction pages as [|r pages IH]; intros params; simpl;
    [reflexivity | now rewrite IH].
Qed.

(** C7: when the session answers with list-valued pages of which the last
    one, and only that one, has no cursor, [_get] issues one request per
    page, each with [page] set to the cursor of the page before, and returns
    the page bodies concatenated in order; and a successful reply whose body
    is a JSON object is returned as it is, after that one request, with no
    further reply consumed. *)
Theorem get_paginates (self : GitLabClient) (path : string) (params : pydict)
  (s : session) (pages : list response) (last : response)
  (rest : list (result response)) :
  Forall list_page (pages ++ [last])%list ->
  Forall (fun r => next_page_of r <> "") pages ->
  next_page_of last = "" ->
  pending s = (map Ok (pages ++ [last]) ++ rest)%list ->
  (exists requests,
      _get self path params s
      = (Ok (JArr (flat_map page_items (pages ++ [last])%list)),
         mk_session rest (sent s ++ requests)%list)
      /\ List.length requests = List.length (pages ++ [last])%list
      /\ requests
         = page_requests (base_url self ++ path) (verify self)
             (dict_setdefault params "per_page" (JNum 100))
             (pages ++ [last])%list)
  /\ (forall url vfy params' all_items r d replies log,
        ok r = true -> json_body r = Ok (JObj d) ->
        get_pages url vfy params' all_items (Ok r :: replies) log
        = (Ok (JObj d),
           mk_session replies (log ++ [mk_request url params' vfy])%list)).
Proof.
  intros Hpages Hnext Hlast Hpending. split.
  - eexists. split; [|split; [|reflexivity]].
    + unfold _get. rewrite Hpending.
      rewrite (get_pages_walk _ _ pages _ [] last rest (sent s))
        by assumption.
      reflexivity.
    + apply page_requests_length.
  - intros url vfy params' all_items r d replies log Hok Hbody.
    simpl. rewrite Hok, Hbody. reflexivity.
Qed.

Lemma get_paginates_witness :
  Forall list_page ([page_one] ++ [page_two])%list
  /\ Forall (fun r => next_page_of r <> "") [page_one]
  /\ next_page_of page_two = ""
  /\ _get sample_client "/api/v4/projects/7/repository/commits" []
       (mk_session [Ok page_one; Ok page_two] [])
     = (Ok (JArr [commit_a; commit_b; commit_c]),
        mk_session []
          [ mk_request
              "https://gitlab.example.com/api/v4/projects/7/repository/commits"
              [("per_page", JNum 100)] true;
            mk_request
              "https://gitlab.example.com/api/v4/projects/7/repository/commits"
              [("per_page", JNum 100); ("page", JStr "2")] true ]).
Proof.
  assert (H1 : Forall list_page ([page_one] ++ [page_two])%list).
  { repeat constructor; eexists; reflexivity. }
  assert (H2 : Forall (fun r => next_page_of r <> "") [page_one]).
  { repeat constructor. discriminate. }
  assert (H3 : next_page_of page_two = "") by reflexivity.
  split; [exact H1 | split; [exact H2 | split; [exact H3 |]]].
  destruct (get_paginates sample_client
              "/api/v4/projects/7/repository/commits" []
              (mk_session [Ok page_one; Ok page_two] [])
              [page_one] page_two [] H1 H2 H3 eq_refl)
    as [(requests & Hget & _ & Hreq) _].
  rewrite Hget, Hreq. reflexivity.
Defined.

(** ** Collector *)

Lemma for_each_app {A : Type} (body : A -> result (option pydict))
  (items : list A) :
  forall rows,
    for_each body items rows
    = ((rows ++ appended body items)%list, snd (for_each body items [])).
Proof.
  unfold appended.
  induction items as [|x items IH]; intros rows; simpl.
  - now rewrite app_nil_r.
  - destruct (body x) as [[ev|]|e]; simpl.
    + rewrite (IH (rows ++ [ev])%list), (IH [ev]). simpl.
      now rewrite <- app_assoc.
    + apply IH.
    + now rewrite app_nil_r.
Qed.

Lemma appended_Forall {A : Type} (P : pydict -> Prop)
  (body : A -> result (option pydict)) (items : list A) :
  (forall x ev, In x items -> body x = Ok (Some ev) -> P ev) ->
  Forall P (appended body items).
Proof.
  unfold appended.
  induction items as [|x items IH]; intros H; simpl; [constructor|].
  destruct (body x) as [[ev|]|e] eqn:E; simpl.
  - rewrite for_each_app. simpl. constructor.
    + apply (H x); [now left | exact E].
    + apply IH. intros y ev' Hy. apply H. now right.
  - apply IH. intros y ev' Hy. apply H. now right.
  - constructor.
Qed.

(** A loop whose body skips every item appends nothing and does not raise. *)
Lemma for_each_all_skipped {A : Type} (body : A -> result (option pydict))
  (items : list A) (rows : list pydict) :
  (forall x, In x items -> body x = Ok None) ->
  for_each body items rows = (rows, None).
Proof.
  induction items as [|x items IH]; intros H; simpl; [reflexivity|].
  rewrite (H x) by now left. apply IH. intros y Hy. apply H. now right.
Qed.

Lemma remote_step_rows (fetch : session -> result json * session)
  (body : json -> result (option pydict)) (report_as : exn -> diag)
  (st : run) :
  rows (remote_step fetch body report_as st)
  = (rows st ++ remote_rows (fst (fetch (net st))) body)%list
  /\ net (remote_step fetch body report_as st) = snd (fetch (net st)).
Proof.
  unfold remote_step, remote_rows.
  destruct (fetch (net st)) as [[v|e] net']; simpl.
  - destruct (py_iter v) as [items|e]; simpl.
    + rewrite for_each_app. simpl. split; reflexivity.
    + now rewrite app_nil_r.
  - now rewrite app_nil_r.
Qed.

Lemma local_step_rows (parse : result (list pydict))
  (body : pydict -> result (option pydict)) (report_as : exn -> diag)
  (st : run) :
  rows (local_step parse body report_as st)
  = (rows st ++ local_rows parse body)%list
  /\ net (local_step parse body report_as st) = net st.
Proof.
  unfold local_step, local_rows.
  destruct parse as [entries|e]; simpl.
  - rewrite for_each_app. simpl. split; reflexivity.
  - now rewrite app_nil_r.
Qed.

Lemma resolve_project_rows (env : Env) (client : GitLabClient) (args : Args)
  (st : run) :
  rows (snd (resolve_project env client args st)) = rows st.
Proof.
  unfold resolve_project.
  destruct (get_project_by_path env client (project args) (net st))
    as [proj net'].
  destruct (proj_id <- proj ;; py_getitem proj_id "id"); reflexivity.
Qed.

(** C1 (as stated, refuted): in this run the second commit has a null message,
    so the commits sub-step raises [AttributeError] after its loop appended the
    first commit; the exception is caught and printed, and the row appended
    before it is in the returned list, next to the row of the branches
    sub-step, which ran after it. *)
Lemma commits_substep_keeps_rows_before_exception :
  exists r,
    collect_data env_iso sample_args sample_session = Ok r
    /\ printed r
       = [ CommitsFetchError AttributeError;
           MergeRequestsFetchError (OtherError "ConnectionError");
           GitLogError (OtherError "CalledProcessError");
           ReflogError (OtherError "CalledProcessError") ]
    /\ rows r
       = [ event "gitlab_commit" "commit" (JStr "Ann")
             (JStr "ann@example.org") (JStr "") (JStr "") (JStr "a1b2c3")
             (JStr "first") (JStr "https://x/a1b2c3");
           event "gitlab_branch" "branch" (JStr "") (JStr "") (JStr "")
             (JStr "main") (JStr "a1b2c3") (JStr "first") (JStr "") ].
Proof. eexists. repeat split. Qed.

(** The rows of a run, sub-step by sub-step. *)
Lemma collect_data_rows (env : Env) (args : Args) (s : session)
  (start_date end_date : option datetime) :
  filter_window env args = Ok (start_date, end_date) ->
  exists r,
    collect_data env args s = Ok r
    /\ (let '(commits, branches, merge_requests) :=
          remote_listings env args s in
        rows r
        = ((if remote_enabled args then
              remote_rows commits (commit_row env start_date end_date)
              ++ remote_rows branches (branch_row env start_date end_date)
              ++ remote_rows merge_requests
                   (merge_request_row env start_date end_date)
            else [])
           ++ (if local_enabled args then
                 local_rows (parse_git_log env (repo_path args))
                   (local_row env start_date end_date)
                 ++ local_rows (parse_reflog env (repo_path args))
                      (local_row env start_date end_date)
               else []))%list).
Proof.
  intros Hw. unfold collect_data. rewrite Hw. simpl.
  eexists. split; [reflexivity|].
  unfold remote_listings, collect_local, collect_remote.
  destruct (resolve_project env (client_of args) args (mk_run [] s []))
    as [proj_id st0] eqn:Hres.
  pose proof (resolve_project_rows env (client_of args) args (mk_run [] s []))
    as Hrows0.
  rewrite Hres in Hrows0. simpl in Hrows0.
  set (body1 := commit_row env start_date end_date).
  set (body2 := branch_row env start_date end_date).
  set (body3 := merge_request_row env start_date end_date).
  set (st1 := remote_step (list_commits env (client_of args) proj_id) body1
                CommitsFetchError st0).
  set (st2 := remote_step (list_branches env (client_of args) proj_id) body2
                BranchesFetchError st1).
  set (st3 := remote_step (list_merge_requests env (client_of args) proj_id)
                body3 MergeRequestsFetchError st2).
  destruct (remote_step_rows (list_commits env (client_of args) proj_id) body1
              CommitsFetchError st0) as [R1 N1].
  destruct (remote_step_rows (list_branches env (client_of args) proj_id) body2
              BranchesFetchError st1) as [R2 N2].
  destruct (remote_step_rows (list_merge_requests env (client_of args) proj_id)
              body3 MergeRequestsFetchError st2) as [R3 N3].
  fold st1 in R1, N1, R2, N2. fold st2 in R2, N2, R3, N3. fold st3 in R3, N3.
  assert (Hremote :
            rows (if remote_enabled args then st3 else mk_run [] s [])
            = (if remote_enabled args then
                 remote_rows
                   (fst (list_commits env (client_of args) proj_id (net st0)))
                   body1
                 ++ remote_rows
                      (fst (list_branches env (client_of args) proj_id
                              (snd (list_commits env (client_of args) proj_id
                                      (net st0))))) body2
                 ++ remote_rows
                      (fst (list_merge_requests env (client_of args) proj_id
                              (snd (list_branches env (client_of args) proj_id
                                      (snd (list_commits env (client_of args)
                                              proj_id (net st0))))))) body3
               else [])%list).
  { destruct (remote_enabled args); [|reflexivity].
    rewrite R3, R2, R1, Hrows0, N2, N1. simpl.
    now rewrite <- app_assoc. }
  set (base := if remote_enabled args then st3 else mk_run [] s []) in *.
  destruct (local_enabled args).
  - destruct (local_step_rows (parse_git_log env (repo_path args))
                (local_row env start_date end_date) GitLogError base)
      as [L1 _].
    destruct (local_step_rows (parse_reflog env (repo_path args))
                (local_row env start_date end_date) ReflogError
                (local_step (parse_git_log env (repo_path args))
                   (local_row env start_date end_date) GitLogError base))
      as [L2 _].
    rewrite L2, L1, Hremote. now rewrite <- app_assoc.
  - rewrite Hremote. now rewrite app_nil_r.
Qed.

(** C1 (amended): once the filter window is computed the collector returns
    normally, whatever its sub-steps raise.  The returned rows are, in order,
    those of the five sub-steps; each listing is issued on the session left by
    the one before it, whether that one failed or not; a sub-step whose
    listing or parser raises adds no row, and one that raises inside its loop
    adds the rows appended before the exception. *)
Theorem collect_data_isolates_substeps (env : Env) (args : Args) (s : session)
  (start_date end_date : option datetime) :
  filter_window env args = Ok (start_date, end_date) ->
  exists r,
    collect_data env args s = Ok r
    /\ (let '(commits, branches, merge_requests) :=
          remote_listings env args s in
        rows r
        = ((if remote_enabled args then
              remote_rows commits (commit_row env start_date end_date)
              ++ remote_rows branches (branch_row env start_date end_date)
              ++ remote_rows merge_requests
                   (merge_request_row env start_date end_date)
            else [])
           ++ (if local_enabled args then
                 local_rows (parse_git_log env (repo_path args))
                   (local_row env start_date end_date)
                 ++ local_rows (parse_reflog env (repo_path args))
                      (local_row env start_date end_date)
               else []))%list)
    /\ (forall e body, remote_rows (Raise e) body = [])
    /\ (forall e body, local_rows (Raise e) body = []).
Proof.
  intros Hw.
  destruct (collect_data_rows env args s start_date end_date Hw)
    as (r & Hr & Hrows).
  exists r. split; [exact Hr|]. split; [exact Hrows|]. split; reflexivity.
Qed.

Lemma collect_data_isolates_substeps_witness :
  filter_window env_iso sample_args = Ok (None, None)
  /\ exists r,
       collect_data env_iso sample_args sample_session = Ok r
       /\ rows r
          = (remote_rows
               (Ok (JArr [commit_a; commit_null_message; commit_b]))
               (commit_row env_iso None None)
             ++ remote_rows (Ok (JArr [branch_main]))
                  (branch_row env_iso None None)
             ++ remote_rows (Raise (OtherError "ConnectionError"))
                  (merge_request_row env_iso None None)
             ++ local_rows (Raise (OtherError "CalledProcessError"))
                  (local_row env_iso None None)
             ++ local_rows (Raise (OtherError "CalledProcessError"))
                  (local_row env_iso None None))%list.
Proof.
  assert (H : filter_window env_iso sample_args = Ok (None, None))
    by reflexivity.
  split; [exact H|].
  destruct (collect_data_isolates_substeps env_iso sample_args sample_session
              None None H) as (r & Hr & Hrows & _).
  exists r. split; [exact Hr | exact Hrows].
Defined.

(** ** Shape of the events *)

Lemma is_event_fields (src : string) (ev : pydict) :
  is_event src ev ->
  dict_keys ev = nine_fields /\ dict_lookup ev "source" = Some (JStr src).
Proof.
  intros (action & un & ue & ts & rf & sha & msg & url & ->).
  split; reflexivity.
Qed.

Lemma commit_row_event (env : Env) (a b : option datetime) (c : json)
  (ev : pydict) :
  commit_row env a b c = Ok (Some ev) -> is_event "gitlab_commit" ev.
Proof.
  unfold commit_row. intros H. unbind H.
  injection H as <-. repeat eexists.
Qed.

Lemma branch_row_event (env : Env) (a b : option datetime) (c : json)
  (ev : pydict) :
  branch_row env a b c = Ok (Some ev) -> is_event "gitlab_branch" ev.
Proof.
  unfold branch_row. intros H. unbind H.
  injection H as <-. repeat eexists.
Qed.

Lemma merge_request_row_event (env : Env) (a b : option datetime) (c : json)
  (ev : pydict) :
  merge_request_row env a b c = Ok (Some ev) ->
  is_event "gitlab_merge_request" ev.
Proof.
  unfold merge_request_row. intros H. unbind H.
  injection H as <-. repeat eexists.
Qed.

Lemma local_row_entry (env : Env) (a b : option datetime) (entry ev : pydict) :
  local_row env a b entry = Ok (Some ev) -> ev = entry.
Proof.
  unfold local_row. intros H. unbind H. now injection H.
Qed.

Lemma filter_some_In {A B : Type} (f : A -> option B) (l : list A) (y : B) :
  In y (filter_some f l) -> exists x, In x l /\ f x = Some y.
Proof.
  induction l as [|x l IH]; simpl; [contradiction|].
  destruct (f x) as [z|] eqn:E.
  - intros [-> | H].
    + exists x. auto.
    + destruct (IH H) as (x' & Hin & Hx). exists x'. auto.
  - intros H. destruct (IH H) as (x' & Hin & Hx). exists x'. auto.
Qed.

Lemma git_log_row_event (line : string) (ev : pydict) :
  git_log_row line = Some ev -> is_event "local_commit" ev.
Proof.
  unfold git_log_row.
  destruct (str_split PIPE 4 line) as [|? [|? [|? [|? [|? [|? ?]]]]]];
    try discriminate.
  intros H. injection H as <-. repeat eexists.
Qed.

Lemma reflog_row_event (line : string) : is_event "local_reflog" (reflog_row line).
Proof. unfold reflog_row. repeat eexists. Qed.

Lemma parse_git_log_events (env : Env) (repo : string) (entries : list pydict) :
  parse_git_log env repo = Ok entries ->
  Forall (is_event "local_commit") entries.
Proof.
  unfold parse_git_log. intros H. unbind H. injection H as <-.
  apply Forall_forall. intros ev Hin.
  destruct (filter_some_In _ _ _ Hin) as (line & _ & Hline).
  exact (git_log_row_event line ev Hline).
Qed.

Lemma parse_reflog_events (env : Env) (repo : string) (entries : list pydict) :
  parse_reflog env repo = Ok entries ->
  Forall (is_event "local_reflog") entries.
Proof.
  unfold parse_reflog. intros H. unbind H. injection H as <-.
  apply Forall_forall. intros ev Hin.
  apply in_map_iff in Hin. destruct Hin as (line & <- & _).
  apply reflog_row_event.
Qed.

Lemma remote_rows_Forall (P : pydict -> Prop) (listing : result json)
  (body : json -> result (option pydict)) :
  (forall x ev, body x = Ok (Some ev) -> P ev) ->
  Forall P (remote_rows listing body).
Proof.
  intros H. unfold remote_rows.
  destruct (items <- listing ;; py_iter items); [|constructor].
  apply appended_Forall. intros x ev _. apply H.
Qed.

Lemma local_rows_Forall (P : pydict -> Prop) (env : Env)
  (a b : option datetime) (parse : result (list pydict)) :
  (forall entries, parse = Ok entries -> Forall P entries) ->
  Forall P (local_rows parse (local_row env a b)).
Proof.
  intros H. unfold local_rows. destruct parse as [entries|e]; [|constructor].
  apply appended_Forall. intros x ev Hin Hrow.
  apply local_row_entry in Hrow. subst ev.
  specialize (H entries eq_refl). rewrite Forall_forall in H. now apply H.
Qed.

(** The rows of the reflog sub-step under an active bound: every reflog row
    has the empty timestamp, so the filter skips it. *)
Lemma reflog_rows_filtered (env : Env) (repo : string)
  (start_date end_date : option datetime) :
  start_date <> None \/ end_date <> None ->
  local_rows (parse_reflog env repo) (local_row env start_date end_date) = [].
Proof.
  intros Hb. unfold local_rows.
  destruct (parse_reflog env repo) as [entries|e] eqn:Hp; [|reflexivity].
  unfold appended. rewrite for_each_all_skipped; [reflexivity|].
  intros entry Hin.
  pose proof (parse_reflog_events env repo entries Hp) as Hev.
  rewrite Forall_forall in Hev.
  unfold parse_reflog in Hp. unbind Hp. injection Hp as <-.
  apply in_map_iff in Hin. destruct Hin as (line & <- & _).
  unfold local_row, reflog_row. simpl.
  destruct start_date, end_date; try reflexivity.
  destruct Hb as [Hb | Hb]; contradiction.
Qed.

(** Every row the collector returns is an event of one of the five sources,
    with the nine keys in the order of the source. *)
Lemma collect_data_events (env : Env) (args : Args) (s : session) (r : run) :
  collect_data env args s = Ok r ->
  Forall (fun ev =>
            dict_keys ev = nine_fields
            /\ exists src,
                 In src [ "gitlab_commit"; "gitlab_branch";
                          "gitlab_merge_request"; "local_commit";
                          "local_reflog" ]
                 /\ dict_lookup ev "source" = Some (JStr src))
    (rows r).
Proof.
  intros Hc.
  destruct (filter_window env args) as [[a b]|e] eqn:Hw;
    [|unfold collect_data in Hc; rewrite Hw in Hc; discriminate].
  destruct (collect_data_rows env args s a b Hw) as (r' & Hr' & Hrows).
  rewrite Hc in Hr'. injection Hr' as <-.
  destruct (remote_listings env args s) as [[l1 l2] l3].
  rewrite Hrows. clear Hrows Hc.
  assert (E : forall src ev,
             In src [ "gitlab_commit"; "gitlab_branch";
                      "gitlab_merge_request"; "local_commit";
                      "local_reflog" ] ->
             is_event src ev ->
             dict_keys ev = nine_fields
             /\ exists src,
                  In src [ "gitlab_commit"; "gitlab_branch";
                           "gitlab_merge_request"; "local_commit";
                           "local_reflog" ]
                  /\ dict_lookup ev "source" = Some (JStr src)).
  { intros src ev Hin Hev. destruct (is_event_fields src ev Hev).
    split; [assumption | exists src; auto]. }
  apply Forall_app. split.
  - destruct (remote_enabled args); [|constructor].
    repeat (apply Forall_app; split); apply remote_rows_Forall; intros x ev H.
    + apply (E "gitlab_commit"); [simpl; tauto|].
      exact (commit_row_event _ _ _ _ _ H).
    + apply (E "gitlab_branch"); [simpl; tauto|].
      exact (branch_row_event _ _ _ _ _ H).
    + apply (E "gitlab_merge_request"); [simpl; tauto|].
      exact (merge_request_row_event _ _ _ _ _ H).
  - destruct (local_enabled args); [|constructor].
    apply Forall_app; split; apply local_rows_Forall; intros entries Hp.
    + apply parse_git_log_events in Hp.
      eapply Forall_impl; [|exact Hp]. intros ev. apply E. simpl; tauto.
    + apply parse_reflog_events in Hp.
      eapply Forall_impl; [|exact Hp]. intros ev. apply E. simpl; tauto.
Qed.

(** C6 (code defect): the remote mappers read [author_name], [author_email],
    [id], [name] and the author's [name] with [get] and no default, and a
    default does not replace a JSON null; a commit without author and a merge
    request without state, branches and head commit give events whose
    [user_name], [user_email] and [commit_sha] are [None], and whose
    [action_type] and [ref] spell the word None, where the claim promises
    empty strings. *)
Theorem remote_rows_hold_null_fields :
  commit_row env_iso None None commit_no_author
  = Ok (Some (event "gitlab_commit" "commit" JNull JNull (JStr "") (JStr "")
                (JStr "c0ffee") (JStr "fix") (JStr "")))
  /\ merge_request_row env_iso None None merge_request_bare
     = Ok (Some (event "gitlab_merge_request" "merge_request_None" JNull
                   (JStr "") (JStr "") (JStr "None->None") JNull
                   (JStr "Draft") (JStr "")))
  /\ exists r,
       collect_data env_iso sample_args bare_session = Ok r
       /\ map (fun ev => dict_lookup ev "user_name") (rows r)
          = [Some JNull; Some JNull]
       /\ map (fun ev => dict_lookup ev "commit_sha") (rows r)
          = [Some (JStr "c0ffee"); Some JNull].
Proof.
  split; [reflexivity|]. split; [reflexivity|].
  eexists. split; [reflexivity|]. split; reflexivity.
Qed.

(** C9: when the filter window of a run has a bound, the reflog sub-step adds
    no row, and no row of the run comes from the reflog. *)
Theorem reflog_dropped_under_filter (env : Env) (args : Args) (s : session)
  (start_date end_date : option datetime) (r : run) :
  filter_window env args = Ok (start_date, end_date) ->
  start_date <> None \/ end_date <> None ->
  collect_data env args s = Ok r ->
  local_rows (parse_reflog env (repo_path args))
    (local_row env start_date end_date) = []
  /\ Forall (fun ev => dict_lookup ev "source" <> Some (JStr "local_reflog"))
       (rows r).
Proof.
  intros Hw Hb Hc.
  pose proof (reflog_rows_filtered env (repo_path args) start_date end_date Hb)
    as Hreflog.
  split; [exact Hreflog|].
  destruct (collect_data_rows env args s start_date end_date Hw)
    as (r' & Hr' & Hrows).
  rewrite Hc in Hr'. injection Hr' as <-.
  destruct (remote_listings env args s) as [[l1 l2] l3].
  rewrite Hrows, Hreflog. clear Hrows Hc.
  assert (E : forall src ev,
             src <> "local_reflog" -> is_event src ev ->
             dict_lookup ev "source" <> Some (JStr "local_reflog")).
  { intros src ev Hsrc Hev. destruct (is_event_fields src ev Hev) as [_ ->].
    intros H. injection H as H. contradiction. }
  apply Forall_app. split.
  - destruct (remote_enabled args); [|constructor].
    repeat (apply Forall_app; split); apply remote_rows_Forall; intros x ev H.
    + apply (E "gitlab_commit"); [discriminate|].
      exact (commit_row_event _ _ _ _ _ H).
    + apply (E "gitlab_branch"); [discriminate|].
      exact (branch_row_event _ _ _ _ _ H).
    + apply (E "gitlab_merge_request"); [discriminate|].
      exact (merge_request_row_event _ _ _ _ _ H).
  - destruct (local_enabled args); [|constructor].
    rewrite app_nil_r. apply local_rows_Forall. intros entries Hp.
    apply parse_git_log_events in Hp.
    eapply Forall_impl; [|exact Hp]. intros ev. apply E. discriminate.
Qed.

Lemma reflog_dropped_under_filter_witness :
  filter_window env_repo local_args = Ok (Some jul24, Some oct02)
  /\ (Some jul24 <> None \/ Some oct02 <> None)
  /\ parse_reflog env_repo "/srv/repo"
     = Ok [ event "local_reflog" "reflog" (JStr "") (JStr "") (JStr "")
              (JStr "") (JStr "c0ffee")
              (JStr "HEAD@{2025-09-01 08:30:00 +0200}: commit: a | b | c")
              (JStr "") ]
  /\ exists r,
       collect_data env_repo local_args (mk_session [] []) = Ok r
       /\ local_rows (parse_reflog env_repo (repo_path local_args))
            (local_row env_repo (Some jul24) (Some oct02)) = []
       /\ Forall (fun ev =>
                    dict_lookup ev "source" <> Some (JStr "local_reflog"))
            (rows r).
Proof.
  assert (Hw : filter_window env_repo local_args = Ok (Some jul24, Some oct02))
    by reflexivity.
  assert (Hb : Some jul24 <> None \/ Some oct02 <> None)
    by (left; discriminate).
  split; [exact Hw|]. split; [exact Hb|]. split; [reflexivity|].
  eexists. split; [reflexivity|].
  exact (reflog_dropped_under_filter env_repo local_args (mk_session [] [])
           (Some jul24) (Some oct02) _ Hw Hb eq_refl).
Defined.

Example collect_local_ex :
  option_map rows
    (match collect_data env_repo local_args (mk_session [] []) with
     | Ok r => Some r
     | Raise _ => None
     end)
  = Some [ event "local_commit" "commit" (JStr "Ann") (JStr "ann@example.org")
             (JStr "2025-09-01 08:30:00") (JStr "") (JStr "c0ffee")
             (JStr "a | b | c") (JStr "") ].
Proof. reflexivity. Qed.

(** ** CSV *)

Example write_csv_ex :
  write_csv env_iso csv_rows
  = Some ("message,source,url" ++ CRLF
          ++ String QUOTE "a, b" ++ String QUOTE ",local_commit," ++ CRLF
          ++ String QUOTE "x" ++ String QUOTE (String QUOTE "y") ++ CRLF
          ++ "z" ++ String QUOTE ",," ++ CRLF).
Proof. reflexivity. Qed.

Example read_csv_ex :
  match write_csv env_iso csv_rows with
  | Some content => csv_reader content
  | None => Ok []
  end
  = Ok [ ["message"; "source"; "url"];
         ["a, b"; "local_commit"; ""];
         ["x" ++ String QUOTE "y" ++ CRLF ++ "z"; ""; ""] ].
Proof. reflexivity. Qed.

Example read_lone_empty : csv_reader (writerow [""]) = Ok [[""]].
Proof. reflexivity. Qed.

Example read_blank_line : csv_reader (writerow []) = Ok [[]].
Proof. reflexivity. Qed.

Lemma append_assoc (a b c : string) : (a ++ b) ++ c = a ++ (b ++ c).
Proof. induction a as [|x a IH]; simpl; [reflexivity | now rewrite IH]. Qed.

Lemma append_nil_r (a : string) : a ++ "" = a.
Proof. induction a as [|x a IH]; simpl; [reflexivity | now rewrite IH]. Qed.

Lemma append_snoc (a : string) (c : ascii) (b : string) :
  (a ++ String c "") ++ b = a ++ String c b.
Proof. now rewrite append_assoc. Qed.

Lemma feed_string_app (a b : string) :
  forall rd,
    feed_string rd (a ++ b) = (rd' <- feed_string rd a ;; feed_string rd' b).
Proof.
  induction a as [|c a IH]; intros rd; simpl; [reflexivity|].
  destruct (feed rd c) as [rd'|e]; simpl; [apply IH | reflexivity].
Qed.

Lemma not_special (c : ascii) :
  is_special c = false ->
  Ascii.eqb c COMMA = false /\ Ascii.eqb c QUOTE = false
  /\ Ascii.eqb c CR = false /\ Ascii.eqb c LF = false.
Proof.
  unfold is_special. intros H.
  destruct (Ascii.eqb c COMMA), (Ascii.eqb c QUOTE), (Ascii.eqb c CR),
    (Ascii.eqb c LF); try discriminate H.
  repeat split.
Qed.

Lemma needs_quotes_cons (c : ascii) (s : string) :
  needs_quotes (String c s) = false ->
  is_special c = false /\ needs_quotes s = false.
Proof.
  simpl. intros H. apply Bool.orb_false_iff in H. exact H.
Qed.

(** An ordinary character inside an unquoted field is added to it. *)
Lemma feed_in_field (s : string) :
  needs_quotes s = false ->
  forall f fs done,
    feed_string (mk_reader IN_FIELD f fs done false true) s
    = Ok (mk_reader IN_FIELD (f ++ s) fs done false true).
Proof.
  induction s as [|c s IH]; intros Hs f fs done; simpl.
  - now rewrite append_nil_r.
  - apply needs_quotes_cons in Hs. destruct Hs as [Hc Hs].
    destruct (not_special c Hc) as (H1 & H2 & H3 & H4).
    unfold feed, process_char, at_line_end, is_newline. simpl.
    rewrite H1, H3, H4. simpl.
    unfold set_line, add_char. simpl. rewrite ?H3.
    rewrite (IH Hs). now rewrite append_snoc.
Qed.

(** The first ordinary character of a field opens it. *)
Lemma feed_open_field (c : ascii) (st : rstate) (fs : list string)
  (done : list (list string)) (inl : bool) :
  is_special c = false ->
  st = START_RECORD \/ st = START_FIELD ->
  feed (mk_reader st "" fs done false inl) c
  = Ok (mk_reader IN_FIELD (String c "") fs done false true).
Proof.
  intros Hc Hst. destruct (not_special c Hc) as (H1 & H2 & H3 & H4).
  unfold feed, process_char, start_field, at_line_end, is_newline.
  destruct Hst as [-> | ->]; simpl; rewrite ?H1, ?H2, ?H3, ?H4; simpl;
    rewrite ?H1, ?H2, ?H3, ?H4; simpl;
    unfold set_line; simpl; rewrite ?H3; reflexivity.
Qed.

(** The opening quote of a field. *)
Lemma feed_open_quote (st : rstate) (fs : list string)
  (done : list (list string)) (inl : bool) :
  st = START_RECORD \/ st = START_FIELD ->
  feed (mk_reader st "" fs done false inl) QUOTE
  = Ok (mk_reader IN_QUOTED_FIELD "" fs done false true).
Proof. intros [-> | ->]; reflexivity. Qed.

(** The closing quote of a field, also when the line of a CR is still to be
    ended. *)
Lemma feed_close_quote (f : string) (fs : list string)
  (done : list (list string)) (cr inl : bool) :
  feed (mk_reader IN_QUOTED_FIELD f fs done cr inl) QUOTE
  = Ok (mk_reader QUOTE_IN_QUOTED_FIELD f fs done false true).
Proof. destruct cr; reflexivity. Qed.

(** The body of a quoted field is read back as it was before escaping, line
    ends included. *)
Lemma feed_quoted_body (s : string) :
  forall f fs done cr inl,
  exists cr' inl',
    feed_string (mk_reader IN_QUOTED_FIELD f fs done cr inl) (escape s)
    = Ok (mk_reader IN_QUOTED_FIELD (f ++ s) fs done cr' inl').
Proof.
  induction s as [|c s IH]; intros f fs done cr inl; simpl.
  - exists cr, inl. now rewrite append_nil_r.
  - destruct (Ascii.eqb_spec c QUOTE) as [-> | Hq].
    + simpl. rewrite feed_close_quote. simpl.
      unfold set_line, set_state, add_char. simpl.
      destruct (IH (f ++ String QUOTE "") fs done false true)
        as (cr' & inl' & ->).
      exists cr', inl'. now rewrite append_snoc.
    + apply Ascii.eqb_neq in Hq.
      assert (Hfeed : exists cr1 inl1,
                 feed (mk_reader IN_QUOTED_FIELD f fs done cr inl) c
                 = Ok (mk_reader IN_QUOTED_FIELD (f ++ String c "") fs done
                         cr1 inl1)).
      { unfold feed. destruct cr; simpl.
        - destruct (Ascii.eqb c LF) eqn:Hlf; simpl.
          + unfold process_char. simpl. rewrite Hq. simpl.
            eexists _, _. reflexivity.
          + unfold process_char. simpl. rewrite Hq. simpl.
            eexists _, _. reflexivity.
        - unfold process_char. simpl. rewrite Hq.
          destruct (Ascii.eqb c LF) eqn:Hlf; simpl;
            eexists _, _; reflexivity. }
      destruct Hfeed as (cr1 & inl1 & Hfeed).
      simpl. rewrite Hfeed. simpl.
      destruct (IH (f ++ String c "") fs done cr1 inl1) as (cr' & inl' & ->).
      exists cr', inl'. now rewrite append_snoc.
Qed.

Lemma needs_quotes_nonempty (f : string) : needs_quotes f = true -> f <> "".
Proof. intros H ->. discriminate H. Qed.

(** A field that is written with text is read up to its end. *)
Lemma feed_field (f : string) (st : rstate) (fs : list string)
  (done : list (list string)) (inl : bool) :
  st = START_RECORD \/ st = START_FIELD ->
  f <> "" ->
  exists rd,
    feed_string (mk_reader st "" fs done false inl) (csv_field f) = Ok rd
    /\ field_read f fs done rd.
Proof.
  intros Hst Hf. unfold csv_field.
  destruct (needs_quotes f) eqn:Hq.
  - exists (mk_reader QUOTE_IN_QUOTED_FIELD f fs done false true).
    split; [|constructor].
    change (String QUOTE (escape f ++ String QUOTE ""))
      with (String QUOTE "" ++ (escape f ++ String QUOTE "")).
    rewrite feed_string_app. simpl.
    rewrite (feed_open_quote st fs done inl Hst). simpl.
    rewrite feed_string_app.
    destruct (feed_quoted_body f "" fs done false true) as (cr & inl' & ->).
    simpl. now rewrite feed_close_quote.
  - destruct f as [|c f]; [contradiction|].
    apply needs_quotes_cons in Hq. destruct Hq as [Hc Hq].
    exists (mk_reader IN_FIELD (String c f) fs done false true).
    split; [|constructor].
    simpl. rewrite (feed_open_field c st fs done inl Hc Hst). simpl.
    now rewrite (feed_in_field f Hq).
Qed.

(** After a delimiter any field, empty or not, is read up to its end. *)
Lemma feed_field_later (f : string) (fs : list string)
  (done : list (list string)) (inl : bool) :
  exists rd,
    feed_string (mk_reader START_FIELD "" fs done false inl) (csv_field f)
    = Ok rd
    /\ field_read f fs done rd.
Proof.
  destruct (string_dec f "") as [-> | Hf].
  - exists (mk_reader START_FIELD "" fs done false inl).
    split; [reflexivity | now constructor].
  - apply feed_field; [now right | exact Hf].
Qed.

(** The delimiter stores the field just read. *)
Lemma feed_comma (cur : string) (fs : list string)
  (done : list (list string)) (rd : reader) :
  field_read cur fs done rd ->
  feed rd COMMA
  = Ok (mk_reader START_FIELD "" (fs ++ [cur])%list done false true).
Proof. intros [| | inl ->]; reflexivity. Qed.

Lemma feed_comma_first (done : list (list string)) :
  feed (at_record_start done) COMMA
  = Ok (mk_reader START_FIELD "" [""] done false true).
Proof. reflexivity. Qed.

(** The line terminator stores the field just read and completes the
    record. *)
Lemma feed_crlf (cur : string) (fs : list string)
  (done : list (list string)) (rd : reader) :
  field_read cur fs done rd ->
  feed_string rd CRLF = Ok (at_record_start (done ++ [fs ++ [cur]])%list).
Proof. intros [| | inl ->]; reflexivity. Qed.

Lemma feed_after_comma (gs : list string) :
  forall g fs done inl,
    feed_string (mk_reader START_FIELD "" fs done false inl)
      (csv_field g ++ tail_text gs ++ CRLF)
    = Ok (at_record_start (done ++ [fs ++ g :: gs])%list).
Proof.
  induction gs as [|g' gs IH]; intros g fs done inl;
    rewrite feed_string_app;
    destruct (feed_field_later g fs done inl) as (rd & -> & Hrd); simpl.
  - exact (feed_crlf g fs done rd Hrd).
  - rewrite (feed_comma g fs done rd Hrd). simpl.
    rewrite append_assoc, IH. now rewrite <- app_assoc.
Qed.

Lemma concat_tail_text (f : string) (gs : list string) :
  String.concat "," (map csv_field (f :: gs)) = csv_field f ++ tail_text gs.
Proof.
  revert f. induction gs as [|g gs IH]; intros f.
  - simpl. now rewrite append_nil_r.
  - change (String.concat "," (map csv_field (f :: g :: gs)))
      with (csv_field f ++ "," ++ String.concat "," (map csv_field (g :: gs))).
    rewrite IH. reflexivity.
Qed.

Lemma feed_string_cons (rd : reader) (c : ascii) (s : string) :
  feed_string rd (String c s) = (rd' <- feed rd c ;; feed_string rd' s).
Proof. reflexivity. Qed.

(** A written row is read back as one record with the same fields. *)
Lemma feed_writerow (row : list string) (done : list (list string)) :
  row <> [] ->
  feed_string (at_record_start done) (writerow row)
  = Ok (at_record_start (done ++ [row])%list).
Proof.
  destruct row as [|f [|g gs]]; intros Hrow; [contradiction| |].
  - unfold writerow. destruct (String.eqb_spec f "") as [-> | Hf];
      [reflexivity|].
    rewrite feed_string_app.
    destruct (feed_field f START_RECORD [] done false (or_introl eq_refl) Hf)
      as (rd & Hfeed & Hrd).
    unfold at_record_start. rewrite Hfeed. simpl.
    exact (feed_crlf f [] done rd Hrd).
  - unfold writerow. rewrite concat_tail_text.
    rewrite append_assoc, feed_string_app.
    change (tail_text (g :: gs) ++ CRLF)
      with (String COMMA ((csv_field g ++ tail_text gs) ++ CRLF)).
    rewrite append_assoc.
    destruct (string_dec f "") as [-> | Hf].
    + change (csv_field "") with "".
      change (feed_string (at_record_start done) "")
        with (Ok (at_record_start done)).
      cbv beta iota delta [bind].
      rewrite feed_string_cons, feed_comma_first.
      cbv beta iota delta [bind].
      apply (feed_after_comma gs g [""] done true).
    + destruct (feed_field f START_RECORD [] done false (or_introl eq_refl) Hf)
        as (rd & Hfeed & Hrd).
      unfold at_record_start. rewrite Hfeed.
      cbv beta iota delta [bind].
      rewrite feed_string_cons, (feed_comma f [] done rd Hrd).
      cbv beta iota delta [bind].
      apply (feed_after_comma gs g [f] done true).
Qed.

Lemma concat_empty_cons (x : string) (l : list string) :
  String.concat "" (x :: l) = x ++ String.concat "" l.
Proof.
  destruct l as [|y l]; simpl; [now rewrite append_nil_r | reflexivity].
Qed.

Lemma feed_rows (rows : list (list string)) :
  forall done,
    Forall (fun row => row <> []) rows ->
    feed_string (at_record_start done) (String.concat "" (map writerow rows))
    = Ok (at_record_start (done ++ rows)%list).
Proof.
  induction rows as [|row rows IH]; intros done Hrows.
  - simpl. now rewrite app_nil_r.
  - inversion Hrows as [|? ? Hrow Hrows']; subst.
    change (map writerow (row :: rows)) with (writerow row :: map writerow rows).
    rewrite concat_empty_cons, feed_string_app.
    rewrite (feed_writerow row done Hrow). simpl bind.
    rewrite (IH _ Hrows'). now rewrite <- app_assoc.
Qed.

(** Reading what the writer wrote gives back the rows, cell by cell. *)
Lemma csv_reader_writerows (header : list string) (rows : list (list string)) :
  header <> [] -> Forall (fun row => row <> []) rows ->
  csv_reader (writerow header ++ String.concat "" (map writerow rows))
  = Ok (header :: rows).
Proof.
  intros Hh Hrows. unfold csv_reader.
  rewrite feed_string_app.
  change new_reader with (at_record_start []).
  rewrite (feed_writerow header [] Hh). simpl bind.
  rewrite (feed_rows rows _ Hrows). reflexivity.
Qed.

(** The header of [write_csv] holds the keys of the rows, each once, in
    increasing code point order. *)
Lemma insert_sorted_In (k x : string) (l : list string) :
  In x (insert_sorted k l) <-> x = k \/ In x l.
Proof.
  induction l as [|y l IH]; simpl; [intuition congruence|].
  destruct (String.compare k y) eqn:E; simpl.
  - apply String.compare_eq_iff in E. subst y. intuition congruence.
  - intuition congruence.
  - rewrite IH. intuition congruence.
Qed.

Lemma sorted_set_In (x : string) (l : list string) :
  In x (sorted_set l) <-> In x l.
Proof.
  induction l as [|k l IH]; simpl; [tauto|].
  rewrite insert_sorted_In, IH. intuition congruence.
Qed.

Lemma insert_sorted_HdRel (y k : string) (l : list string) :
  String.compare y k = Lt ->
  HdRel (fun a b => String.compare a b = Lt) y l ->
  HdRel (fun a b => String.compare a b = Lt) y (insert_sorted k l).
Proof.
  intros Hyk Hl. destruct l as [|x l]; simpl; [now constructor|].
  destruct (String.compare k x); try assumption; constructor; try assumption.
  now inversion Hl.
Qed.

Lemma insert_sorted_Sorted (k : string) (l : list string) :
  Sorted (fun a b => String.compare a b = Lt) l ->
  Sorted (fun a b => String.compare a b = Lt) (insert_sorted k l).
Proof.
  induction l as [|x l IH]; intros Hl; simpl; [repeat constructor|].
  inversion Hl as [|? ? Hl' Hx]; subst.
  destruct (String.compare k x) eqn:E.
  - exact Hl.
  - constructor; [exact Hl | now constructor].
  - constructor; [now apply IH|].
    apply insert_sorted_HdRel; [|exact Hx].
    rewrite String.compare_antisym, E. reflexivity.
Qed.

Lemma fieldnames_sorted_union (rows : list pydict) :
  Sorted (fun a b => String.compare a b = Lt) (fieldnames rows)
  /\ forall k,
       In k (fieldnames rows)
       <-> exists r, In r rows /\ In k (dict_keys r).
Proof.
  unfold fieldnames. split.
  - unfold sorted_set.
    induction (flat_map dict_keys rows) as [|k l IH]; simpl;
      [constructor | now apply insert_sorted_Sorted].
  - intros k. rewrite sorted_set_In, in_flat_map. reflexivity.
Qed.

(** ** Reading the rows back as dictionaries *)

Lemma dict_lookup_set_same (d : pydict) (k : string) (v : json) :
  dict_lookup (dict_set d k v) k = Some v.
Proof.
  induction d as [|[k' v'] d IH]; simpl.
  - now rewrite String.eqb_refl.
  - destruct (String.eqb_spec k' k) as [-> | Hk]; simpl.
    + now rewrite String.eqb_refl.
    + destruct (String.eqb_spec k' k); [contradiction | exact IH].
Qed.

Lemma dict_lookup_set_other (d : pydict) (k k' : string) (v : json) :
  k <> k' -> dict_lookup (dict_set d k v) k' = dict_lookup d k'.
Proof.
  intros Hk. induction d as [|[x w] d IH]; simpl.
  - destruct (String.eqb_spec k k'); [contradiction | reflexivity].
  - destruct (String.eqb_spec x k) as [-> | Hx]; simpl.
    + destruct (String.eqb_spec k k'); [contradiction | reflexivity].
    + destruct (String.eqb_spec x k'); [reflexivity | exact IH].
Qed.

Lemma dict_of_zip_lookup (f : string -> string) (names : list string)
  (k : string) :
  forall d,
    In k names \/ dict_lookup d k = Some (JStr (f k)) ->
    dict_lookup
      (fold_left (fun d p => dict_set d (fst p) (JStr (snd p)))
         (combine names (map f names)) d) k
    = Some (JStr (f k)).
Proof.
  induction names as [|x names IH]; intros d H; simpl.
  - destruct H as [[] | H]; exact H.
  - apply IH. destruct (string_dec x k) as [-> | Hx].
    + right. apply dict_lookup_set_same.
    + destruct H as [[H | H] | H]; [contradiction | now left |].
      right. now rewrite dict_lookup_set_other.
Qed.

Lemma dict_row_lookup (f : string -> string) (names : list string)
  (k : string) :
  In k names ->
  dict_lookup (by_name (dict_row names (map f names))) k = Some (JStr (f k)).
Proof.
  intros Hk. unfold dict_row. rewrite length_map, Nat.ltb_irrefl.
  rewrite skipn_all. simpl.
  apply dict_of_zip_lookup. now left.
Qed.

Lemma filter_not_blank (rows : list (list string)) :
  Forall (fun row => row <> []) rows ->
  filter (fun r => negb (is_blank r)) rows = rows.
Proof.
  induction 1 as [|row rows Hrow _ IH]; simpl; [reflexivity|].
  destruct row; [contradiction|]. simpl. now rewrite IH.
Qed.

(** What [DictReader] gives for a file of [write_csv] with at least one
    column: one row per event, each cell the text written for it. *)
Lemma DictReader_write_csv (env : Env) (rows : list pydict) :
  rows <> [] -> fieldnames rows <> [] ->
  exists content,
    write_csv env rows = Some content
    /\ DictReader content
       = Ok (map (fun r => dict_row (fieldnames rows)
                             (row_cells env (fieldnames rows) r)) rows).
Proof.
  intros Hrows Hkeys.
  destruct rows as [|r0 rows']; [contradiction|].
  set (rows := r0 :: rows') in *.
  eexists. split; [reflexivity|].
  unfold DictReader.
  change (map (fun r => writerow (row_cells env (fieldnames rows) r)) rows)
    with (map (fun r => writerow (row_cells env (fieldnames rows) r)) rows).
  rewrite <- (map_map (row_cells env (fieldnames rows)) writerow).
  assert (Hcells : Forall (fun row => row <> [])
                     (map (row_cells env (fieldnames rows)) rows)).
  { apply Forall_forall. intros row Hin.
    apply in_map_iff in Hin. destruct Hin as (r & <- & _).
    unfold row_cells. destruct (fieldnames rows); [contradiction|].
    discriminate. }
  rewrite (csv_reader_writerows _ _ Hkeys Hcells).
  cbv beta iota delta [bind].
  rewrite (filter_not_blank _ Hcells). now rewrite map_map.
Qed.

(** C8: for a non-empty list of events the file is written, and what
    [DictReader] reads from it has, at the place of every event and under
    every column of the header, the string the event holds there, and the
    empty string when the event has no such field; the header is the sorted
    union of the keys of the events. *)
Theorem write_csv_round_trip (env : Env) (rows : list pydict) :
  rows <> [] ->
  exists content read,
    write_csv env rows = Some content
    /\ DictReader content = Ok read
    /\ Sorted (fun a b => String.compare a b = Lt) (fieldnames rows)
    /\ (forall k, In k (fieldnames rows)
                  <-> exists r, In r rows /\ In k (dict_keys r))
    /\ forall i r k,
         nth_error rows i = Some r -> In k (fieldnames rows) ->
         exists row,
           nth_error read i = Some row
           /\ (forall s, dict_lookup r k = Some (JStr s) ->
                         dict_lookup (by_name row) k = Some (JStr s))
           /\ (dict_lookup r k = None ->
               dict_lookup (by_name row) k = Some (JStr "")).
Proof.
  intros Hrows.
  destruct (fieldnames_sorted_union rows) as [Hsorted Hunion].
  destruct (fieldnames rows) as [|k0 keys] eqn:Hkeys.
  - destruct rows as [|r0 rows']; [contradiction|].
    destruct (csv_reader
                (writerow []
                 ++ String.concat ""
                      (map (fun r => writerow (row_cells env [] r))
                         (r0 :: rows')))) as [recs|e] eqn:Hread.
    + eexists. exists (match recs with
                       | [] => []
                       | names :: rest =>
                           map (dict_row names)
                             (filter (fun r => negb (is_blank r)) rest)
                       end).
      split; [unfold write_csv; rewrite Hkeys; reflexivity|].
      split; [unfold DictReader; rewrite Hread; destruct recs; reflexivity|].
      split; [exact Hsorted|]. split; [exact Hunion|].
      intros i r k _ [].
    + exfalso. revert Hread. clear.
      change (writerow []) with CRLF.
      assert (H : forall l : list pydict,
                 String.concat "" (map (fun r => writerow (row_cells env [] r)) l)
                 = String.concat "" (map (fun _ => CRLF) l)).
      { intros l. induction l as [|x l IH]; [reflexivity|].
        change (map (fun r => writerow (row_cells env [] r)) (x :: l))
          with (CRLF :: map (fun r => writerow (row_cells env [] r)) l).
        change (map (fun _ : pydict => CRLF) (x :: l))
          with (CRLF :: map (fun _ : pydict => CRLF) l).
        now rewrite !concat_empty_cons, IH. }
      rewrite H. unfold csv_reader. rewrite feed_string_app.
      change (feed_string new_reader CRLF) with (Ok (at_record_start [[]])).
      cbv beta iota delta [bind].
      assert (G : forall (l : list pydict) done,
                 exists done',
                   feed_string (at_record_start done)
                     (String.concat "" (map (fun _ => CRLF) l))
                   = Ok (at_record_start done')).
      { intros l. induction l as [|x l IH]; intros done.
        - exists done. reflexivity.
        - change (map (fun _ : pydict => CRLF) (x :: l))
            with (CRLF :: map (fun _ : pydict => CRLF) l).
          rewrite concat_empty_cons, feed_string_app.
          change (feed_string (at_record_start done) CRLF)
            with (Ok (at_record_start (done ++ [[]])%list)).
          cbv beta iota delta [bind]. apply IH. }
      destruct (G (r0 :: rows') [[]]) as (done' & ->).
      discriminate.
  - rewrite <- Hkeys in *.
    assert (Hne : fieldnames rows <> []) by (rewrite Hkeys; discriminate).
    destruct (DictReader_write_csv env rows Hrows Hne) as (content & Hw & Hr).
    exists content. eexists. split; [exact Hw|]. split; [exact Hr|].
    split; [exact Hsorted|]. split; [exact Hunion|].
    intros i r k Hi Hk.
    exists (dict_row (fieldnames rows) (row_cells env (fieldnames rows) r)).
    split.
    { exact (map_nth_error
               (fun r => dict_row (fieldnames rows)
                           (row_cells env (fieldnames rows) r)) i rows Hi). }
    unfold row_cells.
    rewrite (dict_row_lookup
               (fun k => csv_text env (dict_get r k (JStr ""))) _ k Hk).
    unfold dict_get. split.
    + intros s ->. reflexivity.
    + intros ->. reflexivity.
Qed.

Lemma write_csv_round_trip_witness :
  csv_rows <> []
  /\ exists content read,
       write_csv env_iso csv_rows = Some content
       /\ DictReader content = Ok read
       /\ Sorted (fun a b => String.compare a b = Lt) (fieldnames csv_rows)
       /\ (forall k, In k (fieldnames csv_rows)
                     <-> exists r, In r csv_rows /\ In k (dict_keys r))
       /\ forall i r k,
            nth_error csv_rows i = Some r -> In k (fieldnames csv_rows) ->
            exists row,
              nth_error read i = Some row
              /\ (forall s, dict_lookup r k = Some (JStr s) ->
                            dict_lookup (by_name row) k = Some (JStr s))
              /\ (dict_lookup r k = None ->
                  dict_lookup (by_name row) k = Some (JStr "")).
Proof.
  assert (H : csv_rows <> []) by discriminate.
  split; [exact H | exact (write_csv_round_trip env_iso csv_rows H)].
Defined.

Example DictReader_ex :
  match write_csv env_iso csv_rows with
  | Some content => DictReader content
  | None => Ok []
  end
  = Ok [ mk_read_row [ ("message", JStr "a, b");
                       ("source", JStr "local_commit");
                       ("url", JStr "") ] [];
         mk_read_row [ ("message", JStr ("x" ++ String QUOTE "y" ++ CRLF ++ "z"));
                       ("source", JStr "");
                       ("url", JStr "") ] [] ].
Proof. reflexivity. Qed.

(** * Further properties *)

(** ** Date filter *)

(** X1: a timestamp text that parses to an instant of the same kind as the
    bounds that are set is kept exactly when it is not before the start and
    not after the end; an instant equal to a bound is kept. *)
Theorem within_range_inclusive (env : Env) (s : string) (t : datetime)
  (start end_ : option datetime) :
  s <> "" ->
  parse_date_any env (JStr s) = Ok (Some t) ->
  same_kind t start -> same_kind t end_ ->
  within_range env (JStr s) start end_
  = Ok (not_before t start && not_after t end_)
  /\ within_range env (JStr s) (Some t) (Some t) = Ok true.
Proof.
  intros Hs Hp Ha Hb. split.
  - exact (within_range_comparable env s t start end_ Hs Hp Ha Hb).
  - rewrite (within_range_comparable env s t (Some t) (Some t) Hs Hp eq_refl
               eq_refl).
    simpl. now rewrite Z.leb_refl.
Qed.

Lemma within_range_inclusive_witness :
  "2025/07/24" <> ""
  /\ parse_date_any env_iso (JStr "2025/07/24") = Ok (Some jul24)
  /\ same_kind jul24 (Some jul24) /\ same_kind jul24 (Some oct02)
  /\ within_range env_iso (JStr "2025/07/24") (Some jul24) (Some oct02)
     = Ok true.
Proof.
  assert (Hs : "2025/07/24" <> "") by discriminate.
  assert (Hp : parse_date_any env_iso (JStr "2025/07/24") = Ok (Some jul24))
    by reflexivity.
  assert (Ha : same_kind jul24 (Some jul24)) by reflexivity.
  assert (Hb : same_kind jul24 (Some oct02)) by reflexivity.
  split; [exact Hs|]. split; [exact Hp|]. split; [exact Ha|].
  split; [exact Hb|].
  exact (proj1 (within_range_inclusive env_iso "2025/07/24" jul24 (Some jul24)
                  (Some oct02) Hs Hp Ha Hb)).
Defined.

Lemma normalize_date_non_text (env : Env) (v : json) :
  truthy v = true -> is_text v = false -> normalize_date env v = v.
Proof.
  intros Ht Hx. unfold normalize_date. rewrite Ht. simpl.
  destruct (dtparser env); [|reflexivity].
  destruct v; try reflexivity. discriminate Hx.
Qed.

Lemma within_range_non_text (env : Env) (v : json)
  (start end_ : option datetime) :
  truthy v = true -> is_text v = false ->
  within_range env v start end_ = Ok false.
Proof.
  intros Ht Hx. unfold within_range, parse_date_any. rewrite Ht. simpl.
  destruct v; try reflexivity. discriminate Hx.
Qed.

(** X2: a date that is neither empty nor a text (a number, a list, an
    object, [true]) is left as it is by [normalize_date] and rejected by
    [within_range] whatever the bounds, also when none is set: the [except]
    clause answers [False].  A commit with such a [created_at] is skipped. *)
Theorem non_text_date_is_dropped (env : Env) (v : json)
  (start end_ : option datetime) (d : pydict) :
  truthy v = true -> is_text v = false ->
  normalize_date env v = v
  /\ within_range env v start end_ = Ok false
  /\ (dict_lookup d "created_at" = Some v ->
      commit_row env start end_ (JObj d) = Ok None).
Proof.
  intros Ht Hx. split; [now apply normalize_date_non_text|].
  split; [now apply within_range_non_text|].
  intros Hd. unfold commit_row. simpl. unfold dict_get. rewrite Hd. simpl.
  rewrite Ht. simpl.
  rewrite (normalize_date_non_text env v Ht Hx).
  now rewrite (within_range_non_text env v start end_ Ht Hx).
Qed.

Lemma non_text_date_is_dropped_witness :
  truthy (JNum 1756715400) = true /\ is_text (JNum 1756715400) = false
  /\ within_range env_flexible (JNum 1756715400) None None = Ok false
  /\ commit_row env_flexible None None
       (JObj [("id", JStr "c0ffee"); ("created_at", JNum 1756715400)])
     = Ok None.
Proof.
  assert (Ht : truthy (JNum 1756715400) = true) by reflexivity.
  assert (Hx : is_text (JNum 1756715400) = false) by reflexivity.
  split; [exact Ht|]. split; [exact Hx|].
  destruct (non_text_date_is_dropped env_flexible (JNum 1756715400) None None
              [("id", JStr "c0ffee"); ("created_at", JNum 1756715400)] Ht Hx)
    as (_ & H1 & H2).
  split; [exact H1 | exact (H2 eq_refl)].
Defined.

Lemma normalize_date_falsy (env : Env) (v : json) :
  truthy v = false -> normalize_date env v = JStr "".
Proof. intros H. unfold normalize_date. now rewrite H. Qed.

Lemma within_range_empty_bounded (env : Env) (start end_ : option datetime) :
  start <> None \/ end_ <> None ->
  within_range env (JStr "") start end_ = Ok false.
Proof.
  intros H. unfold within_range. simpl.
  destruct start, end_; try reflexivity.
  destruct H as [H | H]; contradiction.
Qed.

(** X3: under a filter window with a bound, a remote item without a date is
    skipped without error: a commit with neither [created_at] nor
    [committed_date], a branch whose tip commit has no [committed_date], a
    merge request without [updated_at]. *)
Theorem undated_remote_items_are_skipped (env : Env)
  (start end_ : option datetime) (d : pydict) :
  start <> None \/ end_ <> None ->
  (truthy (dict_get d "created_at" JNull) = false ->
   truthy (dict_get d "committed_date" JNull) = false ->
   commit_row env start end_ (JObj d) = Ok None)
  /\ (forall tip,
        dict_get d "commit" (JObj []) = JObj tip ->
        truthy (dict_get tip "committed_date" JNull) = false ->
        branch_row env start end_ (JObj d) = Ok None)
  /\ (truthy (dict_get d "updated_at" JNull) = false ->
      merge_request_row env start end_ (JObj d) = Ok None).
Proof.
  intros Hb. repeat split.
  - intros H1 H2. unfold commit_row. simpl. rewrite H1. simpl.
    rewrite (normalize_date_falsy env _ H2).
    now rewrite (within_range_empty_bounded env start end_ Hb).
  - intros tip Htip H. unfold branch_row. simpl. rewrite Htip. simpl.
    rewrite (normalize_date_falsy env _ H).
    now rewrite (within_range_empty_bounded env start end_ Hb).
  - intros H. unfold merge_request_row. simpl.
    rewrite (normalize_date_falsy env _ H).
    now rewrite (within_range_empty_bounded env start end_ Hb).
Qed.

Lemma undated_remote_items_are_skipped_witness :
  (Some jul24 <> None \/ @None datetime <> None)
  /\ commit_row env_iso (Some jul24) None
       (JObj [("id", JStr "c0ffee"); ("message", JStr "fix")]) = Ok None
  /\ branch_row env_iso (Some jul24) None
       (JObj [("id", JStr "c0ffee"); ("message", JStr "fix")]) = Ok None
  /\ merge_request_row env_iso (Some jul24) None
       (JObj [("id", JStr "c0ffee"); ("message", JStr "fix")]) = Ok None.
Proof.
  assert (Hb : Some jul24 <> None \/ @None datetime <> None)
    by (left; discriminate).
  destruct (undated_remote_items_are_skipped env_iso (Some jul24) None
              [("id", JStr "c0ffee"); ("message", JStr "fix")] Hb)
    as (H1 & H2 & H3).
  split; [exact Hb|].
  split; [exact (H1 eq_refl eq_refl)|].
  split; [exact (H2 [] eq_refl eq_refl) | exact (H3 eq_refl)].
Defined.

(** ** Filter window *)

(** X4: a month count of zero is no month count: the run is the one without
    the option. *)
Theorem zero_months_is_no_filter (env : Env) (args : Args) (s : session) :
  months_back args = Some 0 ->
  filter_window env args = filter_window env (without_months args)
  /\ collect_data env args s = collect_data env (without_months args) s.
Proof.
  intros H.
  assert (Hw : filter_window env args = filter_window env (without_months args)).
  { unfold filter_window. rewrite H. reflexivity. }
  split; [exact Hw|].
  unfold collect_data. rewrite Hw. reflexivity.
Qed.

Lemma zero_months_is_no_filter_witness :
  months_back zero_months_args = Some 0
  /\ filter_window env_repo zero_months_args = Ok (None, None).
Proof.
  assert (H : months_back zero_months_args = Some 0) by reflexivity.
  split; [exact H|].
  rewrite (proj1 (zero_months_is_no_filter env_repo zero_months_args
                    (mk_session [] []) H)).
  reflexivity.
Defined.

(** X5: an explicit range replaces the month window: with a range given, the
    bounds are what [parse_date_any] makes of its two texts, so a range that
    does not parse leaves the run without any bound although a month count
    was given; without a range there is never an upper bound. *)
Theorem filter_window_of_range (env : Env) (args : Args)
  (w : option datetime * option datetime) :
  filter_window env args = Ok w ->
  (forall from to,
     date_range args = Some (from, to) ->
     parse_date_any env (JStr from) = Ok (fst w)
     /\ parse_date_any env (JStr to) = Ok (snd w))
  /\ (date_range args = None -> snd w = None).
Proof.
  unfold filter_window. intros H. split.
  - intros from to Hr. rewrite Hr in H. unbind H.
    injection H as <-. split; reflexivity.
  - intros Hr. rewrite Hr in H. unbind H. injection H as <-. reflexivity.
Qed.

Lemma filter_window_of_range_witness :
  filter_window env_repo bad_range_args = Ok (None, None)
  /\ parse_date_any env_repo (JStr "yesterday") = Ok None
  /\ parse_date_any env_repo (JStr "today") = Ok None.
Proof.
  assert (H : filter_window env_repo bad_range_args = Ok (None, None))
    by reflexivity.
  split; [exact H|].
  exact (proj1 (filter_window_of_range env_repo bad_range_args (None, None) H)
           "yesterday" "today" eq_refl).
Defined.

(** X6: a month count that the clock cannot subtract makes [collect_data]
    raise, outside every [try] block, whatever the other arguments. *)
Theorem clock_overflow_escapes (env : Env) (args : Args) (s : session)
  (n : Z) (e : exn) :
  months_back args = Some n -> n <> 0 ->
  now_minus_days env (30 * n) = Raise e ->
  collect_data env args s = Raise e.
Proof.
  intros Hm Hn Hc. unfold collect_data, filter_window. rewrite Hm.
  destruct (Z.eqb_spec n 0); [contradiction|].
  rewrite Hc. reflexivity.
Qed.

Lemma clock_overflow_escapes_witness :
  months_back huge_months_args = Some 40000000
  /\ 40000000 <> 0
  /\ now_minus_days env_repo (30 * 40000000) = Raise OverflowError
  /\ collect_data env_repo huge_months_args (mk_session [] [])
     = Raise OverflowError.
Proof.
  assert (H1 : months_back huge_months_args = Some 40000000) by reflexivity.
  assert (H2 : 40000000 <> 0) by discriminate.
  assert (H3 : now_minus_days env_repo (30 * 40000000) = Raise OverflowError)
    by reflexivity.
  split; [exact H1|]. split; [exact H2|]. split; [exact H3|].
  exact (clock_overflow_escapes env_repo huge_months_args (mk_session [] [])
           40000000 OverflowError H1 H2 H3).
Defined.

(** ** Client *)

Lemma page_requests_app (url : string) (vfy : bool) (pages : list response) :
  forall params more,
    page_requests url vfy params (pages ++ more)
    = (page_requests url vfy params pages
       ++ page_requests url vfy (params_after params pages) more)%list.
Proof.
  induction pages as [|r pages IH]; intros params more; simpl;
    [reflexivity | now rewrite IH].
Qed.

(** The loop over a run of pages that all have a cursor. *)
Lemma get_pages_prefix (url : string) (vfy : bool) (pages : list response) :
  forall params all_items replies log,
    Forall list_page pages ->
    Forall (fun r => next_page_of r <> "") pages ->
    get_pages url vfy params all_items (map Ok pages ++ replies)%list log
    = get_pages url vfy (params_after params pages)
        (all_items ++ flat_map page_items pages)%list replies
        (log ++ page_requests url vfy params pages)%list.
Proof.
  induction pages as [|r pages IH]; intros params all_items replies log
    Hpages Hnext.
  - simpl. now rewrite !app_nil_r.
  - inversion Hpages as [|? ? Hr Hpages']; subst.
    inversion Hnext as [|? ? Hn Hnext']; subst.
    change (map Ok (r :: pages) ++ replies)%list
      with (Ok r :: (map Ok pages ++ replies))%list.
    rewrite get_pages_next by assumption.
    rewrite IH by assumption.
    simpl. now rewrite <- !app_assoc.
Qed.

(** X7: a listing fails as a whole.  When, after any number of good pages,
    the server answers with a client or server error, [_get] raises
    [RuntimeError] with the status and the body of that answer; when the
    transport raises, that exception comes out; when no answer comes, the
    request fails.  The items of the pages read before are not returned, one
    request per answer was issued, and the replies behind the failure are left
    in the session. *)
Theorem get_fails_as_a_whole (self : GitLabClient) (path : string)
  (params : pydict) (s : session) (pages : list response)
  (rest : list (result response)) :
  Forall list_page pages ->
  Forall (fun r => next_page_of r <> "") pages ->
  let requests :=
    (page_requests (base_url self ++ path) (verify self)
       (dict_setdefault params "per_page" (JNum 100)) pages
     ++ [mk_request (base_url self ++ path)
           (params_after (dict_setdefault params "per_page" (JNum 100)) pages)
           (verify self)])%list in
  (forall bad,
     ok bad = false ->
     pending s = (map Ok pages ++ Ok bad :: rest)%list ->
     _get self path params s
     = (Raise (RuntimeError (status_code bad) (text bad)),
        mk_session rest (sent s ++ requests)%list))
  /\ (forall e,
        pending s = (map Ok pages ++ Raise e :: rest)%list ->
        _get self path params s
        = (Raise e, mk_session rest (sent s ++ requests)%list))
  /\ (pending s = map Ok pages ->
      _get self path params s
      = (Raise (OtherError "ConnectionError"),
         mk_session [] (sent s ++ requests)%list)).
Proof.
  intros Hpages Hnext requests. unfold requests, _get. repeat split.
  - intros bad Hbad ->. rewrite get_pages_prefix by assumption.
    simpl. rewrite Hbad. simpl. now rewrite <- app_assoc.
  - intros e ->. rewrite get_pages_prefix by assumption.
    simpl. now rewrite <- app_assoc.
  - intros ->. rewrite <- (app_nil_r (map Ok pages)).
    rewrite get_pages_prefix by assumption.
    simpl. now rewrite <- app_assoc.
Qed.

Lemma get_fails_as_a_whole_witness :
  Forall list_page [page_one]
  /\ Forall (fun r => next_page_of r <> "") [page_one]
  /\ ok page_forbidden = false
  /\ _get sample_client "/api/v4/projects/7/repository/commits" []
       (mk_session [Ok page_one; Ok page_forbidden; Ok page_two] [])
     = (Raise (RuntimeError 403 "403 Forbidden"),
        mk_session [Ok page_two]
          [ mk_request
              "https://gitlab.example.com/api/v4/projects/7/repository/commits"
              [("per_page", JNum 100)] true;
            mk_request
              "https://gitlab.example.com/api/v4/projects/7/repository/commits"
              [("per_page", JNum 100); ("page", JStr "2")] true ]).
Proof.
  assert (H1 : Forall list_page [page_one]).
  { repeat constructor; eexists; reflexivity. }
  assert (H2 : Forall (fun r => next_page_of r <> "") [page_one]).
  { repeat constructor. discriminate. }
  assert (H3 : ok page_forbidden = false) by reflexivity.
  split; [exact H1|]. split; [exact H2|]. split; [exact H3|].
  exact (proj1 (get_fails_as_a_whole sample_client
                  "/api/v4/projects/7/repository/commits" []
                  (mk_session [Ok page_one; Ok page_forbidden; Ok page_two] [])
                  [page_one] [Ok page_two] H1 H2)
           page_forbidden H3 eq_refl).
Defined.

Lemma dict_lookup_app (d : pydict) (k : string) (more : pydict) :
  dict_lookup (d ++ more)%list k
  = match dict_lookup d k with
    | Some v => Some v
    | None => dict_lookup more k
    end.
Proof.
  induction d as [|[k' v] d IH]; simpl; [reflexivity|].
  destruct (k' =? k)%string; [reflexivity | exact IH].
Qed.

Lemma dict_setdefault_lookup (d : pydict) (k k' : string) (v : json) :
  dict_lookup (dict_setdefault d k v) k'
  = if (k =? k')%string then Some (dict_get d k v) else dict_lookup d k'.
Proof.
  unfold dict_setdefault, dict_get.
  destruct (String.eqb_spec k k') as [<- | Hk].
  - destruct (dict_lookup d k) eqn:E; [exact E|].
    rewrite dict_lookup_app, E. simpl. now rewrite String.eqb_refl.
  - destruct (dict_lookup d k) eqn:E; [reflexivity|].
    rewrite dict_lookup_app. destruct (dict_lookup d k'); [reflexivity|].
    simpl. destruct (String.eqb_spec k k'); [contradiction | reflexivity].
Qed.

(** What the loop sends, whatever the replies are. *)
Lemma get_pages_requests (url : string) (vfy : bool)
  (P : pydict -> Prop) (replies : list (result response)) :
  (forall p v, P p -> P (dict_set p "page" v)) ->
  forall params all_items log res s',
    P params ->
    get_pages url vfy params all_items replies log = (res, s') ->
    exists new used,
      sent s' = (log ++ new)%list
      /\ replies = (used ++ pending s')%list
      /\ (List.length used <= List.length new <= S (List.length used))%nat
      /\ (0 < List.length new)%nat
      /\ Forall (fun rq => req_url rq = url /\ req_verify rq = vfy
                           /\ P (req_params rq)) new.
Proof.
  intros HP.
  induction replies as [|reply rest IH]; intros params all_items log res s'
    Hp Hget.
  - simpl in Hget. injection Hget as <- <-.
    exists [mk_request url params vfy], []. simpl.
    repeat split; try lia. repeat constructor. exact Hp.
  - assert (Stop : forall out,
               (out, mk_session rest (log ++ [mk_request url params vfy])%list)
               = (res, s') ->
               exists new used,
                 sent s' = (log ++ new)%list
                 /\ reply :: rest = (used ++ pending s')%list
                 /\ (List.length used <= List.length new
                     <= S (List.length used))%nat
                 /\ (0 < List.length new)%nat
                 /\ Forall (fun rq => req_url rq = url /\ req_verify rq = vfy
                                      /\ P (req_params rq)) new).
    { intros out H. injection H as <- <-.
      exists [mk_request url params vfy], [reply]. simpl.
      repeat split; try lia. repeat constructor. exact Hp. }
    simpl in Hget.
    destruct reply as [r|e]; [|exact (Stop _ Hget)].
    destruct (negb (ok r)); [exact (Stop _ Hget)|].
    destruct (json_body r) as [data|e]; [|exact (Stop _ Hget)].
    assert (Go : forall more,
               (if (next_page_of r =? "")%string
                then (Ok (JArr (all_items ++ more)%list),
                      mk_session rest (log ++ [mk_request url params vfy])%list)
                else get_pages url vfy
                       (dict_set params "page" (JStr (next_page_of r)))
                       (all_items ++ more)%list rest
                       (log ++ [mk_request url params vfy])%list)
               = (res, s') ->
               exists new used,
                 sent s' = (log ++ new)%list
                 /\ Ok r :: rest = (used ++ pending s')%list
                 /\ (List.length used <= List.length new
                     <= S (List.length used))%nat
                 /\ (0 < List.length new)%nat
                 /\ Forall (fun rq => req_url rq = url /\ req_verify rq = vfy
                                      /\ P (req_params rq)) new).
    { intros more H.
      destruct (next_page_of r =? "")%string; [exact (Stop _ H)|].
      destruct (IH _ _ _ _ _ (HP _ _ Hp) H)
        as (new & used & Hs & Hr & Hl & _ & Hall).
      exists (mk_request url params vfy :: new), (Ok r :: used).
      rewrite Hs, <- app_assoc. simpl. rewrite <- Hr.
      repeat split; try lia. constructor; [|exact Hall].
      repeat split. exact Hp. }
    destruct data; simpl in Hget;
      first [exact (Stop _ Hget) | exact (Go _ Hget)].
Qed.

(** X8: whatever the server answers, every request of one call of [_get]
    goes to the same address with the same certificate policy, carries
    [per_page] (100 unless the caller gave one) and every other parameter of
    the caller unchanged: paging only sets [page].  A call sends at least one
    request and, but for one request that no answer follows, as many requests
    as it takes replies from the session. *)
Theorem get_requests_are_uniform (self : GitLabClient) (path : string)
  (params : pydict) (s s' : session) (res : result json) :
  _get self path params s = (res, s') ->
  exists new used,
    sent s' = (sent s ++ new)%list
    /\ pending s = (used ++ pending s')%list
    /\ (List.length used <= List.length new <= S (List.length used))%nat
    /\ (0 < List.length new)%nat
    /\ Forall (request_of self path params) new.
Proof.
  unfold _get. intros H.
  set (P := fun p : pydict =>
              dict_lookup p "per_page"
              = Some (dict_get params "per_page" (JNum 100))
              /\ forall k, k <> "page" -> k <> "per_page" ->
                           dict_lookup p k = dict_lookup params k).
  assert (HP : forall p v, P p -> P (dict_set p "page" v)).
  { intros p v [H1 H2]. split.
    - rewrite dict_lookup_set_other by discriminate. exact H1.
    - intros k Hk1 Hk2. rewrite dict_lookup_set_other by congruence.
      now apply H2. }
  assert (H0 : P (dict_setdefault params "per_page" (JNum 100))).
  { split.
    - rewrite dict_setdefault_lookup. now rewrite String.eqb_refl.
    - intros k _ Hk. rewrite dict_setdefault_lookup.
      destruct (String.eqb_spec "per_page" k); [congruence | reflexivity]. }
  destruct (get_pages_requests _ _ P _ HP _ _ _ _ _ H0 H)
    as (new & used & Hs & Hr & Hl & Hn & Hall).
  exists new, used. repeat split; try assumption; try lia.
Qed.

Lemma get_requests_are_uniform_witness :
  _get sample_client "/api/v4/projects/7/merge_requests"
    [("state", JStr "all")] (mk_session [Ok page_one; Ok page_two] [])
  = (Ok (JArr [commit_a; commit_b; commit_c]),
     mk_session []
       [ mk_request "https://gitlab.example.com/api/v4/projects/7/merge_requests"
           [("state", JStr "all"); ("per_page", JNum 100)] true;
         mk_request "https://gitlab.example.com/api/v4/projects/7/merge_requests"
           [("state", JStr "all"); ("per_page", JNum 100); ("page", JStr "2")]
           true ])
  /\ exists new,
       Forall (request_of sample_client "/api/v4/projects/7/merge_requests"
                 [("state", JStr "all")]) new
       /\ List.length new = 2%nat.
Proof.
  assert (H : _get sample_client "/api/v4/projects/7/merge_requests"
                [("state", JStr "all")]
                (mk_session [Ok page_one; Ok page_two] [])
              = (Ok (JArr [commit_a; commit_b; commit_c]),
                 mk_session []
                   [ mk_request
                       "https://gitlab.example.com/api/v4/projects/7/merge_requests"
                       [("state", JStr "all"); ("per_page", JNum 100)] true;
                     mk_request
                       "https://gitlab.example.com/api/v4/projects/7/merge_requests"
                       [("state", JStr "all"); ("per_page", JNum 100);
                        ("page", JStr "2")] true ]))
    by reflexivity.
  split; [exact H|].
  destruct (get_requests_are_uniform _ _ _ _ _ _ H)
    as (new & used & Hs & _ & _ & _ & Hall).
  exists new. split; [exact Hall|].
  simpl in Hs. subst new. reflexivity.
Defined.

Lemma str_rstrip_spec (c : ascii) (s : string) :
  ends_with c (str_rstrip c s) = false
  /\ exists n, s = str_rstrip c s ++ replicate c n.
Proof.
  induction s as [|a s [IH1 [n IH2]]]; simpl.
  - split; [reflexivity | exists O; reflexivity].
  - destruct (str_rstrip c s) as [|b t] eqn:E.
    + destruct (Ascii.eqb_spec a c) as [-> | Ha].
      * split; [reflexivity|]. exists (S n). simpl. now rewrite IH2 at 1.
      * split; [simpl; now apply Ascii.eqb_neq|].
        exists n. simpl. now rewrite IH2 at 1.
    + split; [exact IH1|]. exists n. simpl. now rewrite IH2 at 1.
Qed.

(** X9: the client keeps the base address without its trailing slashes: the
    address given is the one kept followed by slashes only, and the one kept
    does not end with a slash, so that a path starting with a slash is joined
    by exactly one; the token and the certificate policy are kept as given. *)
Theorem client_base_url_has_no_trailing_slash (url tok : string) (v : bool) :
  ends_with SLASH (base_url (GitLabClient_init url tok v)) = false
  /\ (exists n,
        url = base_url (GitLabClient_init url tok v) ++ replicate SLASH n)
  /\ token (GitLabClient_init url tok v) = tok
  /\ verify (GitLabClient_init url tok v) = v.
Proof.
  destruct (str_rstrip_spec SLASH url) as [H1 H2].
  repeat split; assumption.
Qed.

(** ** Local parsers *)

Lemma str_partition_none (sep : ascii) (s : string) :
  count_char sep s = O -> str_partition sep s = None.
Proof.
  induction s as [|c s IH]; simpl; [reflexivity|].
  destruct (Ascii.eqb c sep); [discriminate|].
  intros H. now rewrite (IH H).
Qed.

Lemma str_split_length (sep : ascii) (n : nat) :
  forall s,
    List.length (str_split sep n s) = S (Nat.min n (count_char sep s)).
Proof.
  induction n as [|n IH]; intros s; simpl; [reflexivity|].
  destruct (count_char sep s) as [|m] eqn:E.
  - now rewrite (str_partition_none sep s E).
  - destruct (str_partition_some sep s) as (pre & post & -> & _ & _ & Hn);
      [lia|].
    simpl. rewrite IH. rewrite E in Hn. injection Hn as <-. reflexivity.
Qed.

Lemma git_log_row_none (l : string) :
  git_log_row l = None <-> (count_char PIPE l < 4)%nat.
Proof.
  unfold git_log_row.
  pose proof (str_split_length PIPE 4 l) as Hlen.
  remember (str_split PIPE 4 l) as parts eqn:E. clear E.
  destruct parts as [|? [|? [|? [|? [|? [|? ?]]]]]];
    cbn [List.length] in Hlen; split; intros H;
    first [reflexivity | discriminate H | lia | (exfalso; lia)].
Qed.

(** X10: the commit-log parser drops a line exactly when it has fewer than
    four pipes, and does so for that line alone: the rows of the parser are
    those of the other lines, in the order of the output. *)
Theorem git_log_row_drops_short_lines (env : Env) (repo : string)
  (line out : string) :
  (git_log_row line = None <-> (count_char PIPE line < 4)%nat)
  /\ (run_git env repo
        ["log"; "--all"; "--pretty=format:%H|%an|%ae|%ad|%s"; "--date=iso"]
      = Ok out ->
      exists rows,
        parse_git_log env repo = Ok rows
        /\ rows = filter_some git_log_row (splitlines out)
        /\ List.length rows
           = List.length
               (filter (fun l => (4 <=? count_char PIPE l)%nat)
                  (splitlines out))).
Proof.
  split; [apply git_log_row_none|].
  intros Hout. unfold parse_git_log. rewrite Hout.
  cbv beta iota delta [bind].
  eexists. split; [reflexivity|]. split; [reflexivity|].
  induction (splitlines out) as [|l ls IH]; [reflexivity|].
  cbn [filter filter_some].
  destruct (git_log_row l) eqn:E;
    destruct (Nat.leb_spec 4 (count_char PIPE l)) as [Hge | Hlt].
  - cbn [List.length]. now rewrite IH.
  - apply git_log_row_none in Hlt. congruence.
  - apply git_log_row_none in E. lia.
  - exact IH.
Qed.

Lemma git_log_row_drops_short_lines_witness :
  run_git env_repo "/srv/repo"
    ["log"; "--all"; "--pretty=format:%H|%an|%ae|%ad|%s"; "--date=iso"]
  = Ok "c0ffee|Ann|ann@example.org|2025-09-01 08:30:00|a | b | c"
  /\ exists rows,
       parse_git_log env_repo "/srv/repo" = Ok rows
       /\ List.length rows = 1%nat.
Proof.
  assert (H : run_git env_repo "/srv/repo"
                ["log"; "--all"; "--pretty=format:%H|%an|%ae|%ad|%s";
                 "--date=iso"]
              = Ok "c0ffee|Ann|ann@example.org|2025-09-01 08:30:00|a | b | c")
    by reflexivity.
  split; [exact H|].
  destruct (proj2 (git_log_row_drops_short_lines env_repo "/srv/repo" "" _) H)
    as (rows & Hp & _ & Hl).
  exists rows. split; [exact Hp | exact Hl].
Defined.

Lemma str_partition_app (sep : ascii) (pre post : string) :
  count_char sep pre = O ->
  str_partition sep (pre ++ String sep post) = Some (pre, post).
Proof.
  induction pre as [|c pre IH]; simpl.
  - now rewrite Ascii.eqb_refl.
  - destruct (Ascii.eqb c sep); [discriminate|].
    intros H. now rewrite (IH H).
Qed.

Lemma git_log_row_joined (sha an ae ad msg : string) :
  count_char PIPE sha = O -> count_char PIPE an = O ->
  count_char PIPE ae = O -> count_char PIPE ad = O ->
  git_log_row (sha ++ "|" ++ an ++ "|" ++ ae ++ "|" ++ ad ++ "|" ++ msg)
  = Some (event "local_commit" "commit" (JStr an) (JStr ae) (JStr ad)
            (JStr "") (JStr sha) (JStr msg) (JStr "")).
Proof.
  intros H1 H2 H3 H4. unfold git_log_row. simpl.
  rewrite (str_partition_app PIPE sha _ H1), (str_partition_app PIPE an _ H2),
    (str_partition_app PIPE ae _ H3), (str_partition_app PIPE ad _ H4).
  reflexivity.
Qed.

(** X11: a line made of a hash, an author name, an address and a date that
    hold no pipe, and of any subject, gives the row with exactly these five
    values, timestamp as printed and [ref] and [url] empty.  A pipe inside
    the author name moves the values by one place: the second part of the
    name becomes the address, the address the timestamp, and the date is
    glued to the subject. *)
Theorem git_log_row_reads_fields (sha an ae ad msg : string) :
  count_char PIPE sha = O -> count_char PIPE an = O ->
  count_char PIPE ae = O -> count_char PIPE ad = O ->
  git_log_row (sha ++ "|" ++ an ++ "|" ++ ae ++ "|" ++ ad ++ "|" ++ msg)
  = Some (event "local_commit" "commit" (JStr an) (JStr ae) (JStr ad)
            (JStr "") (JStr sha) (JStr msg) (JStr ""))
  /\ forall an2,
       count_char PIPE an2 = O ->
       git_log_row (sha ++ "|" ++ (an ++ "|" ++ an2) ++ "|" ++ ae ++ "|"
                    ++ ad ++ "|" ++ msg)
       = Some (event "local_commit" "commit" (JStr an) (JStr an2) (JStr ae)
                 (JStr "") (JStr sha) (JStr (ad ++ "|" ++ msg)) (JStr "")).
Proof.
  intros H1 H2 H3 H4. split.
  - now apply git_log_row_joined.
  - intros an2 H5. rewrite (append_assoc an).
    exact (git_log_row_joined sha an an2 ae (ad ++ "|" ++ msg) H1 H2 H5 H3).
Qed.

Lemma git_log_row_reads_fields_witness :
  count_char PIPE "c0ffee" = O /\ count_char PIPE "Ann" = O
  /\ count_char PIPE "ann@example.org" = O
  /\ count_char PIPE "2025-09-01 08:30:00 +0200" = O
  /\ git_log_row "c0ffee|Ann|ann@example.org|2025-09-01 08:30:00 +0200|fix"
     = Some (event "local_commit" "commit" (JStr "Ann")
               (JStr "ann@example.org") (JStr "2025-09-01 08:30:00 +0200")
               (JStr "") (JStr "c0ffee") (JStr "fix") (JStr "")).
Proof.
  repeat (split; [reflexivity|]).
  exact (proj1 (git_log_row_reads_fields "c0ffee" "Ann" "ann@example.org"
                  "2025-09-01 08:30:00 +0200" "fix" eq_refl eq_refl eq_refl
                  eq_refl)).
Defined.

(** X12: a reflog line is cut at its first space: what stands before it is
    the hash of the row and the rest is its message, further spaces
    included; a line without space is a hash with an empty message.  No line
    is dropped: the parser gives one row per line of the output. *)
Theorem reflog_row_reads_fields (env : Env) (repo : string)
  (sha msg out : string) :
  count_char SPACE sha = O ->
  reflog_row (sha ++ " " ++ msg)
  = event "local_reflog" "reflog" (JStr "") (JStr "") (JStr "") (JStr "")
      (JStr sha) (JStr msg) (JStr "")
  /\ reflog_row sha
     = event "local_reflog" "reflog" (JStr "") (JStr "") (JStr "") (JStr "")
         (JStr sha) (JStr "") (JStr "")
  /\ (run_git env repo ["reflog"; "--date=iso"] = Ok out ->
      exists rows,
        parse_reflog env repo = Ok rows
        /\ List.length rows = List.length (splitlines out)).
Proof.
  intros H. split; [|split].
  - unfold reflog_row.
    change (sha ++ " " ++ msg) with (sha ++ String SPACE msg).
    cbn [str_split]. now rewrite (str_partition_app SPACE sha msg H).
  - unfold reflog_row. cbn [str_split].
    now rewrite (str_partition_none SPACE sha H).
  - intros Hout. unfold parse_reflog. rewrite Hout. simpl.
    eexists. split; [reflexivity|]. apply length_map.
Qed.

Lemma reflog_row_reads_fields_witness :
  count_char SPACE "c0ffee" = O
  /\ reflog_row "c0ffee HEAD@{2025-09-01 08:30:00 +0200}: commit: fix"
     = event "local_reflog" "reflog" (JStr "") (JStr "") (JStr "") (JStr "")
         (JStr "c0ffee")
         (JStr "HEAD@{2025-09-01 08:30:00 +0200}: commit: fix") (JStr "").
Proof.
  split; [reflexivity|].
  exact (proj1 (reflog_row_reads_fields env_repo "/srv/repo" "c0ffee"
                  "HEAD@{2025-09-01 08:30:00 +0200}: commit: fix" ""
                  eq_refl)).
Defined.

(** *** Lines of the output *)

Lemma plain_char_tests (c : ascii) :
  plain_char c = true ->
  Ascii.eqb c CR = false /\ is_line_break c = false
  /\ Ascii.eqb c "194" = false /\ Ascii.eqb c "226" = false.
Proof.
  destruct c as [[] [] [] [] [] [] [] []]; intros H;
    try discriminate H; repeat split.
Qed.

Lemma splitlines_plain_char (c : ascii) (cur s : string) :
  plain_char c = true ->
  splitlines_from cur (String c s) = splitlines_from (cur ++ String c "") s.
Proof.
  intros H. destruct (plain_char_tests c H) as (H1 & H2 & H3 & H4).
  simpl. rewrite H1, H2, H3, H4.
  destruct s as [|c2 [|c3 s3]]; reflexivity.
Qed.

Lemma splitlines_plain_text (l : string) :
  forall cur rest,
    plain_text l = true ->
    splitlines_from cur (l ++ rest) = splitlines_from (cur ++ l) rest.
Proof.
  induction l as [|c l IH]; intros cur rest H.
  - simpl. now rewrite append_nil_r.
  - simpl in H. apply Bool.andb_true_iff in H. destruct H as [Hc Hl].
    change (String c l ++ rest) with (String c (l ++ rest)).
    rewrite (splitlines_plain_char c cur (l ++ rest) Hc).
    rewrite (IH _ _ Hl). now rewrite append_snoc.
Qed.

Lemma splitlines_output_of (lines : list string) :
  Forall output_line lines -> splitlines (output_of lines) = lines.
Proof.
  unfold splitlines, output_of.
  induction 1 as [|l lines [Hne Hplain] Hlines IH]; [reflexivity|].
  destruct lines as [|l' lines'].
  - simpl. rewrite <- (append_nil_r l) at 1.
    rewrite (splitlines_plain_text l "" "" Hplain). simpl.
    destruct (String.eqb_spec l ""); [contradiction | reflexivity].
  - change (String.concat (String LF "") (l :: l' :: lines'))
      with (l ++ String LF (String.concat (String LF "") (l' :: lines'))).
    rewrite (splitlines_plain_text l "" _ Hplain).
    change (splitlines_from ("" ++ l)
              (String LF (String.concat (String LF "") (l' :: lines'))))
      with (l :: splitlines_from ""
                   (String.concat (String LF "") (l' :: lines'))).
    now rewrite IH.
Qed.

Lemma splitlines_line_feed (l rest : string) :
  plain_text l = true ->
  splitlines_from "" (l ++ String LF rest) = l :: splitlines_from "" rest.
Proof.
  intros H. now rewrite (splitlines_plain_text l "" _ H).
Qed.

Lemma splitlines_output_terminated (lines : list string) :
  Forall (fun l => plain_text l = true) lines ->
  splitlines (output_terminated lines) = lines.
Proof.
  unfold splitlines, output_terminated.
  induction 1 as [|l lines Hplain Hlines IH]; [reflexivity|].
  change (map (fun l0 => l0 ++ String LF "") (l :: lines))
    with ((l ++ String LF "")
          :: map (fun l0 => l0 ++ String LF "") lines).
  rewrite concat_empty_cons, append_snoc.
  rewrite (splitlines_line_feed l _ Hplain). now rewrite IH.
Qed.

Lemma output_lines_plain (lines : list string) :
  Forall output_line lines -> Forall (fun l => plain_text l = true) lines.
Proof.
  intros H. eapply Forall_impl; [|exact H]. intros l [_ Hl]. exact Hl.
Qed.

Lemma splitlines_of_git_output (lines : list string) (out : string) :
  Forall output_line lines ->
  out = output_of lines \/ out = output_terminated lines ->
  splitlines out = lines.
Proof.
  intros H [-> | ->].
  - now apply splitlines_output_of.
  - apply splitlines_output_terminated. now apply output_lines_plain.
Qed.

(** X13: when [git] prints non-empty lines of plain ASCII text, either with
    LF between them (as [git log --pretty=format:] does) or with LF after
    each of them (as [git reflog] does), the commit-log parser gives the rows
    of the lines that have at least four pipes, in order, and the reflog
    parser one row per line, in order. *)
Theorem parsers_follow_the_lines (env : Env) (repo : string)
  (lines : list string) (out : string) :
  Forall output_line lines ->
  out = output_of lines \/ out = output_terminated lines ->
  (run_git env repo
     ["log"; "--all"; "--pretty=format:%H|%an|%ae|%ad|%s"; "--date=iso"]
   = Ok out ->
   parse_git_log env repo = Ok (filter_some git_log_row lines))
  /\ (run_git env repo ["reflog"; "--date=iso"] = Ok out ->
      parse_reflog env repo = Ok (map reflog_row lines)).
Proof.
  intros Hlines Hform.
  pose proof (splitlines_of_git_output lines out Hlines Hform) as Hsplit.
  split; intros Hout.
  - unfold parse_git_log. rewrite Hout. simpl. now rewrite Hsplit.
  - unfold parse_reflog. rewrite Hout. simpl. now rewrite Hsplit.
Qed.

Lemma parsers_follow_the_lines_witness :
  (Forall output_line log_lines
   /\ parse_git_log (env_git (output_of log_lines) "") "/srv/repo"
      = Ok [ event "local_commit" "commit" (JStr "Ann")
               (JStr "ann@example.org") (JStr "2025-09-01 08:30:00 +0200")
               (JStr "") (JStr "c0ffee") (JStr "second | more") (JStr "");
             event "local_commit" "commit" (JStr "Bob")
               (JStr "bob@example.org") (JStr "2025-08-31 17:00:00 +0200")
               (JStr "") (JStr "decade") (JStr "first") (JStr "") ])
  /\ (Forall output_line reflog_lines
      /\ output_terminated reflog_lines
         = "c0ffee HEAD@{2025-09-01 08:30:00 +0200}: commit: second"
           ++ String LF
                ("decade HEAD@{2025-08-31 17:00:00 +0200}: commit (initial): first"
                 ++ String LF "")
      /\ parse_reflog (env_git "" (output_terminated reflog_lines))
           "/srv/repo"
         = Ok [ event "local_reflog" "reflog" (JStr "") (JStr "") (JStr "")
                  (JStr "") (JStr "c0ffee")
                  (JStr "HEAD@{2025-09-01 08:30:00 +0200}: commit: second")
                  (JStr "");
                event "local_reflog" "reflog" (JStr "") (JStr "") (JStr "")
                  (JStr "") (JStr "decade")
                  (JStr "HEAD@{2025-08-31 17:00:00 +0200}: commit (initial): first")
                  (JStr "") ]).
Proof.
  assert (H1 : Forall output_line log_lines).
  { repeat constructor; discriminate. }
  assert (H2 : Forall output_line reflog_lines).
  { repeat constructor; discriminate. }
  split.
  - split; [exact H1|].
    exact (proj1 (parsers_follow_the_lines
                    (env_git (output_of log_lines) "") "/srv/repo"
                    log_lines (output_of log_lines) H1
                    (or_introl eq_refl))
             eq_refl).
  - split; [exact H2|]. split; [reflexivity|].
    exact (proj2 (parsers_follow_the_lines
                    (env_git "" (output_terminated reflog_lines)) "/srv/repo"
                    reflog_lines (output_terminated reflog_lines) H2
                    (or_intror eq_refl))
             eq_refl).
Defined.



(** *** Lines with more than four pipes *)





(** ** Requests of a run *)

Lemma get_sends (self : GitLabClient) (path : string) (params : pydict)
  (s : session) :
  exists new,
    sent (snd (_get self path params s)) = (sent s ++ new)%list
    /\ (0 < List.length new)%nat.
Proof.
  destruct (_get self path params s) as [res s'] eqn:H. unfold _get in H.
  destruct (get_pages_requests _ _ (fun _ => True) _ (fun _ _ _ => I)
              _ _ _ _ _ I H) as (new & used & Hs & _ & _ & Hn & _).
  exists new. split; assumption.
Qed.

Lemma resolve_project_session (env : Env) (client : GitLabClient)
  (args : Args) (st : run) :
  net (snd (resolve_project env client args st))
  = snd (get_project_by_path env client (project args) (net st)).
Proof.
  unfold resolve_project.
  destruct (get_project_by_path env client (project args) (net st))
    as [proj net'].
  destruct (proj_id <- proj ;; py_getitem proj_id "id"); reflexivity.
Qed.

Lemma collect_local_session (env : Env) (args : Args)
  (a b : option datetime) (st : run) :
  net (collect_local env args a b st) = net st.
Proof.
  unfold collect_local. destruct (local_enabled args); [|reflexivity].
  rewrite (proj2 (local_step_rows _ _ _ _)).
  now rewrite (proj2 (local_step_rows _ _ _ _)).
Qed.

Lemma is_event_local (src : string) (ev : pydict) :
  src = "local_commit" \/ src = "local_reflog" ->
  is_event src ev -> is_local_source ev.
Proof.
  intros Hsrc Hev. destruct (is_event_fields src ev Hev) as [_ H].
  unfold is_local_source. rewrite H.
  destruct Hsrc as [-> | ->]; [now left | now right].
Qed.

(** X15: the remote side of a run is all or nothing.  Without an address or
    without a token (absent or empty) the collector sends no request, takes
    no reply and returns rows of the local sources only.  With both it sends
    at least four requests, one to resolve the project and at least one for
    each of the three listings, whatever the answers are. *)
Theorem remote_side_is_all_or_nothing (env : Env) (args : Args) (s : session)
  (r : run) :
  collect_data env args s = Ok r ->
  (remote_enabled args = false ->
   net r = s /\ Forall is_local_source (rows r))
  /\ (remote_enabled args = true ->
      exists new,
        sent (net r) = (sent s ++ new)%list /\ (4 <= List.length new)%nat).
Proof.
  intros Hc.
  destruct (filter_window env args) as [[a b]|e] eqn:Hw;
    [|unfold collect_data in Hc; rewrite Hw in Hc; discriminate].
  split; intros Hr.
  - split.
    + unfold collect_data in Hc. rewrite Hw in Hc. simpl in Hc.
      injection Hc as <-. rewrite collect_local_session.
      unfold collect_remote. now rewrite Hr.
    + destruct (collect_data_rows env args s a b Hw) as (r' & Hr' & Hrows).
      rewrite Hc in Hr'. injection Hr' as <-.
      destruct (remote_listings env args s) as [[l1 l2] l3].
      rewrite Hrows, Hr. simpl.
      destruct (local_enabled args); [|constructor].
      apply Forall_app; split; apply local_rows_Forall; intros entries Hp.
      * apply parse_git_log_events in Hp.
        eapply Forall_impl; [|exact Hp].
        intros ev. apply is_event_local. now left.
      * apply parse_reflog_events in Hp.
        eapply Forall_impl; [|exact Hp].
        intros ev. apply is_event_local. now right.
  - unfold collect_data in Hc. rewrite Hw in Hc. simpl in Hc.
    injection Hc as <-. rewrite collect_local_session.
    unfold collect_remote. rewrite Hr.
    destruct (resolve_project env (client_of args) args (mk_run [] s []))
      as [proj_id st0] eqn:Hres.
    pose proof (resolve_project_session env (client_of args) args
                  (mk_run [] s [])) as H0.
    rewrite Hres in H0. simpl in H0.
    rewrite (proj2 (remote_step_rows _ _ _ _)).
    rewrite (proj2 (remote_step_rows _ _ _ _)).
    rewrite (proj2 (remote_step_rows _ _ _ _)).
    rewrite H0.
    unfold list_merge_requests, list_branches, list_commits,
      get_project_by_path.
    destruct (get_sends (client_of args)
                ("/api/v4/projects/" ++ quote_plus env (project args)) [] s)
      as (n1 & E1 & L1).
    set (s1 := snd (_get (client_of args)
                      ("/api/v4/projects/" ++ quote_plus env (project args))
                      [] s)) in *.
    destruct (get_sends (client_of args)
                ("/api/v4/projects/" ++ quote_plus env (py_str env proj_id)
                 ++ "/repository/commits") [] s1) as (n2 & E2 & L2).
    set (s2 := snd (_get (client_of args)
                      ("/api/v4/projects/"
                       ++ quote_plus env (py_str env proj_id)
                       ++ "/repository/commits") [] s1)) in *.
    destruct (get_sends (client_of args)
                ("/api/v4/projects/" ++ quote_plus env (py_str env proj_id)
                 ++ "/repository/branches") [] s2) as (n3 & E3 & L3).
    set (s3 := snd (_get (client_of args)
                      ("/api/v4/projects/"
                       ++ quote_plus env (py_str env proj_id)
                       ++ "/repository/branches") [] s2)) in *.
    destruct (get_sends (client_of args)
                ("/api/v4/projects/" ++ quote_plus env (py_str env proj_id)
                 ++ "/merge_requests") [("state", JStr "all")] s3)
      as (n4 & E4 & L4).
    exists (n1 ++ n2 ++ n3 ++ n4)%list. split.
    + rewrite E4, E3, E2, E1. now rewrite <- !app_assoc.
    + rewrite !length_app. lia.
Qed.

Lemma remote_side_is_all_or_nothing_witness :
  remote_enabled no_token_args = false
  /\ exists r,
       collect_data env_repo no_token_args sample_session = Ok r
       /\ net r = sample_session
       /\ Forall is_local_source (rows r).
Proof.
  assert (H : remote_enabled no_token_args = false) by reflexivity.
  split; [exact H|].
  eexists. split; [reflexivity|].
  exact (proj1 (remote_side_is_all_or_nothing env_repo no_token_args
                  sample_session _ eq_refl) H).
Defined.

(** ** CSV file of a run *)

Lemma string_compare_as_OT (a b : string) :
  String.compare a b = OrdersEx.String_as_OT.compare a b.
Proof.
  revert b. induction a as [|x a IH]; destruct b as [|y b]; reflexivity.
Qed.

Lemma string_lt_trans (a b c : string) :
  String.compare a b = Lt -> String.compare b c = Lt ->
  String.compare a c = Lt.
Proof.
  rewrite !string_compare_as_OT.
  exact (@RelationClasses.StrictOrder_Transitive _ _
           OrdersEx.String_as_OT.lt_strorder a b c).
Qed.

Lemma string_lt_irrefl (a : string) : String.compare a a <> Lt.
Proof.
  rewrite string_compare_as_OT.
  exact (@RelationClasses.StrictOrder_Irreflexive _ _
           OrdersEx.String_as_OT.lt_strorder a).
Qed.

Lemma sorted_NoDup (l : list string) :
  Sorted (fun a b => String.compare a b = Lt) l -> NoDup l.
Proof.
  intros H. apply Sorted_StronglySorted in H;
    [|intros a b c; apply string_lt_trans].
  induction H as [|x l Hl IH Hx]; constructor; [|exact IH].
  intros Hin. rewrite Forall_forall in Hx.
  exact (string_lt_irrefl x (Hx x Hin)).
Qed.

Lemma dict_set_new (d : pydict) (k : string) (v : json) :
  dict_lookup d k = None -> dict_set d k v = (d ++ [(k, v)])%list.
Proof.
  induction d as [|[k' v'] d IH]; simpl; [reflexivity|].
  destruct (k' =? k)%string; [discriminate|].
  intros H. now rewrite (IH H).
Qed.

Lemma dict_lookup_absent (d : pydict) (k : string) :
  ~ In k (dict_keys d) -> dict_lookup d k = None.
Proof.
  induction d as [|[k' v] d IH]; simpl; [reflexivity|].
  intros H. destruct (String.eqb_spec k' k) as [-> | Hk]; [tauto|].
  apply IH. tauto.
Qed.

Lemma dict_of_zip_NoDup (f : string -> string) (names : list string) :
  forall d,
    NoDup names -> (forall k, In k names -> ~ In k (dict_keys d)) ->
    fold_left (fun d p => dict_set d (fst p) (JStr (snd p)))
      (combine names (map f names)) d
    = (d ++ map (fun k => (k, JStr (f k))) names)%list.
Proof.
  induction names as [|x names IH]; intros d Hnd Hd; simpl.
  - now rewrite app_nil_r.
  - inversion Hnd as [|? ? Hx Hnd']; subst.
    rewrite dict_set_new
      by (apply dict_lookup_absent, Hd; now left).
    rewrite IH; [now rewrite <- app_assoc | exact Hnd' |].
    intros k Hk. unfold dict_keys. rewrite map_app, in_app_iff. simpl.
    intros [H | [H | []]].
    + exact (Hd k (or_intror Hk) H).
    + subst k. contradiction.
Qed.

Lemma dict_row_NoDup (env : Env) (keys : list string) (r : pydict) :
  NoDup keys -> dict_row keys (row_cells env keys r) = read_back env keys r.
Proof.
  intros Hnd. unfold dict_row, row_cells, read_back.
  rewrite length_map, Nat.ltb_irrefl, skipn_all. simpl.
  unfold dict_of_zip.
  rewrite (dict_of_zip_NoDup
             (fun k => csv_text env (dict_get r k (JStr ""))) keys [] Hnd);
    [reflexivity | intros k _ []].
Qed.

(** X16: the file [write_csv] makes of events that have at least one key is
    read by [DictReader] as exactly one row per event, in order; every row has
    exactly the columns of the header, each once, none missing and no cell
    beyond them, and holds under a column the text written for the event's
    value: the string itself, the empty string for [None] as for an absent
    key. *)
Theorem write_csv_reads_back_exactly (env : Env) (rows : list pydict) :
  rows <> [] -> fieldnames rows <> [] ->
  NoDup (fieldnames rows)
  /\ exists content,
       write_csv env rows = Some content
       /\ DictReader content = Ok (map (read_back env (fieldnames rows)) rows)
       /\ forall r k,
            (dict_lookup r k = Some JNull \/ dict_lookup r k = None) ->
            csv_text env (dict_get r k (JStr "")) = "".
Proof.
  intros Hrows Hkeys.
  assert (Hnd : NoDup (fieldnames rows)).
  { apply sorted_NoDup. exact (proj1 (fieldnames_sorted_union rows)). }
  split; [exact Hnd|].
  destruct (DictReader_write_csv env rows Hrows Hkeys) as (content & Hw & Hr).
  exists content. split; [exact Hw|]. split.
  - rewrite Hr. apply f_equal. apply map_ext. intros r.
    now apply dict_row_NoDup.
  - intros r k [H | H]; unfold dict_get; rewrite H; reflexivity.
Qed.

Lemma write_csv_reads_back_exactly_witness :
  csv_rows <> [] /\ fieldnames csv_rows <> []
  /\ exists content,
       write_csv env_iso csv_rows = Some content
       /\ DictReader content
          = Ok (map (read_back env_iso (fieldnames csv_rows)) csv_rows).
Proof.
  assert (H1 : csv_rows <> []) by discriminate.
  assert (H2 : fieldnames csv_rows <> []) by discriminate.
  split; [exact H1|]. split; [exact H2|].
  destruct (write_csv_reads_back_exactly env_iso csv_rows H1 H2)
    as (_ & content & Hw & Hr & _).
  exists content. split; [exact Hw | exact Hr].
Defined.

Lemma sorted_set_app (a b : list string) :
  sorted_set (a ++ b)%list = fold_right insert_sorted (sorted_set b) a.
Proof. unfold sorted_set. apply fold_right_app. Qed.

Lemma fieldnames_of_events (rows : list pydict) :
  rows <> [] ->
  Forall (fun ev => dict_keys ev = nine_fields) rows ->
  fieldnames rows = sorted_fields.
Proof.
  unfold fieldnames.
  induction rows as [|ev rows IH]; intros Hne Hall; [contradiction|].
  inversion Hall as [|? ? Hev Hall']; subst.
  cbn [flat_map]. rewrite sorted_set_app, Hev.
  destruct rows as [|ev' rows'].
  - reflexivity.
  - rewrite IH; [reflexivity | discriminate | exact Hall'].
Qed.

(** ** HTML page *)

Lemma existsb_eqb_In (k : string) (keys : list string) :
  existsb (String.eqb k) keys = true <-> In k keys.
Proof.
  rewrite existsb_exists. split.
  - intros (x & Hin & Heq). apply String.eqb_eq in Heq. now subst.
  - intros H. exists k. split; [exact H | apply String.eqb_refl].
Qed.

Lemma add_key_In (keys : list string) (k x : string) :
  In x (add_key keys k) <-> x = k \/ In x keys.
Proof.
  unfold add_key. destruct (existsb (String.eqb k) keys) eqn:E.
  - apply existsb_eqb_In in E. intuition congruence.
  - rewrite in_app_iff. simpl. intuition congruence.
Qed.

Lemma add_key_NoDup (keys : list string) (k : string) :
  NoDup keys -> NoDup (add_key keys k).
Proof.
  intros H. unfold add_key. destruct (existsb (String.eqb k) keys) eqn:E;
    [exact H|].
  apply NoDup_app; [exact H | repeat constructor; intros [] |].
  intros x Hx [<- | []].
  apply existsb_eqb_In in Hx. congruence.
Qed.

Lemma add_keys_spec (l : list string) :
  forall keys,
    NoDup keys ->
    NoDup (fold_left add_key l keys)
    /\ forall x, In x (fold_left add_key l keys) <-> In x l \/ In x keys.
Proof.
  induction l as [|k l IH]; intros keys H; simpl; [intuition|].
  destruct (IH (add_key keys k) (add_key_NoDup keys k H)) as [H1 H2].
  split; [exact H1|].
  intros x. rewrite H2, add_key_In. intuition congruence.
Qed.

Lemma add_keys_known (l : list string) :
  forall keys,
    (forall k, In k l -> In k keys) -> fold_left add_key l keys = keys.
Proof.
  induction l as [|k l IH]; intros keys H; simpl; [reflexivity|].
  assert (Hk : add_key keys k = keys).
  { unfold add_key.
    destruct (existsb (String.eqb k) keys) eqn:E; [reflexivity|].
    assert (Hin : In k keys) by (apply H; now left).
    apply existsb_eqb_In in Hin. congruence. }
  rewrite Hk. apply IH. intros x Hx. apply H. now right.
Qed.

Lemma add_keys_new (l : list string) :
  forall keys,
    NoDup l -> (forall k, In k l -> ~ In k keys) ->
    fold_left add_key l keys = (keys ++ l)%list.
Proof.
  induction l as [|k l IH]; intros keys Hl Hk; simpl;
    [now rewrite app_nil_r|].
  inversion Hl as [|? ? Hnotin Hl']; subst.
  assert (E : add_key keys k = (keys ++ [k])%list).
  { unfold add_key.
    destruct (existsb (String.eqb k) keys) eqn:E; [|reflexivity].
    apply existsb_eqb_In in E. exfalso. exact (Hk k (or_introl eq_refl) E). }
  rewrite E, IH; [now rewrite <- app_assoc | exact Hl' |].
  intros x Hx. rewrite in_app_iff. simpl. intros [H | [<- | []]].
  - exact (Hk x (or_intror Hx) H).
  - contradiction.
Qed.

Lemma html_keys_from (rows : list pydict) :
  forall keys,
    NoDup keys ->
    NoDup (fold_left (fun keys r => fold_left add_key (dict_keys r) keys)
             rows keys)
    /\ forall x,
         In x (fold_left (fun keys r => fold_left add_key (dict_keys r) keys)
                 rows keys)
         <-> (exists r, In r rows /\ In x (dict_keys r)) \/ In x keys.
Proof.
  induction rows as [|r rows IH]; intros keys H; simpl.
  - split; [exact H|]. intros x. split; [now right|].
    intros [(r & [] & _) | Hx]; exact Hx.
  - destruct (add_keys_spec (dict_keys r) keys H) as [H1 H2].
    destruct (IH _ H1) as [H3 H4]. split; [exact H3|].
    intros x. rewrite H4, H2. split.
    + intros [(r' & Hr' & Hx) | [Hx | Hx]].
      * left. exists r'. split; [now right | exact Hx].
      * left. exists r. split; [now left | exact Hx].
      * now right.
    + intros [(r' & [<- | Hr'] & Hx) | Hx].
      * right. now left.
      * left. exists r'. split; assumption.
      * right. now right.
Qed.

Lemma html_keys_uniform (ks : list string) (rows : list pydict) :
  NoDup ks -> rows <> [] ->
  Forall (fun r => dict_keys r = ks) rows ->
  html_keys rows = ks.
Proof.
  intros Hks Hne Hall. unfold html_keys.
  destruct rows as [|r rows]; [contradiction|].
  inversion Hall as [|? ? Hr Hrows]; subst. simpl.
  rewrite (add_keys_new (dict_keys r) [] Hks) by (intros k _ []).
  simpl. clear Hne Hall.
  induction rows as [|r' rows IH]; [reflexivity|].
  inversion Hrows as [|? ? Hr' Hrows']; subst. simpl.
  rewrite Hr', (add_keys_known (dict_keys r) (dict_keys r)) by auto.
  now apply IH.
Qed.

Lemma html_keys_flat (rows : list pydict) :
  forall keys,
    fold_left (fun keys r => fold_left add_key (dict_keys r) keys) rows keys
    = fold_left add_key (flat_map dict_keys rows) keys.
Proof.
  induction rows as [|r rows IH]; intros keys; simpl; [reflexivity|].
  now rewrite fold_left_app, IH.
Qed.

Lemma add_keys_extend (l : list string) :
  forall keys, exists more, fold_left add_key l keys = (keys ++ more)%list.
Proof.
  induction l as [|k l IH]; intros keys; simpl.
  - exists []. now rewrite app_nil_r.
  - destruct (IH (add_key keys k)) as (more & ->).
    unfold add_key. destruct (existsb (String.eqb k) keys).
    + now exists more.
    + exists (k :: more). now rewrite <- app_assoc.
Qed.

Lemma add_keys_first_seen (p q : list string) (k : string) :
  ~ In k p ->
  exists after,
    fold_left add_key (p ++ k :: q) []
    = (fold_left add_key p [] ++ k :: after)%list.
Proof.
  intros Hk. rewrite fold_left_app. simpl.
  destruct (add_keys_spec p [] (NoDup_nil _)) as [_ Hin].
  remember (fold_left add_key p []) as seen eqn:Hseen. clear Hseen.
  assert (E : add_key seen k = (seen ++ [k])%list).
  { unfold add_key.
    destruct (existsb (String.eqb k) seen) eqn:E; [|reflexivity].
    apply existsb_eqb_In in E. apply Hin in E.
    destruct E as [E | []]. contradiction. }
  rewrite E.
  destruct (add_keys_extend q (seen ++ [k])) as (more & ->).
  exists more. now rewrite <- app_assoc.
Qed.

(** X17: the page has one column for every key that some row has, no column
    twice, in the order in which the keys are first met: where a key stands
    for the first time in the sequence of the keys of all rows, the columns
    before its column are those of the keys that stand before it there.  When
    all rows have the same keys in the same order, that order is the order of
    the columns. *)
Theorem html_columns_are_first_seen (rows : list pydict) :
  NoDup (html_keys rows)
  /\ (forall k, In k (html_keys rows)
                <-> exists r, In r rows /\ In k (dict_keys r))
  /\ (forall p k q,
        flat_map dict_keys rows = (p ++ k :: q)%list -> ~ In k p ->
        exists before after,
          html_keys rows = (before ++ k :: after)%list
          /\ forall x, In x before <-> In x p)
  /\ (forall ks,
        NoDup ks -> rows <> [] ->
        Forall (fun r => dict_keys r = ks) rows ->
        html_keys rows = ks).
Proof.
  destruct (html_keys_from rows [] (NoDup_nil _)) as [H1 H2].
  split; [exact H1|]. split; [|split].
  - intros k. unfold html_keys. rewrite H2. split.
    + intros [H | []]. exact H.
    + intros H. now left.
  - intros p k q Hflat Hk. unfold html_keys.
    rewrite html_keys_flat, Hflat.
    destruct (add_keys_first_seen p q k Hk) as (after & ->).
    exists (fold_left add_key p []), after. split; [reflexivity|].
    intros x. destruct (add_keys_spec p [] (NoDup_nil _)) as [_ Hin].
    rewrite Hin. split; [intros [H | []]; exact H | now left].
  - intros ks. apply html_keys_uniform.
Qed.

Lemma count_char_app (c : ascii) (a b : string) :
  count_char c (a ++ b) = (count_char c a + count_char c b)%nat.
Proof.
  induction a as [|x a IH]; simpl; [reflexivity|]. rewrite IH. lia.
Qed.

Lemma count_char_concat {A : Type} (c : ascii) (f : A -> string) (m : nat)
  (l : list A) :
  (forall x, count_char c (f x) = m) ->
  count_char c (String.concat "" (map f l)) = (List.length l * m)%nat.
Proof.
  intros H. induction l as [|x l IH]; [reflexivity|].
  change (map f (x :: l)) with (f x :: map f l).
  rewrite concat_empty_cons, count_char_app, H, IH. simpl. lia.
Qed.

Lemma html_escape_char_safe (a : ascii) :
  count_char LANGLE (html_escape_char a) = O
  /\ count_char RANGLE (html_escape_char a) = O
  /\ count_char QUOTE (html_escape_char a) = O
  /\ count_char APOS (html_escape_char a) = O.
Proof.
  unfold html_escape_char.
  destruct (Ascii.eqb a AMP); [repeat split|].
  destruct (Ascii.eqb a LANGLE) eqn:E1; [repeat split|].
  destruct (Ascii.eqb a RANGLE) eqn:E2; [repeat split|].
  destruct (Ascii.eqb a QUOTE) eqn:E3; [repeat split|].
  destruct (Ascii.eqb a APOS) eqn:E4; [repeat split|].
  simpl. rewrite E1, E2, E3, E4. repeat split.
Qed.

Lemma html_escape_safe (s : string) :
  count_char LANGLE (html_escape s) = O /\ count_char RANGLE (html_escape s) = O
  /\ count_char QUOTE (html_escape s) = O
  /\ count_char APOS (html_escape s) = O.
Proof.
  induction s as [|a s (H1 & H2 & H3 & H4)]; simpl; [repeat split|].
  destruct (html_escape_char_safe a) as (G1 & G2 & G3 & G4).
  rewrite !count_char_app, H1, H2, H3, H4, G1, G2, G3, G4. repeat split.
Qed.

(** X18: no value reaches the page as markup.  Whatever the keys and the
    values of the rows hold, the part of the page that the writer builds from
    them has as many opening and closing angle brackets as its own tags need
    (two per header cell, three for the turn to the body, two per row and two
    per cell) and no double or single quote at all. *)
Theorem html_table_has_only_its_own_markup (env : Env) (rows : list pydict) :
  let k := List.length (html_keys rows) in
  let n := List.length rows in
  count_char LANGLE (html_table env rows) = (2 * k + 3 + n * (2 + 2 * k))%nat
  /\ count_char RANGLE (html_table env rows) = (2 * k + 3 + n * (2 + 2 * k))%nat
  /\ count_char QUOTE (html_table env rows) = O
  /\ count_char APOS (html_table env rows) = O.
Proof.
  intros k n. unfold html_table.
  assert (Hth : forall c m,
             (forall s, count_char c (html_escape s) = O) ->
             count_char c "<th>" = m -> count_char c "</th>" = m ->
             forall x, count_char c (html_header_cell x) = (2 * m)%nat).
  { intros c m Hc H1 H2 x. unfold html_header_cell.
    rewrite !count_char_app, Hc, H1, H2. lia. }
  assert (Htd : forall c m,
             (forall s, count_char c (html_escape s) = O) ->
             count_char c "<td>" = m -> count_char c "</td>" = m ->
             forall r x, count_char c (html_cell env r x) = (2 * m)%nat).
  { intros c m Hc H1 H2 r x. unfold html_cell.
    rewrite !count_char_app, Hc, H1, H2. lia. }
  assert (Htr : forall c m,
             (forall s, count_char c (html_escape s) = O) ->
             count_char c "<td>" = m -> count_char c "</td>" = m ->
             count_char c "<tr>" = m -> count_char c "</tr>" = m ->
             forall keys r,
               count_char c (html_row env keys r)
               = (2 * m + List.length keys * (2 * m))%nat).
  { intros c m Hc H1 H2 H3 H4 keys r. unfold html_row.
    rewrite !count_char_app, H3, H4.
    rewrite (count_char_concat c (html_cell env r) (2 * m) keys
               (Htd c m Hc H1 H2 r)).
    lia. }
  assert (Hall : forall c m t,
             (forall s, count_char c (html_escape s) = O) ->
             count_char c "<th>" = m -> count_char c "</th>" = m ->
             count_char c "<td>" = m -> count_char c "</td>" = m ->
             count_char c "<tr>" = m -> count_char c "</tr>" = m ->
             count_char c "</tr></thead><tbody>" = t ->
             count_char c
               (String.concat "" (map html_header_cell (html_keys rows))
                ++ "</tr></thead><tbody>"
                ++ String.concat ""
                     (map (html_row env (html_keys rows)) rows))
             = (k * (2 * m) + t + n * (2 * m + k * (2 * m)))%nat).
  { intros c m t Hc H1 H2 H3 H4 H5 H6 H7.
    rewrite !count_char_app, H7.
    rewrite (count_char_concat c html_header_cell (2 * m) _ (Hth c m Hc H1 H2)).
    rewrite (count_char_concat c (html_row env (html_keys rows))
               (2 * m + k * (2 * m)) rows
               (fun r => Htr c m Hc H3 H4 H5 H6 (html_keys rows) r)).
    unfold k, n. lia. }
  repeat split.
  - rewrite (Hall LANGLE 1%nat 3%nat (fun s => proj1 (html_escape_safe s)))
      by reflexivity. lia.
  - rewrite (Hall RANGLE 1%nat 3%nat
               (fun s => proj1 (proj2 (html_escape_safe s))))
      by reflexivity. lia.
  - rewrite (Hall QUOTE 0%nat 0%nat
               (fun s => proj1 (proj2 (proj2 (html_escape_safe s)))))
      by reflexivity. lia.
  - rewrite (Hall APOS 0%nat 0%nat
               (fun s => proj2 (proj2 (proj2 (html_escape_safe s)))))
      by reflexivity. lia.
Qed.

Lemma html_columns_are_first_seen_witness :
  (flat_map dict_keys csv_rows
   = (["source"; "message"] ++ "url" :: ["message"])%list
   /\ ~ In "url" ["source"; "message"]
   /\ html_keys csv_rows = ["source"; "message"; "url"]
   /\ exists before after,
        html_keys csv_rows = (before ++ "url" :: after)%list
        /\ forall x, In x before <-> In x ["source"; "message"])
  /\ (NoDup nine_fields
      /\ html_keys
           [ event "local_commit" "commit" (JStr "Ann") (JStr "") (JStr "")
               (JStr "") (JStr "c0ffee") (JStr "first") (JStr "");
             event "local_reflog" "reflog" (JStr "") (JStr "") (JStr "")
               (JStr "") (JStr "c0ffee") (JStr "commit: first") (JStr "") ]
         = nine_fields).
Proof.
  assert (Hflat : flat_map dict_keys csv_rows
                  = (["source"; "message"] ++ "url" :: ["message"])%list)
    by reflexivity.
  assert (Hnew : ~ In "url" ["source"; "message"]).
  { intros [H | [H | []]]; discriminate H. }
  assert (H : NoDup nine_fields).
  { repeat constructor; simpl; intuition discriminate. }
  split.
  - split; [exact Hflat|]. split; [exact Hnew|]. split; [reflexivity|].
    exact (proj1 (proj2 (proj2 (html_columns_are_first_seen csv_rows)))
             ["source"; "message"] "url" ["message"] Hflat Hnew).
  - split; [exact H|].
    refine (proj2 (proj2 (proj2 (html_columns_are_first_seen _)))
              nine_fields H _ _).
    + discriminate.
    + repeat constructor.
Defined.

Lemma html_escape_char_inj (x y : ascii) (s1 s2 : string) :
  html_escape_char x ++ s1 = html_escape_char y ++ s2 -> x = y /\ s1 = s2.
Proof.
  unfold html_escape_char.
  destruct (Ascii.eqb_spec x AMP); destruct (Ascii.eqb_spec y AMP);
    destruct (Ascii.eqb_spec x LANGLE); destruct (Ascii.eqb_spec y LANGLE);
    destruct (Ascii.eqb_spec x RANGLE); destruct (Ascii.eqb_spec y RANGLE);
    destruct (Ascii.eqb_spec x QUOTE); destruct (Ascii.eqb_spec y QUOTE);
    destruct (Ascii.eqb_spec x APOS); destruct (Ascii.eqb_spec y APOS);
    subst; simpl; intros H; try discriminate H;
    try (injection H as H1 H2; subst; try contradiction; split; reflexivity);
    try (injection H; intros; subst; split; reflexivity).
Qed.

Lemma html_escape_char_nonempty (x : ascii) (s : string) :
  html_escape_char x ++ s <> "".
Proof.
  unfold html_escape_char.
  destruct (Ascii.eqb x AMP), (Ascii.eqb x LANGLE), (Ascii.eqb x RANGLE),
    (Ascii.eqb x QUOTE), (Ascii.eqb x APOS); discriminate.
Qed.

Lemma html_escape_inj (a : string) :
  forall b, html_escape a = html_escape b -> a = b.
Proof.
  induction a as [|x a IH]; destruct b as [|y b]; simpl; intros H.
  - reflexivity.
  - symmetry in H. now apply html_escape_char_nonempty in H.
  - now apply html_escape_char_nonempty in H.
  - apply html_escape_char_inj in H. destruct H as [-> H].
    now rewrite (IH b H).
Qed.

Lemma length_append (a b : string) :
  String.length (a ++ b) = (String.length a + String.length b)%nat.
Proof. induction a as [|x a IH]; simpl; [reflexivity | now rewrite IH]. Qed.

Lemma append_cancel_r (t : string) (a : string) :
  forall b, a ++ t = b ++ t -> a = b.
Proof.
  induction a as [|x a IH]; destruct b as [|y b]; simpl; intros H.
  - reflexivity.
  - apply (f_equal String.length) in H. simpl in H.
    rewrite length_append in H. lia.
  - apply (f_equal String.length) in H. simpl in H.
    rewrite length_append in H. lia.
  - injection H as -> H. now rewrite (IH b H).
Qed.

(** X19: escaping loses nothing: two texts with the same escaped form are
    the same text, so two cells of the page are equal only when the values
    they show have the same [str]. *)
Theorem html_cells_keep_their_values (env : Env) (r r' : pydict)
  (k k' : string) :
  html_cell env r k = html_cell env r' k' ->
  py_str env (dict_get r k (JStr "")) = py_str env (dict_get r' k' (JStr "")).
Proof.
  unfold html_cell. intros H.
  injection H as H. apply append_cancel_r in H.
  now apply html_escape_inj.
Qed.

Lemma html_cells_keep_their_values_witness :
  html_cell env_iso [("message", JStr "a < b & c")] "message"
  = "<td>a &lt; b &amp; c</td>"
  /\ py_str env_iso (dict_get [("message", JStr "a < b & c")] "message" (JStr ""))
     = py_str env_iso (dict_get [("m", JStr "a < b & c")] "m" (JStr "")).
Proof.
  split; [reflexivity|].
  exact (html_cells_keep_their_values env_iso [("message", JStr "a < b & c")]
           [("m", JStr "a < b & c")] "message" "m" eq_refl).
Defined.

(** ** A whole run *)

Lemma collect_data_keys (env : Env) (args : Args) (s : session) (r : run) :
  collect_data env args s = Ok r ->
  Forall (fun ev => dict_keys ev = nine_fields) (rows r).
Proof.
  intros H. eapply Forall_impl; [|exact (collect_data_events env args s r H)].
  intros ev [Hk _]. exact Hk.
Qed.

(** X20: what a run leaves behind.  [main] writes no file exactly when the
    collector returns no row; otherwise the CSV file is read by [DictReader]
    as one row per event, in the order of collection, under the nine field
    names in alphabetical order, and the page has the nine field names as
    columns in the order of the event dictionaries. *)
Theorem main_outputs (env : Env) (args : Args) (fmt : output_format)
  (s : session) (r : run) (out : option string) :
  main env args fmt s = Ok (r, out) ->
  collect_data env args s = Ok r
  /\ (out = None <-> rows r = [])
  /\ (rows r <> [] -> fmt = csv_output ->
      fieldnames (rows r) = sorted_fields
      /\ exists content,
           out = Some content
           /\ DictReader content
              = Ok (map (read_back env sorted_fields) (rows r)))
  /\ (rows r <> [] -> fmt = html_output ->
      out = Some (write_interactive_html env (rows r))
      /\ html_keys (rows r) = nine_fields).
Proof.
  unfold main. intros H.
  destruct (collect_data env args s) as [r0|e] eqn:Hc; [|discriminate H].
  simpl in H.
  pose proof (collect_data_keys env args s r0 Hc) as Hkeys.
  assert (Hr : r0 = r).
  { destruct (rows r0); [|destruct fmt]; injection H as <- _; reflexivity. }
  subst r0. split; [reflexivity|].
  assert (Hnd : NoDup nine_fields).
  { repeat constructor; simpl; intuition discriminate. }
  destruct (rows r) as [|ev evs] eqn:Hrows.
  - injection H as <-. split; [tauto|]. split; intros Hne; contradiction.
  - assert (Hne : ev :: evs <> []) by discriminate.
    pose proof (fieldnames_of_events (ev :: evs) Hne Hkeys) as Hf.
    split; [|split].
    + split; [|discriminate]. intros ->. destruct fmt; discriminate H.
    + intros _ ->. split; [exact Hf|].
      assert (Hfn : fieldnames (ev :: evs) <> [])
        by (rewrite Hf; discriminate).
      destruct (DictReader_write_csv env (ev :: evs) Hne Hfn)
        as (content & Hw & Hread).
      exists content. split.
      * injection H as <-. exact Hw.
      * rewrite Hread, Hf. apply f_equal. apply map_ext. intros r1.
        apply dict_row_NoDup. rewrite <- Hf. apply sorted_NoDup.
        exact (proj1 (fieldnames_sorted_union (ev :: evs))).
    + intros _ ->. split; [now injection H as <-|].
      exact (html_keys_uniform nine_fields (ev :: evs) Hnd Hne Hkeys).
Qed.

Lemma main_outputs_witness :
  exists r content,
    main env_repo local_args csv_output (mk_session [] []) = Ok (r, Some content)
    /\ rows r <> []
    /\ DictReader content = Ok (map (read_back env_repo sorted_fields) (rows r)).
Proof.
  destruct (main env_repo local_args csv_output (mk_session [] []))
    as [[r out]|e] eqn:H; [|discriminate H].
  destruct (main_outputs env_repo local_args csv_output (mk_session [] []) r out
              H) as (Hc & _ & Hcsv & _).
  assert (Hne : rows r <> []).
  { vm_compute in Hc. injection Hc as <-. discriminate. }
  destruct (Hcsv Hne eq_refl) as (_ & content & -> & Hread).
  exists r, content. split; [reflexivity|]. split; [exact Hne | exact Hread].
Defined.

(** ** Normalization *)

(** X21: normalizing twice is normalizing once, provided that [dateutil],
    when it reads back a text it has itself produced through [isoformat],
    finds an instant with the same [isoformat]; without [dateutil] no
    condition is needed, and a value that is not empty is then returned as it
    is.  An empty value ([None], the empty text, zero) always gives the empty
    text, and a text that [dateutil] reads gives the [isoformat] of its
    instant. *)
Theorem normalize_date_idempotent (env : Env) (v : json) :
  (forall parse text dt dt',
     dtparser env = Some parse -> v = JStr text ->
     parse false text = Some dt ->
     parse false (isoformat env dt) = Some dt' ->
     isoformat env dt' = isoformat env dt) ->
  normalize_date env (normalize_date env v) = normalize_date env v
  /\ (truthy v = false -> normalize_date env v = JStr "")
  /\ (dtparser env = None -> truthy v = true -> normalize_date env v = v)
  /\ (forall parse text dt,
        dtparser env = Some parse -> v = JStr text -> text <> "" ->
        parse false text = Some dt ->
        normalize_date env v = JStr (isoformat env dt)).
Proof.
  intros Hiso. split; [|split; [|split]].
  - destruct (truthy v) eqn:Ht.
    + destruct (dtparser env) as [parse|] eqn:Hp.
      * destruct v as [|b|n|text|items|members];
          try discriminate Ht;
          try (rewrite !(normalize_date_non_text env _ Ht eq_refl);
               reflexivity).
        destruct (parse false text) as [dt|] eqn:Hparse.
        -- assert (E : normalize_date env (JStr text)
                       = JStr (isoformat env dt)).
           { unfold normalize_date. now rewrite Ht, Hp, Hparse. }
           rewrite !E. unfold normalize_date. rewrite Hp.
           destruct (truthy (JStr (isoformat env dt))) eqn:Ht2; simpl.
           ++ destruct (parse false (isoformat env dt)) as [dt'|] eqn:Hparse2;
                [|reflexivity].
              now rewrite (Hiso parse text dt dt' eq_refl eq_refl Hparse
                             Hparse2).
           ++ simpl in Ht2. apply Bool.negb_false_iff in Ht2.
              apply String.eqb_eq in Ht2. now rewrite Ht2.
        -- assert (E : normalize_date env (JStr text) = JStr text).
           { unfold normalize_date. now rewrite Ht, Hp, Hparse. }
           now rewrite !E.
      * assert (E : normalize_date env v = v).
        { unfold normalize_date. now rewrite Ht, Hp. }
        now rewrite !E.
    + rewrite !(normalize_date_falsy env v Ht). reflexivity.
  - apply normalize_date_falsy.
  - intros Hp Ht. unfold normalize_date. now rewrite Ht, Hp.
  - intros parse text dt Hp -> Hne Hparse.
    assert (Ht : truthy (JStr text) = true).
    { simpl. destruct (String.eqb_spec text ""); [contradiction|reflexivity]. }
    unfold normalize_date. now rewrite Ht, Hp, Hparse.
Qed.

Lemma normalize_date_idempotent_witness :
  normalize_date env_dateutil (JStr "2025-09-01 08:30:00 +0200")
  = JStr "2025-09-01T08:30:00+02:00"
  /\ normalize_date env_dateutil (JStr "2025-09-01T08:30:00+02:00")
     = JStr "2025-09-01T08:30:00+02:00"
  /\ normalize_date env_dateutil
       (normalize_date env_dateutil (JStr "2025-09-01 08:30:00 +0200"))
     = normalize_date env_dateutil (JStr "2025-09-01 08:30:00 +0200").
Proof.
  split; [reflexivity|]. split; [reflexivity|].
  refine (proj1 (normalize_date_idempotent env_dateutil
                   (JStr "2025-09-01 08:30:00 +0200") _)).
  intros parse text dt dt' Hp Hv Hparse Hparse2.
  injection Hp as <-. injection Hv as <-.
  vm_compute in Hparse. injection Hparse as <-.
  vm_compute in Hparse2. injection Hparse2 as <-.
  reflexivity.
Defined.

(** ** Loops of the collector *)

Lemma appended_cons {A : Type} (body : A -> result (option pydict)) (x : A)
  (items : list A) :
  appended body (x :: items)
  = match body x with
    | Ok (Some ev) => ev :: appended body items
    | Ok None => appended body items
    | Raise _ => []
    end.
Proof.
  unfold appended. simpl. destruct (body x) as [[ev|]|e]; try reflexivity.
  rewrite for_each_app. reflexivity.
Qed.

(** X22: a loop of the collector goes through the items in the order listed
    and stops at the first one whose processing raises; its rows are, in that
    order, the rows of the items kept before that point, at most one per
    item, and it reports an exception exactly when it did not reach the end
    of the list. *)
Theorem loop_rows_follow_the_items {A : Type}
  (body : A -> result (option pydict)) (items : list A) :
  appended body items
  = filter_some (kept body) (firstn (stops_at body items) items)
  /\ (List.length (appended body items) <= stops_at body items
      <= List.length items)%nat
  /\ (snd (for_each body items []) = None
      <-> stops_at body items = List.length items).
Proof.
  induction items as [|x items (IH1 & IH2 & IH3)].
  - repeat split; simpl; auto.
  - rewrite appended_cons. unfold kept in *. cbn [stops_at for_each].
    destruct (body x) as [[ev|]|e] eqn:E.
    + cbn [firstn filter_some List.length]. rewrite E.
      rewrite for_each_app. cbn [snd].
      split; [now rewrite IH1|]. split; [lia|].
      rewrite IH3. split; intros H; lia.
    + cbn [firstn filter_some List.length]. rewrite E.
      split; [exact IH1|]. split; [lia|].
      rewrite IH3. split; intros H; lia.
    + cbn [firstn filter_some List.length snd].
      split; [reflexivity|]. split; [lia|].
      split; intros H; discriminate H.
Qed.

(** X23: the message of a row made from a listed commit is the commit's
    message with every line feed turned into a space, so it holds no line
    feed and has the length of the original; the message of a row made from a
    branch is the tip commit's message as it is, line feeds included. *)
Theorem commit_messages_are_single_line (env : Env)
  (start end_ : option datetime) (d tip : pydict) (orig : string)
  (ev : pydict) :
  (dict_lookup d "message" = Some (JStr orig) ->
   commit_row env start end_ (JObj d) = Ok (Some ev) ->
   dict_lookup ev "message" = Some (JStr (str_replace LF SPACE orig))
   /\ count_char LF (str_replace LF SPACE orig) = O
   /\ String.length (str_replace LF SPACE orig) = String.length orig)
  /\ (dict_lookup d "commit" = Some (JObj tip) ->
      dict_lookup tip "message" = Some (JStr orig) ->
      branch_row env start end_ (JObj d) = Ok (Some ev) ->
      dict_lookup ev "message" = Some (JStr orig)).
Proof.
  split.
  - intros Hm Hrow. split; [|split].
    + unfold commit_row in Hrow. simpl in Hrow. unfold dict_get in Hrow.
      rewrite Hm in Hrow. unbind Hrow. injection Hrow as <-. reflexivity.
    + clear. induction orig as [|c s IH]; simpl; [reflexivity|].
      destruct (Ascii.eqb_spec c LF) as [-> | Hc]; simpl; [exact IH|].
      destruct (Ascii.eqb_spec c LF); [contradiction | exact IH].
    + clear. induction orig as [|c s IH]; simpl; [reflexivity|].
      now rewrite IH.
  - intros Hc Hm Hrow. unfold branch_row in Hrow. simpl in Hrow.
    unfold dict_get in Hrow. rewrite Hc in Hrow. simpl in Hrow.
    unfold dict_get in Hrow. rewrite Hm in Hrow.
    unbind Hrow. injection Hrow as <-. reflexivity.
Qed.

Lemma commit_messages_are_single_line_witness :
  commit_row env_iso None None commit_two_lines
  = Ok (Some (event "gitlab_commit" "commit" JNull JNull (JStr "") (JStr "")
                (JStr "c0ffee") (JStr "subject body") (JStr "")))
  /\ dict_lookup
       (event "gitlab_commit" "commit" JNull JNull (JStr "") (JStr "")
          (JStr "c0ffee") (JStr "subject body") (JStr ""))
       "message"
     = Some (JStr (str_replace LF SPACE ("subject" ++ String LF "body"))).
Proof.
  assert (H : commit_row env_iso None None commit_two_lines
              = Ok (Some (event "gitlab_commit" "commit" JNull JNull (JStr "")
                            (JStr "") (JStr "c0ffee") (JStr "subject body")
                            (JStr "")))) by reflexivity.
  split; [exact H|].
  exact (proj1 (proj1 (commit_messages_are_single_line env_iso None None
                         [ ("id", JStr "c0ffee");
                           ("message", JStr ("subject" ++ String LF "body")) ]
                         [] ("subject" ++ String LF "body") _)
                  eq_refl H)).
Defined.

Lemma str_replace_idem (a b : ascii) (s : string) :
  a <> b -> str_replace a b (str_replace a b s) = str_replace a b s.
Proof.
  intros Hab. induction s as [|c s IH]; simpl; [reflexivity|].
  rewrite IH. f_equal.
  destruct (Ascii.eqb_spec c a) as [-> | Hc].
  - destruct (Ascii.eqb_spec b a); [congruence | reflexivity].
  - destruct (Ascii.eqb_spec c a); [contradiction | reflexivity].
Qed.

Lemma str_replace_empty (a b : ascii) (s : string) :
  (str_replace a b s =? "")%string = (s =? "")%string.
Proof. destruct s; reflexivity. Qed.

(** X24: in a date text slashes and dashes are interchangeable:
    [parse_date_any] gives the same answer for a text and for the text with
    its slashes turned into dashes, and the parsers never see a slash. *)
Theorem parse_date_any_ignores_slashes (env : Env) (s : string) :
  parse_date_any env (JStr s)
  = parse_date_any env (JStr (str_replace SLASH DASH s))
  /\ count_char SLASH (str_replace SLASH DASH s) = O.
Proof.
  split.
  - unfold parse_date_any. simpl. rewrite str_replace_empty.
    destruct (s =? "")%string; simpl; [reflexivity|].
    rewrite str_replace_idem by discriminate. reflexivity.
  - induction s as [|c s IH]; simpl; [reflexivity|].
    destruct (Ascii.eqb_spec c SLASH) as [-> | Hc]; simpl; [exact IH|].
    destruct (Ascii.eqb_spec c SLASH); [contradiction | exact IH].
Qed.

Lemma remote_body_needs_object (env : Env) (a b : option datetime) (x : json) :
  is_object x = false ->
  commit_row env a b x = Raise AttributeError
  /\ branch_row env a b x = Raise AttributeError
  /\ merge_request_row env a b x = Raise AttributeError.
Proof.
  intros H. destruct x; try discriminate H; repeat split.
Qed.

(** X25: rows are made from JSON objects only.  An item of a listing that is
    not an object raises [AttributeError] in each of the three mappers, so a
    listing that begins with such an item, and a listing answered by a
    non-empty JSON object (whose keys are then taken for items) or by a text,
    adds no row. *)
Theorem listing_items_must_be_objects (env : Env)
  (a b : option datetime) (x : json) (items : list json)
  (d : pydict) (k : string) (v : json) :
  is_object x = false ->
  (remote_rows (Ok (JArr (x :: items))) (commit_row env a b) = []
   /\ remote_rows (Ok (JArr (x :: items))) (branch_row env a b) = []
   /\ remote_rows (Ok (JArr (x :: items))) (merge_request_row env a b) = [])
  /\ (remote_rows (Ok (JObj ((k, v) :: d))) (commit_row env a b) = []
      /\ remote_rows (Ok (JObj ((k, v) :: d))) (branch_row env a b) = []
      /\ remote_rows (Ok (JObj ((k, v) :: d))) (merge_request_row env a b)
         = []).
Proof.
  intros H.
  destruct (remote_body_needs_object env a b x H) as (H1 & H2 & H3).
  split; repeat split; unfold remote_rows; simpl; rewrite appended_cons;
    rewrite ?H1, ?H2, ?H3; reflexivity.
Qed.

Lemma listing_items_must_be_objects_witness :
  is_object (JStr "message") = false
  /\ remote_rows (Ok (JArr [JStr "message"; commit_a]))
       (commit_row env_iso None None) = []
  /\ remote_rows (Ok (JObj [("message", JStr "404 Project Not Found")]))
       (commit_row env_iso None None) = [].
Proof.
  assert (H : is_object (JStr "message") = false) by reflexivity.
  destruct (listing_items_must_be_objects env_iso None None (JStr "message")
              [commit_a] [] "message" (JStr "404 Project Not Found") H)
    as ((H1 & _) & (H2 & _)).
  split; [exact H|]. split; [exact H1 | exact H2].
Defined.

(** ** Unresolved project *)

Lemma get_sends_to (self : GitLabClient) (path : string) (params : pydict)
  (s : session) :
  exists new,
    sent (snd (_get self path params s)) = (sent s ++ new)%list
    /\ sent_to (base_url self ++ path) new.
Proof.
  destruct (_get self path params s) as [res s'] eqn:H. unfold _get in H.
  destruct (get_pages_requests _ _ (fun _ => True) _ (fun _ _ _ => I)
              _ _ _ _ _ I H) as (new & used & Hs & _ & _ & Hn & Hall).
  exists new. split; [exact Hs|]. split.
  - intros ->. simpl in Hn. lia.
  - eapply Forall_impl; [|exact Hall]. intros rq (Hu & _). exact Hu.
Qed.

Lemma remote_step_printed (fetch : session -> result json * session)
  (body : json -> result (option pydict)) (report_as : exn -> diag)
  (st : run) :
  exists more,
    printed (remote_step fetch body report_as st) = (printed st ++ more)%list.
Proof.
  unfold remote_step. destruct (fetch (net st)) as [[v|e] net'].
  - destruct (py_iter v) as [items|e]; [|eexists; reflexivity].
    destruct (for_each body items (rows st)) as [rows' err].
    eexists. reflexivity.
  - eexists. reflexivity.
Qed.

Lemma local_step_printed (parse : result (list pydict))
  (body : pydict -> result (option pydict)) (report_as : exn -> diag)
  (st : run) :
  exists more,
    printed (local_step parse body report_as st) = (printed st ++ more)%list.
Proof.
  unfold local_step. destruct parse as [entries|e]; [|eexists; reflexivity].
  destruct (for_each body entries (rows st)) as [rows' err].
  eexists. reflexivity.
Qed.

Lemma collect_local_printed (env : Env) (args : Args)
  (a b : option datetime) (st : run) :
  exists more,
    printed (collect_local env args a b st) = (printed st ++ more)%list.
Proof.
  unfold collect_local. destruct (local_enabled args);
    [|exists []; now rewrite app_nil_r].
  destruct (local_step_printed (parse_reflog env (repo_path args))
              (local_row env a b) ReflogError
              (local_step (parse_git_log env (repo_path args))
                 (local_row env a b) GitLogError st)) as (m2 & ->).
  destruct (local_step_printed (parse_git_log env (repo_path args))
              (local_row env a b) GitLogError st) as (m1 & ->).
  exists (m1 ++ m2)%list. now rewrite app_assoc.
Qed.

(** X26: when the server refuses the resolution of the project, the run goes
    on with the project as it was given: the failure is the first message
    printed, with the status and the body of the answer, and after the one
    request of the resolution the commits, the branches and the merge
    requests are each asked for, at least once and in this order, at the
    addresses built from the given value. *)
Theorem unresolved_project_is_used_as_given (env : Env) (args : Args)
  (s : session) (bad : response) (rest : list (result response)) (r : run) :
  remote_enabled args = true ->
  pending s = Ok bad :: rest -> ok bad = false ->
  collect_data env args s = Ok r ->
  (exists more,
      printed r
      = ResolveFailed (RuntimeError (status_code bad) (text bad)) :: more)
  /\ exists commits branches merge_requests,
       sent (net r)
       = (sent s
          ++ mk_request (project_url env args (project args))
               [("per_page", JNum 100)] (verify (client_of args))
             :: commits ++ branches ++ merge_requests)%list
       /\ sent_to (project_url env args (project args)
                   ++ "/repository/commits") commits
       /\ sent_to (project_url env args (project args)
                   ++ "/repository/branches") branches
       /\ sent_to (project_url env args (project args) ++ "/merge_requests")
            merge_requests.
Proof.
  intros Hen Hpending Hbad Hc.
  destruct (filter_window env args) as [[a b]|e] eqn:Hw;
    [|unfold collect_data in Hc; rewrite Hw in Hc; discriminate].
  unfold collect_data in Hc. rewrite Hw in Hc. simpl in Hc.
  injection Hc as <-.
  unfold collect_remote. rewrite Hen.
  assert (Hres : resolve_project env (client_of args) args (mk_run [] s [])
                 = (JStr (project args),
                    mk_run []
                      (mk_session rest
                         (sent s
                          ++ [mk_request (project_url env args (project args))
                                [("per_page", JNum 100)]
                                (verify (client_of args))])%list)
                      [ResolveFailed
                         (RuntimeError (status_code bad) (text bad))])).
  { unfold resolve_project, get_project_by_path, _get. simpl.
    rewrite Hpending. simpl. rewrite Hbad. reflexivity. }
  rewrite Hres.
  set (st0 := mk_run [] _ _).
  set (st1 := remote_step (list_commits env (client_of args)
                             (JStr (project args)))
                (commit_row env a b) CommitsFetchError st0).
  set (st2 := remote_step (list_branches env (client_of args)
                             (JStr (project args)))
                (branch_row env a b) BranchesFetchError st1).
  set (st3 := remote_step (list_merge_requests env (client_of args)
                             (JStr (project args)))
                (merge_request_row env a b) MergeRequestsFetchError st2).
  split.
  - destruct (collect_local_printed env args a b st3) as (m4 & ->).
    destruct (remote_step_printed
                (list_merge_requests env (client_of args)
                   (JStr (project args)))
                (merge_request_row env a b) MergeRequestsFetchError st2)
      as (m3 & E3).
    destruct (remote_step_printed
                (list_branches env (client_of args) (JStr (project args)))
                (branch_row env a b) BranchesFetchError st1) as (m2 & E2).
    destruct (remote_step_printed
                (list_commits env (client_of args) (JStr (project args)))
                (commit_row env a b) CommitsFetchError st0) as (m1 & E1).
    fold st1 in E1, E2. fold st2 in E2, E3. fold st3 in E3.
    rewrite E3, E2, E1. eexists. reflexivity.
  - rewrite collect_local_session.
    pose proof (proj2 (remote_step_rows
                         (list_commits env (client_of args)
                            (JStr (project args)))
                         (commit_row env a b) CommitsFetchError st0)) as N1.
    pose proof (proj2 (remote_step_rows
                         (list_branches env (client_of args)
                            (JStr (project args)))
                         (branch_row env a b) BranchesFetchError st1)) as N2.
    pose proof (proj2 (remote_step_rows
                         (list_merge_requests env (client_of args)
                            (JStr (project args)))
                         (merge_request_row env a b) MergeRequestsFetchError
                         st2)) as N3.
    fold st1 in N1, N2. fold st2 in N2, N3. fold st3 in N3.
    unfold list_commits in N1. unfold list_branches in N2.
    unfold list_merge_requests in N3. simpl py_str in N1, N2, N3.
    destruct (get_sends_to (client_of args)
                ("/api/v4/projects/" ++ quote_plus env (project args)
                 ++ "/repository/commits") [] (net st0)) as (n1 & S1 & T1).
    destruct (get_sends_to (client_of args)
                ("/api/v4/projects/" ++ quote_plus env (project args)
                 ++ "/repository/branches") [] (net st1)) as (n2 & S2 & T2).
    destruct (get_sends_to (client_of args)
                ("/api/v4/projects/" ++ quote_plus env (project args)
                 ++ "/merge_requests") [("state", JStr "all")] (net st2))
      as (n3 & S3 & T3).
    rewrite <- N1 in S1. rewrite <- N2 in S2. rewrite <- N3 in S3.
    exists n1, n2, n3.
    unfold project_url. rewrite !append_assoc.
    split; [|split; [exact T1 | split; [exact T2 | exact T3]]].
    rewrite S3, S2, S1. unfold st0. simpl.
    rewrite <- !app_assoc. simpl. unfold project_url.
    rewrite ?append_assoc. reflexivity.
Qed.

Lemma unresolved_project_is_used_as_given_witness :
  remote_enabled sample_args = true
  /\ ok page_forbidden = false
  /\ exists r,
       collect_data env_iso sample_args
         (mk_session [Ok page_forbidden; Ok page_two] []) = Ok r
       /\ exists more,
            printed r = ResolveFailed (RuntimeError 403 "403 Forbidden") :: more.
Proof.
  assert (H1 : remote_enabled sample_args = true) by reflexivity.
  assert (H2 : ok page_forbidden = false) by reflexivity.
  split; [exact H1|]. split; [exact H2|].
  eexists. split; [reflexivity|].
  exact (proj1 (unresolved_project_is_used_as_given env_iso sample_args
                  (mk_session [Ok page_forbidden; Ok page_two] [])
                  page_forbidden [Ok page_two] _ H1 eq_refl H2 eq_refl)).
Defined.
